(** * Signal extraction and scoring engine of the website audit tool

    A shallow embedding of the analysis route of the audit tool, with
    the properties of its category scorers and signal extractors.  The
    repository holds three revisions of the route: [route.js]
    ([src/app/api/analyze/route.js]), a later revision with detailed SEO
    and security scorers, and an earlier one with keyword-list detectors
    and an AEO/GEO scorer without detailed checks.  The feature
    detectors, the extractors of the page, the five scorers, the
    performance metrics, the insights and the request handler up to its
    score summary are embedded from [route.js], and the other two
    revisions where they differ in a scorer.  The requests that the
    handler sends are taken by what they settle to; the template of the
    report is not embedded, but for the helper that gives a score its
    style class.  The scorers are studied for every value of the data object,
    and for the object that the extractors build from a page.

    Conventions of the embedding.
    - A JavaScript string is a [string]: one character per code unit, for
      code units below 256.  Program texts that hold other characters
      (check marks in the [details] lines) are kept as the bytes of the
      source text; nothing in the program reads them back.
    - A JavaScript number that is always an integer in the program (a
      score, a count, a length) is a [Z]; the sub-scores of the
      performance lab, which are fractions, are rationals [Q].
    - An object used as a dictionary (the response headers, the [checks]
      of a scorer) is a [gmap] on strings.
    - A property that may be missing is an [option]; [None] is
      [undefined]. *)

From Stdlib Require Import ZArith QArith Qround Ascii String List Bool Lia.
From stdpp Require Import base option list strings pretty gmap.
Import ListNotations.

Local Open Scope string_scope.
Local Open Scope list_scope.
Local Open Scope Z_scope.

(** ** The JavaScript runtime, as far as the route uses it *)

Module JS.

(** The double quote, which a pattern or a text of the route may hold. *)
Definition dq : string := String (ascii_of_nat 34) EmptyString.

(** [ToBoolean] on a string: only the empty string is falsy. *)
Definition truthy (s : string) : bool :=
  match s with EmptyString => false | String _ _ => true end.

(** [ToBoolean] on a property that holds a string or is missing
    ([undefined] and [null] are falsy). *)
Definition truthy_opt (o : option string) : bool :=
  match o with Some s => truthy s | None => false end.

(** [o || d] on such a property. *)
Definition or_else (o : option string) (d : string) : string :=
  match o with Some (String a s) => String a s | _ => d end.

(** A property that holds a number: missing, [null], or a number. *)
Inductive num : Type :=
| Undefined
| Null
| Num (q : Q).

(** [ToNumber]: [null] is [0]; [undefined] is [NaN], which the route
    never converts (it tests [!== undefined] first, or uses [|| 0]). *)
Definition num_or_zero (n : num) : Q :=
  match n with Num q => q | _ => 0%Q end.

(** [Math.round]: the nearest integer, halves going up. *)
Definition round (q : Q) : Z := Qfloor (q + (1 # 2))%Q.

Definition upper_ascii (c : ascii) : ascii :=
  let n := nat_of_ascii c in
  if ((97 <=? n) && (n <=? 122))%nat then ascii_of_nat (n - 32) else c.

Definition lower_ascii (c : ascii) : ascii :=
  let n := nat_of_ascii c in
  if ((65 <=? n) && (n <=? 90))%nat then ascii_of_nat (n + 32) else c.

(** [String.prototype.toLowerCase] on code units below 256: the letters
    A-Z, and the accented capitals 192-222 other than the times sign. *)
Definition lower_unit (c : ascii) : ascii :=
  let n := nat_of_ascii c in
  if ((65 <=? n) && (n <=? 90))%nat then ascii_of_nat (n + 32)
  else if ((192 <=? n) && (n <=? 222) && negb (n =? 215))%nat
       then ascii_of_nat (n + 32) else c.

Fixpoint toLowerCase (s : string) : string :=
  match s with
  | EmptyString => EmptyString
  | String c s' => String (lower_unit c) (toLowerCase s')
  end.

(** [s.startsWith(p)]. *)
Definition startsWith (p s : string) : bool := String.prefix p s.

(** [s.includes(p)]. *)
Fixpoint includes (p s : string) : bool :=
  String.prefix p s ||
  match s with
  | EmptyString => false
  | String _ s' => includes p s'
  end.

(** Decimal text of an integer, as a template literal prints it. *)
Definition show (z : Z) : string := pretty z.

End JS.

(** ** Regular expressions

    The patterns of the route use literals, [.], character sets,
    [\s] and [\d], alternation, groups, the greedy and the lazy star,
    [+], [?] and one bounded repetition.  The matcher below follows the
    backtracking order of the language: alternatives left to right, a
    greedy quantifier tries one more iteration first, a lazy one tries
    the continuation first. *)

Module Regex.

Inductive item : Type :=
| One (c : ascii)
| Range (lo hi : ascii)
| Space                       (* \s *)
| Digit.                      (* \d *)

Inductive re : Type :=
| Eps
| Lit (c : ascii)
| Dot
| Set_ (neg : bool) (items : list item)
| Cat (a b : re)
| Alt (a b : re)
| Star (greedy : bool) (a : re).

Definition is_space (c : ascii) : bool :=
  let n := nat_of_ascii c in
  ((9 <=? n) && (n <=? 13) || (n =? 32) || (n =? 160))%nat.

Definition is_digit (c : ascii) : bool :=
  let n := nat_of_ascii c in ((48 <=? n) && (n <=? 57))%nat.

Definition is_line_end (c : ascii) : bool :=
  let n := nat_of_ascii c in ((n =? 10) || (n =? 13))%nat.

Definition in_item (x : ascii) (i : item) : bool :=
  match i with
  | One c => Ascii.eqb x c
  | Range lo hi =>
      ((nat_of_ascii lo <=? nat_of_ascii x) && (nat_of_ascii x <=? nat_of_ascii hi))%nat
  | Space => is_space x
  | Digit => is_digit x
  end.

(** Membership in a set; under the [i] flag a character is in the set
    when one of its two cases is. *)
Definition in_items (ci : bool) (x : ascii) (items : list item) : bool :=
  existsb (in_item x) items ||
  (ci && (existsb (in_item (JS.lower_ascii x)) items
          || existsb (in_item (JS.upper_ascii x)) items)).

Definition lit_match (ci : bool) (c x : ascii) : bool :=
  if ci then Ascii.eqb (JS.upper_ascii c) (JS.upper_ascii x) else Ascii.eqb c x.

Definition cont : Type := list ascii -> option (list ascii).

(** One step on a single character. *)
Definition on_char (p : ascii -> bool) (s : list ascii) (k : cont) : option (list ascii) :=
  match s with
  | x :: s' => if p x then k s' else None
  | [] => None
  end.

(** [run ci r s k]: match [r] at the head of [s], then [k] on the rest;
    the first success in backtracking order.  An iteration of a star
    that consumes nothing is rejected, so the number of iterations is
    at most the length of the input. *)
Fixpoint run (ci : bool) (r : re) : list ascii -> cont -> option (list ascii) :=
  match r with
  | Eps => fun s k => k s
  | Lit c => on_char (lit_match ci c)
  | Dot => on_char (fun x => negb (is_line_end x))
  | Set_ neg items => on_char (fun x => xorb neg (in_items ci x items))
  | Cat a b => fun s k => run ci a s (fun s' => run ci b s' k)
  | Alt a b => fun s k =>
      match run ci a s k with
      | Some out => Some out
      | None => run ci b s k
      end
  | Star greedy a => fun s k =>
      (fix loop (n : nat) (s : list ascii) {struct n} : option (list ascii) :=
         match n with
         | O => k s
         | S n' =>
             let again (_ : unit) :=
               run ci a s (fun s' =>
                 if (length s' <? length s)%nat then loop n' s' else None) in
             if greedy then
               match again tt with Some out => Some out | None => k s end
             else
               match k s with Some out => Some out | None => again tt end
         end) (length s) s
  end.

(** The match that starts at the head of [s]: the matched text and the
    rest of the input. *)
Definition match_here (ci : bool) (r : re) (s : list ascii) : option (list ascii * list ascii) :=
  match run ci r s Some with
  | Some rest => Some (take (length s - length rest)%nat s, rest)
  | None => None
  end.

(** The leftmost match at or after the head of [s]: the text before it,
    the matched text and the rest. *)
Fixpoint search (ci : bool) (r : re) (s : list ascii)
  : option (list ascii * list ascii * list ascii) :=
  match match_here ci r s with
  | Some (m, rest) => Some ([], m, rest)
  | None =>
      match s with
      | [] => None
      | x :: s' =>
          match search ci r s' with
          | Some (pre, m, rest) => Some (x :: pre, m, rest)
          | None => None
          end
      end
  end.

(** A pattern with its flags. *)
Record regex : Type := Regex { body : re; flag_i : bool }.

(** [regex.test(s)]. *)
Definition test (p : regex) (s : string) : bool :=
  match search (flag_i p) (body p) (list_ascii_of_string s) with
  | Some _ => true
  | None => false
  end.

(** The matches of a pattern with the [g] flag, left to right; after an
    empty match the scan moves one character on. *)
Fixpoint scan (fuel : nat) (ci : bool) (r : re) (s : list ascii)
  : list (list ascii * list ascii) :=
  match fuel with
  | O => []
  | S fuel' =>
      match search ci r s with
      | None => []
      | Some (pre, m, rest) =>
          (pre, m) ::
          match m, rest with
          | [], [] => []
          | [], x :: rest' =>
              match scan fuel' ci r rest' with
              | [] => []
              | (pre', m') :: tl => (x :: pre', m') :: tl
              end
          | _ :: _, _ => scan fuel' ci r rest
          end
      end
  end.

Definition scan_all (p : regex) (s : string) : list (list ascii * list ascii) :=
  scan (S (String.length s)) (flag_i p) (body p) (list_ascii_of_string s).

(** [s.match(/.../g)]: the matched texts; [[]] stands for [null], which
    every caller in the route replaces by the empty array or tests for. *)
Definition match_all (p : regex) (s : string) : list string :=
  map (fun pm => string_of_list_ascii (snd pm)) (scan_all p s).

(** [s.replace(/.../g, '')]: the input with every match removed. *)
Definition remove_all (p : regex) (s : string) : string :=
  let ms := scan_all p s in
  let kept := concat (map fst ms) in
  let consumed := (length kept + length (concat (map snd ms)))%nat in
  string_of_list_ascii (kept ++ drop consumed (list_ascii_of_string s)).

(** Pattern builders. *)
Definition lit (s : string) : re :=
  fold_right (fun c r => Cat (Lit c) r) Eps (list_ascii_of_string s).
Definition seq (l : list re) : re := fold_right Cat Eps l.
Definition alts (l : list re) : re :=
  match l with
  | [] => Eps
  | a :: l' => fold_left Alt l' a
  end.
Definition star (a : re) : re := Star true a.
Definition lazy_star (a : re) : re := Star false a.
Definition plus (a : re) : re := Cat a (Star true a).
Definition opt (a : re) : re := Alt a Eps.
Definition chars (s : string) : list item := map One (list_ascii_of_string s).
Definition any_of (s : string) : re := Set_ false (chars s).
Definition none_of (s : string) : re := Set_ true (chars s).
Definition sp : re := Set_ false [Space].
Definition digit : re := Set_ false [Digit].
(** [[\s\S]]: every character. *)
Definition any : re := Set_ true [].
(** [["']] and [[^"']]. *)
Definition quote : re := Set_ false (chars (JS.dq +:+ "'")).
Definition not_quote : re := Set_ true (chars (JS.dq +:+ "'")).
(** [a{lo,hi}], with [lo <= hi]. *)
Fixpoint upto (n : nat) (a : re) : re :=
  match n with
  | O => Eps
  | S n' => opt (Cat a (upto n' a))
  end.
Fixpoint exactly (n : nat) (a : re) : re :=
  match n with
  | O => Eps
  | S n' => Cat a (exactly n' a)
  end.
Definition between (lo hi : nat) (a : re) : re :=
  Cat (exactly lo a) (upto (hi - lo) a).

(** [/.../i] and [/.../]. *)
Definition ri (r : re) : regex := Regex r true.
Definition rs (r : re) : regex := Regex r false.

End Regex.

(** ** JSON values and [JSON.parse]

    The route hands every structured-data block to [JSON.parse] of the
    runtime.  The extractor below takes the parser as a parameter; the
    parser of this module is a reference implementation of the JSON
    grammar, used to run the extractor on concrete pages. *)

Module Json.

#[local] Set Warnings "-register-all".

Inductive json : Type :=
| JNull
| JBool (b : bool)
| JNum (q : Q)
| JStr (s : string)
| JArr (items : list json)
| JObj (fields : list (string * json)).

(** [ToBoolean]. *)
Definition truthy (v : json) : bool :=
  match v with
  | JNull => false
  | JBool b => b
  | JNum q => negb (Qeq_bool q 0)
  | JStr s => JS.truthy s
  | JArr _ | JObj _ => true
  end.

(** [v === 'text']. *)
Definition is_string (text : string) (v : json) : bool :=
  match v with
  | JStr s => String.eqb s text
  | _ => false
  end.

Fixpoint assoc (key : string) (fields : list (string * json)) : option json :=
  match fields with
  | [] => None
  | (k, v) :: rest => if String.eqb k key then Some v else assoc key rest
  end.

(** [v[key]] for a key that is not an index: [None] is a [TypeError]
    (reading a property of [null]); [Some None] is [undefined]. *)
Definition get (key : string) (v : json) : option (option json) :=
  match v with
  | JNull => None
  | JObj fields => Some (assoc key fields)
  | _ => Some None
  end.

(** A repeated key keeps its first place and takes the last value. *)
Fixpoint put (key : string) (v : json) (fields : list (string * json))
  : list (string * json) :=
  match fields with
  | [] => [(key, v)]
  | (k, w) :: rest =>
      if String.eqb k key then (k, v) :: rest else (k, w) :: put key v rest
  end.

Definition is_ws (c : ascii) : bool :=
  let n := nat_of_ascii c in ((n =? 32) || (n =? 9) || (n =? 10) || (n =? 13))%nat.

Fixpoint skip_ws (s : list ascii) : list ascii :=
  match s with
  | c :: s' => if is_ws c then skip_ws s' else s
  | [] => []
  end.

Definition digit_val (c : ascii) : option Z :=
  let n := nat_of_ascii c in
  if ((48 <=? n) && (n <=? 57))%nat then Some (Z.of_nat (n - 48)) else None.

Definition hex_val (c : ascii) : option nat :=
  let n := nat_of_ascii c in
  if ((48 <=? n) && (n <=? 57))%nat then Some (n - 48)%nat
  else if ((65 <=? n) && (n <=? 70))%nat then Some (n - 55)%nat
  else if ((97 <=? n) && (n <=? 102))%nat then Some (n - 87)%nat
  else None.

(** A run of digits: its value, its length and the rest. *)
Fixpoint digits (acc : Z) (len : nat) (s : list ascii) : Z * nat * list ascii :=
  match s with
  | c :: s' =>
      match digit_val c with
      | Some d => digits (10 * acc + d) (S len) s'
      | None => (acc, len, s)
      end
  | [] => (acc, len, [])
  end.

Definition pow10 (e : Z) : Q :=
  if (0 <=? e)%Z then inject_Z (10 ^ e) else (1 # Z.to_pos (10 ^ (- e)))%Q.

(** [-? int frac? exp?], with no leading zero in [int]. *)
Definition number (s : list ascii) : option (Q * list ascii) :=
  let '(neg, s) :=
    match s with
    | "-"%char :: s' => (true, s')
    | _ => (false, s)
    end in
  let '(int, n, s1) := digits 0 0 s in
  let leading_zero :=
    match s with "0"%char :: _ => (1 <? n)%nat | _ => false end in
  if (n =? 0)%nat || leading_zero then None else
  let frac :=
    match s1 with
    | "."%char :: s2 =>
        let '(f, m, s3) := digits 0 0 s2 in
        if (m =? 0)%nat then None else Some (f, m, s3)
    | _ => Some (0, O, s1)
    end in
  match frac with
  | None => None
  | Some (f, m, s3) =>
      let mant := (inject_Z int + inject_Z f * pow10 (- Z.of_nat m))%Q in
      let exp :=
        match s3 with
        | c :: s4 =>
            if Ascii.eqb c "e" || Ascii.eqb c "E" then
              let '(eneg, s5) :=
                match s4 with
                | "-"%char :: t => (true, t)
                | "+"%char :: t => (false, t)
                | _ => (false, s4)
                end in
              let '(e, k, s6) := digits 0 0 s5 in
              if (k =? 0)%nat then None
              else Some ((if eneg then - e else e), s6)
            else Some (0, s3)
        | [] => Some (0, s3)
        end in
      match exp with
      | None => None
      | Some (e, rest) =>
          let v := Qred (mant * pow10 e)%Q in
          Some ((if neg then Qopp v else v), rest)
      end
  end.

(** The characters of a string after its opening quote.  An escape of
    a code unit above 255 has no image in the string model and is
    rejected. *)
Fixpoint chars (fuel : nat) (s : list ascii) : option (string * list ascii) :=
  match fuel with
  | O => None
  | S fuel' =>
      match s with
      | [] => None
      | c :: s' =>
          if (nat_of_ascii c =? 34)%nat then Some (EmptyString, s')
          else if (nat_of_ascii c <? 32)%nat then None
          else if Ascii.eqb c "\" then
            match s' with
            | e :: s'' =>
                let plain (x : ascii) :=
                  match chars fuel' s'' with
                  | Some (t, rest) => Some (String x t, rest)
                  | None => None
                  end in
                if (nat_of_ascii e =? 34)%nat then plain e
                else if Ascii.eqb e "\" then plain e
                else if Ascii.eqb e "/" then plain e
                else if Ascii.eqb e "b" then plain (ascii_of_nat 8)
                else if Ascii.eqb e "f" then plain (ascii_of_nat 12)
                else if Ascii.eqb e "n" then plain (ascii_of_nat 10)
                else if Ascii.eqb e "r" then plain (ascii_of_nat 13)
                else if Ascii.eqb e "t" then plain (ascii_of_nat 9)
                else if Ascii.eqb e "u" then
                  match s'' with
                  | h1 :: h2 :: h3 :: h4 :: s3 =>
                      match hex_val h1, hex_val h2, hex_val h3, hex_val h4 with
                      | Some 0%nat, Some 0%nat, Some a, Some b =>
                          match chars fuel' s3 with
                          | Some (t, rest) =>
                              Some (String (ascii_of_nat (16 * a + b)) t, rest)
                          | None => None
                          end
                      | _, _, _, _ => None
                      end
                  | _ => None
                  end
                else None
            | [] => None
            end
          else
            match chars fuel' s' with
            | Some (t, rest) => Some (String c t, rest)
            | None => None
            end
      end
  end.

Definition starts (p : string) (s : list ascii) : option (list ascii) :=
  let lp := list_ascii_of_string p in
  if decide (take (length lp) s = lp) then Some (drop (length lp) s) else None.

(** A value, with the white space before it. *)
Fixpoint value (fuel : nat) (s : list ascii) : option (json * list ascii) :=
  match fuel with
  | O => None
  | S fuel' =>
      let members :=
        fix members (n : nat) (acc : list (string * json)) (s : list ascii)
          : option (json * list ascii) :=
          match n with
          | O => None
          | S n' =>
              match skip_ws s with
              | q :: s1 =>
                  if (nat_of_ascii q =? 34)%nat then
                    match chars (S (length s1)) s1 with
                    | Some (key, s2) =>
                        match skip_ws s2 with
                        | ":"%char :: s3 =>
                            match value fuel' s3 with
                            | Some (v, s4) =>
                                match skip_ws s4 with
                                | ","%char :: s5 => members n' (put key v acc) s5
                                | "}"%char :: s5 => Some (JObj (put key v acc), s5)
                                | _ => None
                                end
                            | None => None
                            end
                        | _ => None
                        end
                    | None => None
                    end
                  else None
              | [] => None
              end
          end in
      let elements :=
        fix elements (n : nat) (acc : list json) (s : list ascii)
          : option (json * list ascii) :=
          match n with
          | O => None
          | S n' =>
              match value fuel' s with
              | Some (v, s1) =>
                  match skip_ws s1 with
                  | ","%char :: s2 => elements n' (acc ++ [v]) s2
                  | "]"%char :: s2 => Some (JArr (acc ++ [v]), s2)
                  | _ => None
                  end
              | None => None
              end
          end in
      match skip_ws s with
      | [] => None
      | c :: s1 =>
          if Ascii.eqb c "{" then
            match skip_ws s1 with
            | "}"%char :: s2 => Some (JObj [], s2)
            | _ => members (S (length s1)) [] s1
            end
          else if Ascii.eqb c "[" then
            match skip_ws s1 with
            | "]"%char :: s2 => Some (JArr [], s2)
            | _ => elements (S (length s1)) [] s1
            end
          else if (nat_of_ascii c =? 34)%nat then
            match chars (S (length s1)) s1 with
            | Some (t, rest) => Some (JStr t, rest)
            | None => None
            end
          else
            match starts "true" (c :: s1), starts "false" (c :: s1),
                  starts "null" (c :: s1) with
            | Some rest, _, _ => Some (JBool true, rest)
            | _, Some rest, _ => Some (JBool false, rest)
            | _, _, Some rest => Some (JNull, rest)
            | _, _, _ =>
                match number (c :: s1) with
                | Some (q, rest) => Some (JNum q, rest)
                | None => None
                end
            end
      end
  end.

(** [JSON.parse(text)]: [None] is the [SyntaxError]. *)
Definition parse (text : string) : option json :=
  let s := list_ascii_of_string text in
  match value (S (length s)) s with
  | Some (v, rest) =>
      match skip_ws rest with
      | [] => Some v
      | _ :: _ => None
      end
  | None => None
  end.

End Json.

(** ** Data model *)

Inductive Confidence : Type := high | medium | none.
Inductive Status : Type := good | partial | missing | warning.

(** The result of the chatbot and of the voice-agent detector. *)
Record Detector : Type := {
  detected : bool;
  providers : list string;
  confidence : Confidence
}.

(** The result of the calculator detector. *)
Record Calculator : Type := {
  calc_detected : bool;
  types : list string;
  calc_confidence : Confidence
}.

(** One parsed structured-data block: [{type: 'JSON-LD', schemaType, data}]. *)
Record Schema : Type := {
  type : string;
  schemaType : Json.json;
  data : Json.json
}.

Record SchemaMarkup : Type := {
  found : bool;
  count : Z;
  schemas : list Schema;
  hasLocalBusiness : bool;
  hasFAQSchema : bool;
  hasReviewSchema : bool;
  hasServiceSchema : bool
}.

(** Every tag is the trimmed first match, or [null]. *)
Record MetaTags : Type := {
  title : option string;
  description : option string;
  ogTitle : option string;
  ogDescription : option string;
  canonical : option string;
  robots : option string
}.

Record Headings : Type := { h1 : list string; h2 : list string; h3 : list string }.

Record LocalBusinessInfo : Type := {
  phone : option string;
  hasAddress : bool;
  hasHours : bool
}.

Record Reviews : Type := { reviews_detected : bool; hasStarRating : bool }.

Record ContactInfo : Type := {
  hasPhoneInHeader : bool;
  hasClickToCall : bool;
  hasContactForm : bool;
  hasEmail : bool
}.

Record AEOIndicators : Type := {
  hasDefinitiveStatements : bool;
  hasQAFormat : bool;
  hasStructuredLists : bool;
  hasServiceDescriptions : bool;
  hasLocalKeywords : bool;
  hasExpertiseIndicators : bool;
  hasProcessDescription : bool;
  hasComparisonContent : bool;
  hasStatistics : bool;
  hasAuthorAttribution : bool
}.

(** The object that [scrapeWebsiteData] returns.  On success every
    property but [error] is present; on failure the object is
    [{ error: error.message }] and every other property is missing. *)
Record WebsiteData : Type := {
  error : option string;
  html : option string;
  headers : option (gmap string string);
  hasHttps : option bool;
  hasChatbot : option Detector;
  hasVoiceAgent : option Detector;
  hasCalculator : option Calculator;
  schemaMarkup : option SchemaMarkup;
  metaTags : option MetaTags;
  headings : option Headings;
  hasFAQ : option bool;
  localBusinessInfo : option LocalBusinessInfo;
  hasReviews : option Reviews;
  contactInfo : option ContactInfo;
  aeoIndicators : option AEOIndicators
}.

(** [{ error: message }]. *)
Definition failed (message : string) : WebsiteData :=
  {| error := Some message; html := None; headers := None; hasHttps := None;
     hasChatbot := None; hasVoiceAgent := None; hasCalculator := None;
     schemaMarkup := None; metaTags := None; headings := None; hasFAQ := None;
     localBusinessInfo := None; hasReviews := None; contactInfo := None;
     aeoIndicators := None |}.

(** [if (data.error)]. *)
Definition has_error (d : WebsiteData) : bool := JS.truthy_opt (error d).

(** [data.a?.b] for a boolean [b], read as a condition. *)
Definition flag {A : Type} (o : option A) (f : A -> bool) : bool :=
  match o with Some a => f a | None => false end.

(** A condition on a boolean property that may be missing. *)
Definition is_true (o : option bool) : bool :=
  match o with Some b => b | None => false end.

(** The report of the performance lab for one strategy, reduced to the
    two sub-scores the scorers read,
    [lighthouseResult.categories.performance.score] and
    [lighthouseResult.categories.accessibility.score]; a link of the
    chain that is missing makes the sub-score [Undefined]. *)
Record PageSpeed : Type := {
  performance_score : JS.num;
  accessibility_score : JS.num
}.

(** [pageSpeedData?.lighthouseResult?.categories?.performance?.score];
    [None] is the [null] of a failed request. *)
Definition performance_sub_score (ps : option PageSpeed) : JS.num :=
  match ps with Some r => performance_score r | None => JS.Undefined end.

Definition accessibility_sub_score (ps : option PageSpeed) : JS.num :=
  match ps with Some r => accessibility_score r | None => JS.Undefined end.

(** A sub-score of the performance lab lies in [0,1] when it is a number. *)
Definition unit_interval (n : JS.num) : Prop :=
  match n with JS.Num q => (0 <= q <= 1)%Q | _ => True end.

(** One entry of [detailedChecks].  The constant [whyItMatters] text of
    a check and the display-only properties of the SEO checks are left
    out: no scorer reads them. *)
Record DetailedCheck : Type := {
  name : string;
  status : Status;
  score : Z;
  maxScore : Z;
  details : list string;
  recommendation : string
}.

(** ** Signal extractor *)

Module Extract.
Import Regex.

(** The registry of a detector: the label pushed and the pattern
    tested, in the order of the source. *)
Definition registry : Type := list (string * regex).

(** The labels whose pattern matches, in registry order. *)
Definition matched (reg : registry) (html : string) : list string :=
  map fst (List.filter (fun e => test (snd e) html) reg).

Definition dot_star : re := star Dot.
Definition sp_star : re := star sp.

Definition chatbot_registry : registry := [
  ("Intercom", ri (alts [lit "intercom.com/widget"; lit "window.Intercom"; lit "intercomSettings"]));
  ("Drift", ri (alts [lit "drift.com"; lit "js.driftt.com"; lit "window.drift";
                      seq [lit "drift"; sp_star; lit "="; sp_star; lit "window.drift"]]));
  ("HubSpot Chat", ri (alts [lit "js.hs-scripts.com"; lit "hs-script-loader";
                             seq [lit "hubspot"; dot_star; lit "conversations"];
                             lit "HubSpotConversations"]));
  ("Zendesk Chat", ri (alts [lit "static.zdassets.com"; lit "zopim";
                             seq [lit "zendesk"; dot_star; lit "chat"];
                             seq [lit "zE"; sp_star; lit "("]; lit "zESettings"]));
  ("LiveChat", ri (alts [lit "cdn.livechatinc.com"; seq [lit "__lc"; sp_star; lit "="];
                         lit "livechatinc.com/tracking"]));
  ("Tidio", ri (alts [lit "code.tidio.co"; lit "tidioChatCode"; lit "tidio_chat"]));
  ("Crisp", ri (alts [lit "client.crisp.chat"; lit "window.$crisp"; lit "CRISP_WEBSITE_ID"]));
  ("Freshchat", ri (alts [lit "wchat.freshchat.com"; lit "freshchat.min.js"; lit "fcWidget"]));
  ("Tawk.to", ri (alts [lit "embed.tawk.to"; lit "Tawk_API"; lit "tawk.to"]));
  ("Olark", ri (alts [lit "static.olark.com"; lit "olark.identify";
                      seq [lit "olark"; sp_star; lit "("]]));
  ("Chatra", ri (alts [lit "call.chatra.io"; lit "ChatraID"; lit "window.ChatraSetup"]));
  ("JivoChat", ri (alts [lit "code.jivosite.com"; lit "jivo_api"; lit "jivosite"]));
  ("Smartsupp", ri (alts [lit "smartsupp.com/loader"; seq [lit "smartsupp"; sp_star; lit "("];
                          lit "_smartsupp"]));
  ("Zoho SalesIQ", ri (alts [lit "salesiq.zoho.com"; seq [lit "zoho"; dot_star; lit "salesiq"];
                             seq [lit "$zoho"; dot_star; lit "salesiq"]]));
  ("Facebook Messenger", ri (alts [seq [lit "connect.facebook.net"; dot_star; lit "customerchat"];
                                   lit "fb-customerchat"; lit "MessengerExtensions"]));
  ("Chatbot.com", ri (alts [lit "cdn.chatbot.com"; lit "chatbot.com/widget"]));
  ("Voiceflow", ri (alts [lit "cdn.voiceflow.com"; seq [lit "voiceflow"; dot_star; lit "widget"]]));
  ("Botpress", ri (alts [lit "cdn.botpress.cloud"; seq [lit "botpress"; dot_star; lit "webchat"]]));
  ("Landbot", ri (alts [lit "cdn.landbot.io"; seq [lit "landbot"; dot_star; lit "widget"]]))
].

Definition voice_registry : registry := [
  ("Vapi.ai", ri (alts [lit "vapi.ai"; lit "cdn.vapi.ai"; lit "vapiSDK"; lit "vapi-widget"]));
  ("Bland.ai", ri (alts [lit "bland.ai"; lit "api.bland.ai"; lit "bland-widget"]));
  ("Retell AI", ri (alts [lit "retell.ai"; lit "retellai"; lit "retell-widget"]));
  ("Synthflow", ri (alts [lit "synthflow.ai"; lit "synthflow-widget"]));
  ("Vocode", ri (alts [lit "vocode.dev"; lit "vocode-widget"]));
  ("PlayHT", ri (alts [lit "play.ht"; seq [lit "playht"; dot_star; lit "widget"]]));
  ("ElevenLabs", ri (alts [lit "elevenlabs.io"; lit "elevenlabs-widget"; lit "elevenlabs-convai"]));
  ("Air AI", ri (alts [lit "air.ai"; lit "airai-widget"]))
].

(** [detected.length > 0 ? 'high' : 'none']. *)
Definition checkForChatbot (html : string) : Detector :=
  let detected := matched chatbot_registry html in
  {| detected := bool_decide (detected <> []);
     providers := detected;
     confidence := if bool_decide (detected <> []) then high else none |}.

Definition checkForVoiceAgent (html : string) : Detector :=
  let detected := matched voice_registry html in
  {| detected := bool_decide (detected <> []);
     providers := detected;
     confidence := if bool_decide (detected <> []) then high else none |}.

(** The three structural patterns of the calculator detector. *)
Definition calc_form : regex :=
  ri (seq [lit "<form"; star (none_of ">");
           alts [lit "calculator"; lit "quote"; lit "estimate"; lit "pricing"];
           star (none_of ">"); lit ">"; lazy_star any; lit "<input"; lazy_star any;
           lit "</form>"]).
Definition calc_widget : regex :=
  ri (seq [lit "class="; quote; star not_quote;
           alts [lit "calculator-widget"; lit "quote-calculator"; lit "price-calculator";
                 lit "cost-calculator"; lit "roi-calculator"];
           star not_quote; quote]).
Definition calc_script : regex :=
  ri (seq [alts [lit "calculator"; lit "calcWidget"; lit "quoteCalculator";
                 lit "pricingCalculator"];
           lit "."; alts [lit "js"; lit "min.js"]]).

(** The three patterns that push a label of their own: the known
    calculator platforms, the [id] of an interactive element, and the
    form tools. *)
Definition calc_registry : registry := [
  ("Third-party Calculator Tool",
   ri (alts [lit "calconic.com"; lit "outgrow.co"; lit "calculoid.com"; lit "ucalc.pro"]));
  ("Custom Calculator",
   ri (seq [lit "id="; quote; star not_quote;
            alts [lit "calculator"; lit "quote-form"; lit "pricing-calculator";
                  lit "cost-estimate"];
            star not_quote; quote]));
  ("Interactive Quote Form",
   ri (alts [lit "typeform.com";
             seq [lit "jotform.com"; dot_star;
                  alts [lit "quote"; lit "estimate"; lit "calculator"]]]))
].

(** [detected.length > 0 ? 'medium' : 'none']. *)
Definition checkForCalculator (html : string) : Calculator :=
  let hasCalcForm := test calc_form html in
  let hasCalcWidget := test calc_widget html in
  let hasCalcScript := test calc_script html in
  let detected := matched calc_registry html in
  let detected :=
    if hasCalcForm || hasCalcWidget || hasCalcScript then
      if bool_decide (detected = []) then detected ++ ["Calculator/Quote Tool"]
      else detected
    else detected in
  {| calc_detected := bool_decide (detected <> []);
     types := detected;
     calc_confidence := if bool_decide (detected <> []) then medium else none |}.

(** The inline structured-data blocks and the tags stripped from them. *)
Definition json_ld_block : regex :=
  ri (seq [lit "<script"; star (none_of ">"); lit "type="; quote;
           lit "application/ld+json"; quote; star (none_of ">"); lit ">";
           lazy_star any; lit "</script>"]).
Definition script_tag : regex :=
  ri (alts [seq [lit "<script"; star (none_of ">"); lit ">"]; lit "</script>"]).

(** [html.match(...)] of [extractSchemaMarkup]. *)
Definition jsonLdMatches (html : string) : list string := match_all json_ld_block html.

Section SchemaMarkup.
(** [JSON.parse] of the runtime; [None] is its [SyntaxError]. *)
Variable JSON_parse : string -> option Json.json.

(** The body of the [try]: [None] when it throws, either in
    [JSON.parse] or in reading [parsed['@type']] of [null]. *)
Definition try_block (block : string) : option Schema :=
  let content := remove_all script_tag block in
  match JSON_parse content with
  | None => None
  | Some parsed =>
      match Json.get "@type" parsed with
      | None => None
      | Some ty =>
          Some {| type := "JSON-LD";
                  schemaType :=
                    match ty with
                    | Some v => if Json.truthy v then v else Json.JStr "Unknown"
                    | None => Json.JStr "Unknown"
                    end;
                  data := parsed |}
      end
  end.

(** [forEach] with the [try]/[catch] inside: a block that throws
    pushes nothing, and the loop goes on. *)
Definition collect (blocks : list string) : list Schema :=
  fold_left (fun schemas block =>
               match try_block block with
               | Some s => schemas ++ [s]
               | None => schemas
               end) blocks [].

Definition is_type (names : list string) (s : Schema) : bool :=
  existsb (fun n => Json.is_string n (schemaType s)) names.

Definition extractSchemaMarkup (html : string) : SchemaMarkup :=
  let schemas := collect (jsonLdMatches html) in
  {| found := bool_decide (schemas <> []);
     count := Z.of_nat (length schemas);
     schemas := schemas;
     hasLocalBusiness :=
       existsb (is_type ["LocalBusiness"; "Organization"; "ProfessionalService"]) schemas;
     hasFAQSchema := existsb (is_type ["FAQPage"]) schemas;
     hasReviewSchema := existsb (is_type ["Review"; "AggregateRating"]) schemas;
     hasServiceSchema := existsb (is_type ["Service"; "Product"]) schemas |}.
End SchemaMarkup.

End Extract.

(** ** Category scorers: the bookkeeping they share

    A scorer is a sequence of numbered sections.  Each section looks at
    the data, builds at most one check object, pushes to [issues] and
    [recommendations], sets entries of [checks], and ends with
    [score += ...] (and [detailedChecks.push(...)] in a detailed
    scorer).  A section is a [Step]; [commit] is its effect on the
    variables of the scorer. *)

(** An entry of [checks]: a boolean, or the number under
    [lighthouseScore]. *)
Inductive mark : Type :=
| Flag (b : bool)
| Value (z : Z).

Record Step : Type := {
  award : Z;
  entry : option DetailedCheck;
  new_issues : list string;
  new_recs : list string;
  marks : list (string * mark)
}.

(** A section of a detailed scorer: [score += c.score;
    detailedChecks.push(c)]. *)
Definition checked (c : DetailedCheck) (iss recs : list string)
    (ms : list (string * mark)) : Step :=
  {| award := score c; entry := Some c; new_issues := iss; new_recs := recs; marks := ms |}.

(** A section that only adds points. *)
Definition points (n : Z) (iss recs : list string) (ms : list (string * mark)) : Step :=
  {| award := n; entry := None; new_issues := iss; new_recs := recs; marks := ms |}.

(** The variables of a scorer. *)
Record Tally : Type := {
  total : Z;
  issues : list string;
  recommendations : list string;
  detailedChecks : list DetailedCheck;
  checks : gmap string mark
}.

Definition set_marks (ms : list (string * mark)) (m : gmap string mark) : gmap string mark :=
  fold_left (fun m kv => <[fst kv := snd kv]> m) ms m.

Definition commit (t : Tally) (s : Step) : Tally :=
  {| total := total t + award s;
     issues := issues t ++ new_issues s;
     recommendations := recommendations t ++ new_recs s;
     detailedChecks :=
       match entry s with
       | Some c => detailedChecks t ++ [c]
       | None => detailedChecks t
       end;
     checks := set_marks (marks s) (checks t) |}.

(** [let score = 0; const issues = []; ...], with the initial [checks]. *)
Definition start (initial : list (string * mark)) : Tally :=
  {| total := 0; issues := []; recommendations := []; detailedChecks := [];
     checks := set_marks initial ∅ |}.

Definition run_steps (initial : list (string * mark)) (steps : list Step) : Tally :=
  fold_left commit steps (start initial).

(** [Math.min(score, 100)]. *)
Definition clamp (n : Z) : Z := Z.min n 100.

(** The sum of the scores of a list of checks. *)
Definition sum_scores (cs : list DetailedCheck) : Z :=
  fold_right (fun c acc => score c + acc) 0 cs.

(** A step of a detailed scorer adds to the score what it adds to the
    list of checks. *)
Definition balanced (s : Step) : Prop :=
  match entry s with
  | Some c => award s = score c
  | None => award s = 0
  end.

(** The check of a step of a detailed scorer stays within its maximum. *)
Definition within_max (s : Step) : Prop :=
  match entry s with
  | Some c => 0 <= score c <= maxScore c
  | None => True
  end.

(** Both, for a step of a detailed scorer. *)
Definition sound (s : Step) : Prop := balanced s /\ within_max s.

(** ** The scorers of [route.js] *)

Module Route.

(** *** AI readiness *)

Record Features : Type := {
  chatbot : Detector;
  voiceAgent : Detector;
  calculator : Calculator
}.

(** [features] is [{}] on the error path ([None]); [opportunities] is
    missing there. *)
Record AIReadiness : Type := {
  ai_score : Z;
  features : option Features;
  ai_issues : list string;
  opportunities : option (list string)
}.

Definition chatbot_step (f : Features) : Step :=
  if detected (chatbot f) then points 30 [] [] []
  else points 0 ["No AI chatbot detected - missing 24/7 lead qualification"]
                ["Add an AI chatbot to capture and qualify leads around the clock"] [].

Definition voice_step (f : Features) : Step :=
  if detected (voiceAgent f) then points 25 [] [] []
  else points 0 ["No AI voice agent detected - after-hours calls go unanswered"]
                ["Implement AI voice agent to never miss a call"] [].

Definition calculator_step (f : Features) : Step :=
  if calc_detected (calculator f) then points 25 [] [] []
  else points 0 ["No instant quote/calculator tool - visitors want immediate answers"]
                ["Add an AI-powered quote calculator for instant estimates"] [].

(** [score += 10], then [+5] for each of the two schema flags. *)
Definition ai_schema_step (d : WebsiteData) : Step :=
  match schemaMarkup d with
  | Some sm =>
      if found sm then
        points (10 + (if hasLocalBusiness sm then 5 else 0)
                   + (if hasFAQSchema sm then 5 else 0)) [] [] []
      else points 0 ["No schema markup - AI assistants struggle to understand your business"] [] []
  | None => points 0 ["No schema markup - AI assistants struggle to understand your business"] [] []
  end.

(** [None] is the [TypeError] of reading [detected] of a detector that
    is missing from [data]. *)
Definition analyzeAIReadiness (d : WebsiteData) : option AIReadiness :=
  if has_error d then
    Some {| ai_score := 0; features := None;
            ai_issues := ["Could not analyze website"]; opportunities := None |}
  else
    match hasChatbot d, hasVoiceAgent d, hasCalculator d with
    | Some c, Some v, Some k =>
        let f := {| chatbot := c; voiceAgent := v; calculator := k |} in
        let t := run_steps [] [chatbot_step f; voice_step f; calculator_step f;
                               ai_schema_step d] in
        Some {| ai_score := clamp (total t); features := Some f;
                ai_issues := issues t; opportunities := Some (recommendations t) |}
    | _, _, _ => None
    end.

(** *** AEO / GEO *)

Record LLMContext : Type := {
  wouldRecommend : bool;
  reasoning : string;
  testQuery : string;
  prediction : string
}.

(** [checks] and [llmContext] are missing on the error path. *)
Record AEOGEO : Type := {
  aeo_score : Z;
  aeo_checks : option (gmap string mark);
  aeo_issues : list string;
  aeo_recommendations : list string;
  llmContext : option LLMContext;
  aeo_detailedChecks : list DetailedCheck
}.

Section AEO.
Variables (d : WebsiteData) (industry city companyName : string).

(** [data.schemaMarkup?.found] and the like. *)
Definition schema_flag (f : SchemaMarkup -> bool) : bool := flag (schemaMarkup d) f.
(** [const aeo = data.aeoIndicators || {}], then [aeo.x]. *)
Definition aeo (f : AEOIndicators -> bool) : bool := flag (aeoIndicators d) f.
Definition local (f : LocalBusinessInfo -> bool) : bool := flag (localBusinessInfo d) f.

(** Schema Markup (20 points). *)
Definition schemaCheck : Step :=
  let name := "Schema Markup (Structured Data)" in
  match schemaMarkup d with
  | Some sm =>
      if found sm then
        let lb := hasLocalBusiness sm in
        let faq := hasFAQSchema sm in
        let rec1 :=
          if lb then EmptyString
          else "Add LocalBusiness schema with your address, phone, hours, and service area." in
        let rec2 :=
          if faq then rec1
          else if JS.truthy rec1 then rec1
               else "Add FAQ schema to help AI extract your Q&A content." in
        checked
          {| name := name;
             status := if faq then good else partial;
             score := 10 + (if lb then 5 else 0) + (if faq then 5 else 0);
             maxScore := 20;
             details :=
               ["Found " +:+ JS.show (count sm) +:+ " schema type(s)"]
               ++ [if lb then "✓ LocalBusiness schema found"
                   else "✗ Missing LocalBusiness schema"]
               ++ [if faq then "✓ FAQ schema found" else "✗ Missing FAQPage schema"]
               ++ (if hasReviewSchema sm then ["✓ Review/Rating schema found"] else [])
               ++ (if hasServiceSchema sm then ["✓ Service schema found"] else []);
             recommendation := rec2 |}
          [] [] [("schemaMarkup", Flag true)]
      else
        checked
          {| name := name; status := missing; score := 0; maxScore := 20;
             details := ["No schema markup detected on the page"];
             recommendation :=
               "Add LocalBusiness, FAQPage, and Service schema markup. This is critical for AI assistants to recommend "
               +:+ companyName +:+ " for " +:+ JS.dq +:+ industry +:+ " in " +:+ city
               +:+ JS.dq +:+ " queries." |}
          ["No structured data/schema markup - LLMs cannot easily parse your business info"]
          ["Add LocalBusiness and FAQPage schema markup"] []
  | None =>
      checked
        {| name := name; status := missing; score := 0; maxScore := 20;
           details := ["No schema markup detected on the page"];
           recommendation :=
             "Add LocalBusiness, FAQPage, and Service schema markup. This is critical for AI assistants to recommend "
             +:+ companyName +:+ " for " +:+ JS.dq +:+ industry +:+ " in " +:+ city
             +:+ JS.dq +:+ " queries." |}
        ["No structured data/schema markup - LLMs cannot easily parse your business info"]
        ["Add LocalBusiness and FAQPage schema markup"] []
  end.

(** FAQ Content (15 points). *)
Definition faqCheck : Step :=
  let name := "FAQ Content" in
  if is_true (hasFAQ d) || schema_flag hasFAQSchema then
    if schema_flag hasFAQSchema then
      checked
        {| name := name; status := good; score := 15; maxScore := 15;
           details := ["✓ FAQ content detected on the page"; "✓ FAQ schema markup present"];
           recommendation := EmptyString |}
        [] [] [("faqContent", Flag true)]
    else
      checked
        {| name := name; status := partial; score := 10; maxScore := 15;
           details := ["✓ FAQ content detected on the page";
                       "✗ FAQ content found but no FAQ schema markup"];
           recommendation :=
             "Add FAQPage schema to your existing FAQ content for better AI visibility." |}
        [] [] [("faqContent", Flag true)]
  else
    checked
      {| name := name; status := missing; score := 0; maxScore := 15;
         details := ["No FAQ section detected"];
         recommendation :=
           "Create an FAQ page answering common " +:+ industry
           +:+ " questions like: " +:+ JS.dq +:+ "How much does [service] cost?" +:+ JS.dq +:+ ", " +:+ JS.dq +:+ "How long does [service] take?" +:+ JS.dq +:+ ", " +:+ JS.dq +:+ "Do you serve ["
           +:+ city +:+ "]?" +:+ JS.dq +:+ ", " +:+ JS.dq +:+ "What is your process?" +:+ JS.dq |}
      ["No FAQ content - missing opportunity for LLMs to extract Q&A"]
      ["Create FAQ section answering common " +:+ industry +:+ " questions"] [].

(** Local Business Signals (15 points). *)
Definition localCheck : Step :=
  let has_phone := local (fun l => JS.truthy_opt (phone l)) in
  let has_address := local hasAddress in
  let has_hours := local hasHours in
  let sc := (if has_phone then 5 else 0) + (if has_address then 5 else 0)
            + (if has_hours then 5 else 0) in
  let c :=
    {| name := "Local Business Signals";
       status := if 10 <=? sc then (if sc =? 15 then good else partial) else missing;
       score := sc; maxScore := 15;
       details :=
         [if has_phone then "✓ Phone number visible"
          else "✗ Phone number not prominently displayed";
          if has_address then "✓ Address information found"
          else "✗ No clear address/location information";
          if has_hours then "✓ Business hours mentioned"
          else "✗ Business hours not displayed"];
       recommendation :=
         if sc <? 15 then
           "Add a clear footer or contact section with your full " +:+ city
           +:+ " address, phone number (with click-to-call), and business hours. This helps AI recommend you for local queries."
         else EmptyString |} in
  if 10 <=? sc then checked c [] [] [("localSignals", Flag true)]
  else checked c
         ["Weak local signals - LLMs may not recommend you for local searches"]
         ["Prominently display " +:+ city +:+ " address, phone, and business hours"] [].

(** Clear, Extractable Answers (20 points). *)
Definition answersCheck : Step :=
  let ds := aeo hasDefinitiveStatements in
  let sd := aeo hasServiceDescriptions in
  let pd := aeo hasProcessDescription in
  let sc := (if ds then 8 else 0) + (if sd then 7 else 0) + (if pd then 5 else 0) in
  checked
    {| name := "Clear, Extractable Content";
       status := if 15 <=? sc then good else if 8 <=? sc then partial else missing;
       score := sc; maxScore := 20;
       details :=
         [if ds then "✓ Clear " +:+ JS.dq +:+ "We are/We provide/We specialize" +:+ JS.dq +:+ " statements found"
          else "✗ Missing clear definitive statements about your business";
          if sd then "✓ Service descriptions found" else "✗ No clear service descriptions";
          if pd then "✓ Process/methodology described"
          else "✗ No process or " +:+ JS.dq +:+ "how we work" +:+ JS.dq +:+ " description"];
       recommendation :=
         if sc <? 20 then
           "Add clear statements like: " +:+ JS.dq +:+ companyName +:+ " is a "
           +:+ JS.toLowerCase industry +:+ " company serving " +:+ city
           +:+ " and surrounding areas. We specialize in [services]. Our process includes: 1) [step], 2) [step], 3) [step]." +:+ JS.dq
         else EmptyString |}
    (if sc <? 8 then ["Content lacks clear, direct statements LLMs can extract"] else [])
    (if sc <? 8
     then ["Write clear " +:+ JS.dq +:+ "We are..." +:+ JS.dq +:+ ", " +:+ JS.dq +:+ "We specialize in..." +:+ JS.dq +:+ ", " +:+ JS.dq +:+ "Our process is..." +:+ JS.dq +:+ " statements"]
     else [])
    (if sd then [("clearAnswers", Flag true)] else []).

(** Expertise / E-E-A-T Signals (15 points). *)
Definition expertiseCheck : Step :=
  let ei := aeo hasExpertiseIndicators in
  let st := aeo hasStatistics in
  let sc := (if ei then 10 else 0) + (if st then 5 else 0) in
  checked
    {| name := "Expertise & Trust Signals (E-E-A-T)";
       status := if 10 <=? sc then good else if 5 <=? sc then partial else missing;
       score := sc; maxScore := 15;
       details :=
         [if ei then "✓ Expertise indicators found (years, certifications, etc.)"
          else "✗ No expertise credentials visible";
          if st then "✓ Statistics/numbers found (projects completed, years, etc.)"
          else "✗ No statistics or concrete numbers"]
         ++ (if aeo hasAuthorAttribution then ["✓ Author/expert attribution found"] else [])
         ++ [if flag (hasReviews d) reviews_detected
             then "✓ Reviews/testimonials section found"
             else "✗ No reviews or testimonials visible"];
       recommendation :=
         if sc <? 15 then
           "Add credibility signals: " +:+ JS.dq +:+ "Serving " +:+ city
           +:+ " for X years" +:+ JS.dq +:+ ", " +:+ JS.dq +:+ "X+ projects completed" +:+ JS.dq +:+ ", " +:+ JS.dq +:+ "Licensed & Insured" +:+ JS.dq +:+ ", " +:+ JS.dq +:+ "5-star rated on Google" +:+ JS.dq +:+ ". Include customer testimonials with names and specific results."
         else EmptyString |}
    (if sc <? 10 then ["Missing expertise indicators that build LLM trust"] else [])
    (if sc <? 10
     then ["Add credentials, years of experience, certifications, and client statistics"]
     else [])
    (if ei then [("expertiseSignals", Flag true)] else []).

(** Structured Content (15 points). *)
Definition structureCheck : Step :=
  let sl := aeo hasStructuredLists in
  let qa := aeo hasQAFormat in
  let sc := (if sl then 8 else 0) + (if qa then 7 else 0) in
  checked
    {| name := "Structured Content Format";
       status := if 12 <=? sc then good else if 5 <=? sc then partial else missing;
       score := sc; maxScore := 15;
       details :=
         [if sl then "✓ Structured lists (bullet points/numbered) found"
          else "✗ No structured lists detected";
          if qa then "✓ Q&A format content found" else "✗ No Q&A format content"]
         ++ (if aeo hasComparisonContent
             then ["✓ Comparison content found (vs, compared to)"] else []);
       recommendation :=
         if sc <? 15 then
           "Format your content with: bullet point lists for services, numbered steps for processes, Q&A sections, and comparison tables. AI loves to extract and cite well-structured content."
         else EmptyString |}
    (if sc <? 8 then ["Content not structured for LLM parsing"] else [])
    (if sc <? 8 then ["Use bullet points, numbered lists, and clear headings"] else [])
    (if qa then [("structuredContent", Flag true)] else []).

Definition aeo_steps : list Step :=
  [schemaCheck; faqCheck; localCheck; answersCheck; expertiseCheck; structureCheck].

Definition aeo_initial : list (string * mark) :=
  [("schemaMarkup", Flag false); ("faqContent", Flag false); ("localSignals", Flag false);
   ("clearAnswers", Flag false); ("expertiseSignals", Flag false);
   ("structuredContent", Flag false)].

(** The context of the recommendation test, from the score before
    the clamp. *)
Definition llm_context (sc : Z) : LLMContext :=
  {| wouldRecommend := 60 <=? sc;
     reasoning :=
       if 60 <=? sc then
         "Site has sufficient signals for LLMs to understand and recommend " +:+ companyName
       else
         "LLMs like ChatGPT may struggle to recommend " +:+ companyName +:+ " for " +:+ JS.dq
         +:+ industry +:+ " in " +:+ city +:+ JS.dq +:+ " queries";
     testQuery := JS.dq +:+ "Best " +:+ JS.toLowerCase industry +:+ " in " +:+ city +:+ JS.dq;
     prediction :=
       if 70 <=? sc then "HIGH likelihood of being recommended - strong AI signals"
       else if 50 <=? sc then "MEDIUM likelihood - some improvements needed"
       else "LOW likelihood - significant improvements needed for AI visibility" |}.

Definition analyzeAEOGEO : AEOGEO :=
  if has_error d then
    {| aeo_score := 0; aeo_checks := None; aeo_issues := []; aeo_recommendations := [];
       llmContext := None; aeo_detailedChecks := [] |}
  else
    let t := run_steps aeo_initial aeo_steps in
    {| aeo_score := clamp (total t);
       aeo_checks := Some (checks t);
       aeo_issues := issues t;
       aeo_recommendations := recommendations t;
       llmContext := Some (llm_context (total t));
       aeo_detailedChecks := detailedChecks t |}.
End AEO.

(** *** SEO *)

(** [checks] and [metaTags] are missing on the error path. *)
Record SEO : Type := {
  seo_score : Z;
  seo_checks : option (gmap string mark);
  seo_issues : list string;
  seo_metaTags : option MetaTags
}.

Section SEO.
Variables (d : WebsiteData) (pageSpeedData : option PageSpeed).

(** [data.metaTags?.x], and whether it is truthy. *)
Definition meta (f : MetaTags -> option string) : option string :=
  match metaTags d with Some m => f m | None => None end.
Definition has_meta (f : MetaTags -> option string) : bool := JS.truthy_opt (meta f).

(** [lo <= text.length && text.length <= hi]. *)
Definition length_within (lo hi : Z) (text : string) : bool :=
  (lo <=? Z.of_nat (String.length text)) && (Z.of_nat (String.length text) <=? hi).

(** Title tag (15 points). *)
Definition title_step : Step :=
  match meta title with
  | Some (String c s) =>
      points (10 + (if length_within 30 60 (String c s) then 5 else 0)) [] []
             [("title", Flag true)]
  | _ => points 0 ["Missing title tag"] [] [("title", Flag false)]
  end.

(** Meta description (15 points). *)
Definition description_step : Step :=
  match meta description with
  | Some (String c s) =>
      points (10 + (if length_within 120 160 (String c s) then 5 else 0)) [] []
             [("description", Flag true)]
  | _ => points 0 ["Missing meta description"] [] [("description", Flag false)]
  end.

(** [data.headings?.h1?.length]; [None] is [undefined]. *)
Definition h1_length : option nat :=
  match headings d with Some h => Some (length (h1 h)) | None => None end.

(** H1 tag (15 points). *)
Definition h1_step : Step :=
  match h1_length with
  | Some 1%nat => points 15 [] [] [("h1", Flag true)]
  | Some (S (S _)) =>
      points 5 ["Multiple H1 tags found (should have exactly one)"] [] [("h1", Flag false)]
  | _ => points 0 ["Missing H1 tag"] [] [("h1", Flag false)]
  end.

(** Schema markup (15 points). *)
Definition seo_schema_step : Step :=
  if flag (schemaMarkup d) found then points 15 [] [] [("schema", Flag true)]
  else points 0 ["No schema markup detected"] [] [("schema", Flag false)].

(** HTTPS (10 points). *)
Definition https_step : Step :=
  if is_true (hasHttps d) then points 10 [] [] [("https", Flag true)]
  else points 0 ["Site not using HTTPS"] [] [("https", Flag false)].

(** Canonical URL (10 points). *)
Definition canonical_step : Step :=
  if has_meta canonical then points 10 [] [] [("canonical", Flag true)]
  else points 0 ["Missing canonical URL"] [] [("canonical", Flag false)].

(** [pageSpeedData?.lighthouseResult?.categories?.performance?.score || 0]. *)
Definition mobileScore : Q := JS.num_or_zero (performance_sub_score pageSpeedData).

(** Mobile friendly from PageSpeed (10 points): [mobileScore >= 0.5]. *)
Definition mobile_step : Step :=
  if Qle_bool (1 # 2) mobileScore then points 10 [] [] [("mobile", Flag true)]
  else points 0 ["Poor mobile performance"] [] [("mobile", Flag false)].

(** Open Graph (10 points). *)
Definition open_graph_step : Step :=
  if has_meta ogTitle && has_meta ogDescription
  then points 10 [] [] [("openGraph", Flag true)]
  else points 0 ["Missing Open Graph tags"] [] [("openGraph", Flag false)].

Definition seo_steps : list Step :=
  [title_step; description_step; h1_step; seo_schema_step; https_step; canonical_step;
   mobile_step; open_graph_step].

Definition analyzeSEO : SEO :=
  if has_error d then
    {| seo_score := 0; seo_checks := None; seo_issues := []; seo_metaTags := None |}
  else
    let t := run_steps [] seo_steps in
    {| seo_score := clamp (total t);
       seo_checks := Some (checks t);
       seo_issues := issues t;
       seo_metaTags := metaTags d |}.
End SEO.

(** *** Security headers *)

Record Security : Type := {
  sec_score : Z;
  sec_issues : list string;
  sec_hasHttps : bool
}.

Section Security.
Variables (url : string) (d : WebsiteData).

(** [headers[name]], read as a condition. *)
Definition has_header (hs : gmap string string) (name : string) : bool :=
  JS.truthy_opt (hs !! name).

(** [headers[name]?.includes(text)]. *)
Definition header_includes (hs : gmap string string) (name text : string) : bool :=
  match hs !! name with Some v => JS.includes text v | None => false end.

(** HTTPS (40 points). *)
Definition sec_https_step : Step :=
  if JS.startsWith "https://" url then points 40 [] [] []
  else points 0 ["Not using HTTPS - security risk"] [] [].

(** The four header checks, 15 points each; 30 points of partial
    credit when the headers could not be checked. *)
Definition header_steps : list Step :=
  match headers d with
  | Some hs =>
      [ if has_header hs "strict-transport-security" then points 15 [] [] []
        else points 0 ["Missing HSTS header"] [] [];
        if has_header hs "x-content-type-options" then points 15 [] [] []
        else points 0 [] [] [];
        if has_header hs "x-frame-options"
           || header_includes hs "content-security-policy" "frame-ancestors"
        then points 15 [] [] [] else points 0 [] [] [];
        if has_header hs "content-security-policy" then points 15 [] [] []
        else points 0 [] [] [] ]
  | None => [points 30 [] [] []]
  end.

Definition analyzeSecurityHeaders : Security :=
  let t := run_steps [] (sec_https_step :: header_steps) in
  {| sec_score := clamp (total t);
     sec_issues := issues t;
     sec_hasHttps := JS.startsWith "https://" url |}.
End Security.

(** *** Accessibility *)

(** [a11y_checks] is [None] where the result has no such property;
    [lighthouseScore] is [None] for [null] and on the error path, where
    the property is missing. *)
Record Accessibility : Type := {
  a11y_score : Z;
  a11y_issues : list string;
  a11y_checks : gmap string mark;
  lighthouseScore : option Z
}.

Module Pat.
Import Regex.
Definition tag_rest : re := star (none_of ">").
Definition sp_star : re := star sp.
Definition img : regex := ri (seq [lit "<img"; tag_rest; lit ">"]).
Definition alt : regex :=
  ri (seq [lit "alt"; sp_star; lit "="; sp_star; quote; plus not_quote; quote]).
Definition h1_open : regex := ri (seq [lit "<h1"; tag_rest; lit ">"]).
Definition form_input : regex :=
  ri (seq [lit "<input"; tag_rest; lit "type"; sp_star; lit "="; sp_star; quote;
           alts [lit "text"; lit "email"; lit "tel"; lit "password"; lit "search";
                 lit "number"];
           quote; tag_rest; lit ">"]).
Definition label : regex := ri (seq [lit "<label"; tag_rest; lit ">"]).
Definition aria_label : regex := ri (seq [lit "aria-label"; sp_star; lit "="]).
Definition skip_link : regex :=
  ri (seq [lit "skip"; opt (any_of "- "); opt (seq [lit "to"; opt (any_of "- ")]);
           alts [lit "main"; lit "content"; lit "nav"]]).
Definition main_anchor : regex :=
  ri (seq [lit "#"; alts [lit "main"; lit "content"; lit "maincontent"]]).
Definition role : regex :=
  ri (seq [lit "role"; sp_star; lit "="; sp_star; quote;
           alts [lit "main"; lit "navigation"; lit "banner"; lit "contentinfo";
                 lit "search"];
           quote]).
Definition landmark : regex :=
  ri (seq [lit "<"; alts [lit "main"; lit "nav"; lit "header"; lit "footer"; lit "aside"];
           tag_rest; lit ">"]).
Definition light_hex : regex :=
  ri (seq [lit "color"; sp_star; lit ":"; sp_star; lit "#"; between 3 6 (any_of "ef")]).
(** [(2[3-5]\d|25[0-5])]. *)
Definition light_channel : re :=
  alts [seq [lit "2"; Set_ false [Range "3" "5"]; digit];
        seq [lit "25"; Set_ false [Range "0" "5"]]].
Definition light_rgb : regex :=
  ri (seq [lit "color"; sp_star; lit ":"; sp_star; lit "rgb"; sp_star; lit "("; sp_star;
           light_channel; sp_star; lit ","; sp_star; light_channel; sp_star; lit ",";
           sp_star; light_channel; sp_star; lit ")"]).
Definition focus : regex := ri (lit ":focus").
Definition outline : regex := ri (lit "outline").
Definition lang : regex := ri (seq [lit "<html"; tag_rest; lit "lang"; sp_star; lit "="]).
End Pat.

Section Accessibility.
Variables (d : WebsiteData) (pageSpeedData : option PageSpeed).

(** The accessibility sub-score of the performance lab (40 points
    at most): [Math.round(lighthouseA11yScore * 40)] unless the
    sub-score is [undefined]; [null * 40] is [0]. *)
Definition lighthouse_step : Step :=
  match accessibility_sub_score pageSpeedData with
  | JS.Undefined => points 0 [] [] []
  | n =>
      points (JS.round (JS.num_or_zero n * 40)) [] []
             [("lighthouseScore", Value (JS.round (JS.num_or_zero n * 100)))]
  end.

(** [const html = data.html || '']. *)
Definition page : string := JS.or_else (html d) EmptyString.

Definition imgTags : list string := Regex.match_all Pat.img page.
Definition imgsWithAlt : list string :=
  List.filter (fun img => Regex.test Pat.alt img) imgTags.

(** [imgTags.length > 0 ? imgsWithAlt.length / imgTags.length : 1]. *)
Definition altRatio : Q :=
  match length imgTags with
  | O => 1
  | S n => Z.of_nat (length imgsWithAlt) # Pos.of_succ_nat n
  end.

(** Alt text on images (15 points). *)
Definition alt_text_step : Step :=
  if Qle_bool (9 # 10) altRatio then points 15 [] [] [("altText", Flag true)]
  else if Qle_bool (1 # 2) altRatio then
    points 8
      [JS.show (JS.round ((1 - altRatio) * 100))
       +:+ "% of images missing alt text - screen readers cannot describe them"]
      [] [("altText", Flag false)]
  else
    points 0
      ["Most images missing alt text - site not accessible to visually impaired users"]
      [] [("altText", Flag false)].

(** Heading hierarchy (10 points). *)
Definition heading_step : Step :=
  let hasH1 := Regex.test Pat.h1_open page in
  let h1Count := length (Regex.match_all Pat.h1_open page) in
  if hasH1 && bool_decide (h1Count = 1%nat) then
    points 10 [] [] [("headingHierarchy", Flag true)]
  else if hasH1 then
    points 5
      (if bool_decide (1 < h1Count)%nat
       then ["Multiple H1 headings found - confuses screen readers"] else [])
      [] [("headingHierarchy", Flag false)]
  else
    points 0 ["No H1 heading found - page structure unclear for assistive technology"]
           [] [("headingHierarchy", Flag false)].

(** Form labels (10 points). *)
Definition form_label_step : Step :=
  let formInputs := Regex.match_all Pat.form_input page in
  let hasLabels := Regex.test Pat.label page in
  let hasAriaLabels := Regex.test Pat.aria_label page in
  if bool_decide (formInputs = []) || hasLabels || hasAriaLabels then
    points 10 [] [] [("formLabels", Flag true)]
  else
    points 0 ["Form inputs may lack proper labels - difficult for screen reader users"]
           [] [("formLabels", Flag false)].

(** Skip navigation links (5 points). *)
Definition skip_link_step : Step :=
  if Regex.test Pat.skip_link page || Regex.test Pat.main_anchor page then
    points 5 [] [] [("skipLinks", Flag true)]
  else
    points 0 ["No skip navigation link - keyboard users must tab through entire header"]
           [] [("skipLinks", Flag false)].

(** ARIA landmarks (5 points). *)
Definition landmark_step : Step :=
  if Regex.test Pat.role page || Regex.test Pat.landmark page then
    points 5 [] [] [("ariaLandmarks", Flag true)]
  else
    points 0
      ["Missing ARIA landmarks - assistive technology cannot navigate page sections"]
      [] [("ariaLandmarks", Flag false)].

(** Colour contrast heuristic (5 points). *)
Definition contrast_step : Step :=
  let hasLightText := Regex.test Pat.light_hex page || Regex.test Pat.light_rgb page in
  if negb hasLightText then points 5 [] [] [("colorContrast", Flag true)]
  else
    points 0
      ["Potential color contrast issues - may be difficult to read for low vision users"]
      [] [("colorContrast", Flag false)].

(** Focus indicators (5 points). *)
Definition focus_step : Step :=
  if Regex.test Pat.focus page || Regex.test Pat.outline page then
    points 5 [] [] [("focusIndicators", Flag true)]
  else
    points 0 ["No visible focus indicators found - keyboard navigation unclear"]
           [] [("focusIndicators", Flag false)].

(** Language attribute (5 points). *)
Definition lang_step : Step :=
  if Regex.test Pat.lang page then points 5 [] [] [("langAttribute", Flag true)]
  else
    points 0 ["Missing language attribute - screen readers may use wrong pronunciation"]
           [] [("langAttribute", Flag false)].

Definition html_steps : list Step :=
  [alt_text_step; heading_step; form_label_step; skip_link_step; landmark_step;
   contrast_step; focus_step; lang_step].

(** [checks.lighthouseScore || null]. *)
Definition lighthouse_or_null (m : gmap string mark) : option Z :=
  match m !! "lighthouseScore" with
  | Some (Value z) => if z =? 0 then None else Some z
  | _ => None
  end.

Definition analyzeAccessibility : Accessibility :=
  let t0 := run_steps [] [lighthouse_step] in
  if has_error d then
    {| a11y_score := Z.max (total t0) 0;
       a11y_issues := ["Could not analyze website HTML"];
       a11y_checks := checks t0;
       lighthouseScore := None |}
  else
    let t := fold_left commit html_steps t0 in
    {| a11y_score := clamp (total t);
       a11y_issues := issues t;
       a11y_checks := checks t;
       lighthouseScore := lighthouse_or_null (checks t) |}.
End Accessibility.

End Route.

(** ** The detailed scorers of the later revision of the route

    The later revision keeps the extractors and the AI-readiness,
    AEO/GEO and accessibility scorers of [route.js] unchanged, and
    replaces [analyzeSEO] and [analyzeSecurityHeaders] by scorers that
    build a list of detailed checks. *)

Module Revised.
Import Route.

(** *** SEO, detailed *)

(** [checks], [metaTags] and the two counts are missing on the error
    path. *)
Record SEO : Type := {
  seo_score : Z;
  seo_checks : option (gmap string mark);
  seo_issues : list string;
  seo_metaTags : option MetaTags;
  seo_detailedChecks : list DetailedCheck;
  passedChecks : option Z;
  failedChecks : option Z
}.

Definition og_image : Regex.regex :=
  Regex.ri (Regex.seq [Regex.lit "<meta"; Regex.star (Regex.none_of ">");
                       Regex.lit "property="; Regex.quote; Regex.lit "og:image"; Regex.quote]).
Definition viewport : Regex.regex :=
  Regex.ri (Regex.seq [Regex.lit "<meta"; Regex.star (Regex.none_of ">");
                       Regex.lit "name="; Regex.quote; Regex.lit "viewport"; Regex.quote]).

Section SEO.
Variables (d : WebsiteData) (pageSpeedData : option PageSpeed).

Definition page : string := JS.or_else (html d) EmptyString.

(** 1. Meta Title (15 points). *)
Definition titleCheck : Step :=
  match meta d title with
  | Some (String c s) =>
      let n := Z.of_nat (String.length (String c s)) in
      checked
        {| name := "Meta Title";
           status := if length_within 30 60 (String c s) then good else partial;
           score := if length_within 30 60 (String c s) then 15 else 10;
           maxScore := 15; details := [];
           recommendation :=
             if length_within 30 60 (String c s) then EmptyString
             else if n <? 30 then "Title is too short. Add more descriptive keywords."
             else "Title is too long and may be truncated in search results." |}
        [] [] [("title", Flag true)]
  | _ =>
      checked
        {| name := "Meta Title"; status := missing; score := 0; maxScore := 15;
           details := [];
           recommendation :=
             "Add a unique, descriptive title tag with your main keyword and location." |}
        ["Missing title tag"] [] [("title", Flag false)]
  end.

(** 2. Meta Description (15 points). *)
Definition descCheck : Step :=
  match meta d description with
  | Some (String c s) =>
      let n := Z.of_nat (String.length (String c s)) in
      checked
        {| name := "Meta Description";
           status := if length_within 120 160 (String c s) then good else partial;
           score := if length_within 120 160 (String c s) then 15 else 10;
           maxScore := 15; details := [];
           recommendation :=
             if length_within 120 160 (String c s) then EmptyString
             else if n <? 120 then
               "Description is too short. Expand to include services, location, and a call-to-action."
             else "Description is too long and will be truncated in search results." |}
        [] [] [("description", Flag true)]
  | _ =>
      checked
        {| name := "Meta Description"; status := missing; score := 0; maxScore := 15;
           details := [];
           recommendation :=
             "Add a compelling meta description with your services, location, and a call-to-action." |}
        ["Missing meta description"] [] [("description", Flag false)]
  end.

(** 3. H1 Heading (15 points). *)
Definition h1Check : Step :=
  match h1_length d with
  | Some 1%nat =>
      checked {| name := "H1 Heading"; status := good; score := 15; maxScore := 15;
                 details := []; recommendation := EmptyString |}
              [] [] [("h1", Flag true)]
  | Some (S (S n)) =>
      checked {| name := "H1 Heading"; status := partial; score := 5; maxScore := 15;
                 details := [];
                 recommendation :=
                   "Found " +:+ JS.show (Z.of_nat (S (S n)))
                   +:+ " H1 tags. Use only one H1 per page for better SEO." |}
              ["Multiple H1 tags found"] [] [("h1", Flag false)]
  | _ =>
      checked {| name := "H1 Heading"; status := missing; score := 0; maxScore := 15;
                 details := [];
                 recommendation :=
                   "Add a single H1 tag with your main keyword. This is crucial for SEO." |}
              ["Missing H1 tag"] [] [("h1", Flag false)]
  end.

(** 4. Schema Markup (15 points). *)
Definition schemaCheck : Step :=
  let absent :=
    checked {| name := "Schema Markup"; status := missing; score := 0; maxScore := 15;
               details := [];
               recommendation :=
                 "Add LocalBusiness, Service, and FAQPage schema markup to enable rich snippets in search results." |}
            ["No schema markup detected"] [] [("schema", Flag false)] in
  match schemaMarkup d with
  | Some sm =>
      if found sm then
        checked
          {| name := "Schema Markup";
             status := if hasFAQSchema sm then good else partial;
             score := 10 + (if hasLocalBusiness sm then 3 else 0)
                         + (if hasFAQSchema sm then 2 else 0);
             maxScore := 15; details := [];
             recommendation :=
               if hasLocalBusiness sm then EmptyString
               else "Add LocalBusiness schema for better local search visibility." |}
          [] [] [("schema", Flag true)]
      else absent
  | None => absent
  end.

(** 5. Canonical URL (10 points). *)
Definition canonicalCheck : Step :=
  if has_meta d canonical then
    checked {| name := "Canonical URL"; status := good; score := 10; maxScore := 10;
               details := []; recommendation := EmptyString |}
            [] [] [("canonical", Flag true)]
  else
    checked {| name := "Canonical URL"; status := missing; score := 0; maxScore := 10;
               details := [];
               recommendation := "Add a canonical URL to prevent duplicate content issues." |}
            ["Missing canonical URL"] [] [("canonical", Flag false)].

(** 6. Open Graph Tags (10 points). *)
Definition ogCheck : Step :=
  let hasImage := Regex.test og_image page in
  if has_meta d ogTitle && has_meta d ogDescription then
    checked
      {| name := "Open Graph Tags";
         status := if hasImage then good else partial;
         score := if hasImage then 10 else 7;
         maxScore := 10; details := [];
         recommendation :=
           if hasImage then EmptyString
           else "Add og:image (1200x630px) for better social sharing appearance." |}
      [] [] [("openGraph", Flag true)]
  else
    checked
      {| name := "Open Graph Tags"; status := missing; score := 0; maxScore := 10;
         details := [];
         recommendation :=
           "Add Open Graph tags (og:title, og:description, og:image) for better social media sharing." |}
      ["Missing Open Graph tags"] [] [("openGraph", Flag false)].

(** [data.metaTags?.robots?.includes('noindex')]. *)
Definition noindex : bool :=
  match meta d robots with Some r => JS.includes "noindex" r | None => false end.

(** 7. Robots Meta (5 points). *)
Definition robotsCheck : Step :=
  if noindex then
    checked {| name := "Robots Meta"; status := warning; score := 0; maxScore := 5;
               details := [];
               recommendation :=
                 "Page is set to noindex - it will not appear in search results." |}
            ["Page set to noindex"] [] [("robots", Flag false)]
  else
    checked {| name := "Robots Meta"; status := good; score := 5; maxScore := 5;
               details := []; recommendation := EmptyString |}
            [] [] [("robots", Flag true)].

(** [pageSpeedData?.lighthouseResult?.categories?.performance?.score || 0]. *)
Definition perfScore : Q := JS.num_or_zero (performance_sub_score pageSpeedData).

(** 8. Mobile Friendly (10 points). *)
Definition mobileCheck : Step :=
  let hasViewport := Regex.test viewport page in
  if hasViewport && Qle_bool (1 # 2) perfScore then
    checked {| name := "Mobile Friendly"; status := good; score := 10; maxScore := 10;
               details := []; recommendation := EmptyString |}
            [] [] [("mobile", Flag true)]
  else if hasViewport then
    checked {| name := "Mobile Friendly"; status := partial; score := 5; maxScore := 10;
               details := [];
               recommendation :=
                 "Viewport is set but mobile performance needs improvement." |}
            [] [] [("mobile", Flag false)]
  else
    checked {| name := "Mobile Friendly"; status := missing; score := 0; maxScore := 10;
               details := [];
               recommendation := "Add viewport meta tag for proper mobile rendering." |}
            ["Not mobile-friendly"] [] [("mobile", Flag false)].

(** 9. HTTPS (10 points). *)
Definition httpsCheck : Step :=
  if is_true (hasHttps d) then
    checked {| name := "HTTPS Security"; status := good; score := 10; maxScore := 10;
               details := []; recommendation := EmptyString |}
            [] [] [("https", Flag true)]
  else
    checked {| name := "HTTPS Security"; status := missing; score := 0; maxScore := 10;
               details := [];
               recommendation :=
                 "Switch to HTTPS. This is a ranking factor and essential for user trust." |}
            ["Site not using HTTPS"] [] [("https", Flag false)].

(** 10. Core Web Vitals (10 points). *)
Definition cwvCheck : Step :=
  if Qle_bool (9 # 10) perfScore then
    checked {| name := "Core Web Vitals"; status := good; score := 10; maxScore := 10;
               details := []; recommendation := EmptyString |}
            [] [] []
  else if Qle_bool (1 # 2) perfScore then
    checked {| name := "Core Web Vitals"; status := partial; score := 5; maxScore := 10;
               details := [];
               recommendation :=
                 "Improve page speed by optimizing images, reducing JavaScript, and enabling caching." |}
            [] [] []
  else
    checked {| name := "Core Web Vitals"; status := missing; score := 0; maxScore := 10;
               details := [];
               recommendation :=
                 "Page speed is poor. Compress images, minimize CSS/JS, and consider a faster host." |}
            ["Poor Core Web Vitals"] [] [].

Definition seo_steps : list Step :=
  [titleCheck; descCheck; h1Check; schemaCheck; canonicalCheck; ogCheck; robotsCheck;
   mobileCheck; httpsCheck; cwvCheck].

Definition is_good (c : DetailedCheck) : bool :=
  match status c with good => true | _ => false end.
Definition is_missing_or_partial (c : DetailedCheck) : bool :=
  match status c with missing | partial => true | _ => false end.

Definition analyzeSEO : SEO :=
  if has_error d then
    {| seo_score := 0; seo_checks := None; seo_issues := []; seo_metaTags := None;
       seo_detailedChecks := []; passedChecks := None; failedChecks := None |}
  else
    let t := run_steps [] seo_steps in
    {| seo_score := clamp (total t);
       seo_checks := Some (checks t);
       seo_issues := issues t;
       seo_metaTags := metaTags d;
       seo_detailedChecks := detailedChecks t;
       passedChecks := Some (Z.of_nat (length (List.filter is_good (detailedChecks t))));
       failedChecks :=
         Some (Z.of_nat (length (List.filter is_missing_or_partial (detailedChecks t)))) |}.
End SEO.

(** *** Security headers, detailed *)

Record Security : Type := {
  sec_score : Z;
  grade : string;
  sec_issues : list string;
  sec_checks : gmap string mark;
  sec_detailedChecks : list DetailedCheck;
  sec_hasHttps : bool;
  summary : string
}.

Module Pat.
Import Regex.
(** [/max-age=(\d+)/]. *)
Definition max_age : regex := rs (seq [lit "max-age="; plus digit]).
Definition http_resource : regex :=
  ri (seq [lit "http://"; plus (Set_ true (chars (JS.dq +:+ "'") ++ [Space])); lit ".";
           alts [lit "js"; lit "css"; lit "png"; lit "jpg"; lit "jpeg"; lit "gif";
                 lit "svg"; lit "woff"; lit "woff2"]]).
Definition http_src : regex := ri (seq [lit "src="; quote; lit "http://"]).
Definition http_link : regex :=
  ri (seq [lit "href="; quote; lit "http://"; star not_quote; lit ".";
           alts [lit "css"; lit "js"]]).
End Pat.

(** [parseInt(value.match(/max-age=(\d+)/)[1])], when the pattern
    matches. *)
Definition max_age (value : string) : option Z :=
  match Regex.search false (Regex.body Pat.max_age) (list_ascii_of_string value) with
  | Some (_, m, _) => Some (fst (fst (Json.digits 0 0 (drop 8 m))))
  | None => None
  end.

Section Security.
Variables (url : string) (d : WebsiteData).

(** [data.html || ''] and [data.headers || {}]. *)
Definition sec_page : string := JS.or_else (html d) EmptyString.
Definition hs : gmap string string :=
  match headers d with Some m => m | None => ∅ end.

Definition header (name : string) : option string := hs !! name.
Definition has (name : string) : bool := JS.truthy_opt (header name).
Definition includes (name text : string) : bool :=
  match header name with Some v => JS.includes text v | None => false end.
Definition https : bool := JS.startsWith "https://" url.

(** 1. HTTPS (25 points). *)
Definition sec_httpsCheck : Step :=
  if https then
    checked {| name := "HTTPS / SSL Certificate"; status := good; score := 25;
               maxScore := 25; details := ["✓ Site uses HTTPS encryption"];
               recommendation := EmptyString |}
            [] [] [("https", Flag true)]
  else
    checked {| name := "HTTPS / SSL Certificate"; status := missing; score := 0;
               maxScore := 25;
               details := ["✗ Site not using HTTPS - data is transmitted unencrypted"];
               recommendation :=
                 "Install an SSL certificate immediately. Most hosts offer free SSL via Let's Encrypt. This is critical for security and SEO." |}
            ["Not using HTTPS - customer data is at risk"] [] [("https", Flag false)].

(** 2. HSTS (15 points). *)
Definition hstsCheck : Step :=
  match header "strict-transport-security" with
  | Some (String c s) =>
      let hstsValue := String c s in
      checked
        {| name := "HSTS (HTTP Strict Transport Security)"; status := good; score := 15;
           maxScore := 15;
           details :=
             ["✓ HSTS header present"]
             ++ (if JS.includes "max-age=" hstsValue then
                   match max_age hstsValue with
                   | Some age =>
                       if 31536000 <=? age
                       then ["✓ Max-age is 1 year or more (recommended)"] else []
                   | None => []
                   end
                 else [])
             ++ (if JS.includes "includeSubDomains" hstsValue
                 then ["✓ Includes subdomains"] else []);
           recommendation := EmptyString |}
        [] [] [("hsts", Flag true)]
  | _ =>
      checked
        {| name := "HSTS (HTTP Strict Transport Security)"; status := missing; score := 0;
           maxScore := 15; details := ["✗ No HSTS header found"];
           recommendation :=
             "Add the header: Strict-Transport-Security: max-age=31536000; includeSubDomains. This can be configured in your web server or CDN settings." |}
        ["Missing HSTS header - browsers may connect via insecure HTTP"] []
        [("hsts", Flag false)]
  end.

(** 3. Content Security Policy (15 points). *)
Definition cspCheck : Step :=
  match header "content-security-policy" with
  | Some (String c s) =>
      let cspValue := String c s in
      let unsafe :=
        JS.includes "unsafe-inline" cspValue || JS.includes "unsafe-eval" cspValue in
      checked
        {| name := "Content Security Policy (CSP)";
           status := if unsafe then partial else good;
           score := if unsafe then 10 else 15;
           maxScore := 15;
           details :=
             ["✓ Content Security Policy header present"]
             ++ (if JS.includes "default-src" cspValue
                 then ["✓ Has default-src directive"] else [])
             ++ (if JS.includes "script-src" cspValue
                 then ["✓ Has script-src directive"] else [])
             ++ (if unsafe
                 then ["⚠ Uses unsafe-inline or unsafe-eval (reduces protection)"]
                 else []);
           recommendation := EmptyString |}
        [] [] [("csp", Flag true)]
  | _ =>
      checked
        {| name := "Content Security Policy (CSP)"; status := missing; score := 0;
           maxScore := 15; details := ["✗ No Content Security Policy found"];
           recommendation :=
             "Implement a CSP header. Start with: Content-Security-Policy: default-src 'self'; script-src 'self' trusted-cdn.com; This blocks unauthorized scripts from running." |}
        ["No Content Security Policy - site vulnerable to XSS attacks"] []
        [("csp", Flag false)]
  end.

(** 4. Clickjacking protection (10 points). *)
Definition frameCheck : Step :=
  let ancestors := includes "content-security-policy" "frame-ancestors" in
  if has "x-frame-options" || ancestors then
    checked
      {| name := "Clickjacking Protection"; status := good; score := 10; maxScore := 10;
         details :=
           (match header "x-frame-options" with
            | Some (String c s) => ["✓ X-Frame-Options: " +:+ String c s]
            | _ => []
            end)
           ++ (if ancestors then ["✓ CSP frame-ancestors directive set"] else []);
         recommendation := EmptyString |}
      [] [] [("clickjacking", Flag true)]
  else
    checked
      {| name := "Clickjacking Protection"; status := missing; score := 0; maxScore := 10;
         details := ["✗ No clickjacking protection found"];
         recommendation :=
           "Add the header: X-Frame-Options: DENY (or SAMEORIGIN if you embed your own content). This prevents your site from being embedded in malicious iframes." |}
      ["No clickjacking protection - site can be embedded in malicious iframes"] []
      [("clickjacking", Flag false)].

(** 5. MIME type sniffing protection (10 points). *)
Definition mimeCheck : Step :=
  match header "x-content-type-options" with
  | Some v =>
      if String.eqb v "nosniff" then
        checked {| name := "MIME Type Sniffing Protection"; status := good; score := 10;
                   maxScore := 10; details := ["✓ X-Content-Type-Options: nosniff"];
                   recommendation := EmptyString |}
                [] [] [("mimeSniffing", Flag true)]
      else if JS.truthy v then
        checked {| name := "MIME Type Sniffing Protection"; status := partial; score := 5;
                   maxScore := 10;
                   details :=
                     ["⚠ X-Content-Type-Options present but not set to " +:+ JS.dq +:+ "nosniff" +:+ JS.dq];
                   recommendation := EmptyString |}
                [] [] [("mimeSniffing", Flag false)]
      else
        checked {| name := "MIME Type Sniffing Protection"; status := missing; score := 0;
                   maxScore := 10; details := ["✗ No X-Content-Type-Options header"];
                   recommendation :=
                     "Add the header: X-Content-Type-Options: nosniff. This is a simple, one-line security improvement." |}
                [] [] [("mimeSniffing", Flag false)]
  | None =>
      checked {| name := "MIME Type Sniffing Protection"; status := missing; score := 0;
                 maxScore := 10; details := ["✗ No X-Content-Type-Options header"];
                 recommendation :=
                   "Add the header: X-Content-Type-Options: nosniff. This is a simple, one-line security improvement." |}
              [] [] [("mimeSniffing", Flag false)]
  end.

(** 6. Referrer policy (5 points). *)
Definition referrerCheck : Step :=
  match header "referrer-policy" with
  | Some (String c s) =>
      checked {| name := "Referrer Policy"; status := good; score := 5; maxScore := 5;
                 details := ["✓ Referrer-Policy: " +:+ String c s];
                 recommendation := EmptyString |}
              [] [] [("referrerPolicy", Flag true)]
  | _ =>
      checked {| name := "Referrer Policy"; status := missing; score := 0; maxScore := 5;
                 details := ["✗ No Referrer-Policy header"];
                 recommendation :=
                   "Add: Referrer-Policy: strict-origin-when-cross-origin. This limits what URL info is shared with other sites." |}
              [] [] [("referrerPolicy", Flag false)]
  end.

(** 7. Permissions policy (5 points). *)
Definition permissionsCheck : Step :=
  if has "permissions-policy" || has "feature-policy" then
    checked {| name := "Permissions Policy (Feature Policy)"; status := good; score := 5;
               maxScore := 5; details := ["✓ Permissions Policy header present"];
               recommendation := EmptyString |}
            [] [] [("permissionsPolicy", Flag true)]
  else
    checked {| name := "Permissions Policy (Feature Policy)"; status := missing;
               score := 0; maxScore := 5; details := ["✗ No Permissions Policy header"];
               recommendation :=
                 "Add: Permissions-Policy: camera=(), microphone=(), geolocation=(). This blocks unwanted access to device features." |}
            [] [] [("permissionsPolicy", Flag false)].

(** 8. Mixed content (10 points). *)
Definition mixedContentCheck : Step :=
  if https then
    let httpResources := Regex.match_all Pat.http_resource sec_page in
    let httpScripts := Regex.match_all Pat.http_src sec_page in
    let httpLinks := Regex.match_all Pat.http_link sec_page in
    if bool_decide (httpResources = []) && bool_decide (httpScripts = [])
       && bool_decide (httpLinks = []) then
      checked {| name := "Mixed Content"; status := good; score := 10; maxScore := 10;
                 details := ["✓ No mixed content detected"];
                 recommendation := EmptyString |}
              [] [] [("mixedContent", Flag true)]
    else
      checked
        {| name := "Mixed Content"; status := missing; score := 0; maxScore := 10;
           details :=
             ["✗ Found "
              +:+ JS.show (Z.of_nat (length httpResources + length httpScripts
                                     + length httpLinks))
              +:+ " HTTP resources on HTTPS page"];
           recommendation :=
             "Update all resource URLs to use HTTPS, or use protocol-relative URLs (//example.com/resource.js). Check images, scripts, stylesheets, and fonts." |}
        ["Mixed content found - HTTP resources on HTTPS page"] []
        [("mixedContent", Flag false)]
  else
    checked {| name := "Mixed Content"; status := partial; score := 0; maxScore := 10;
               details := ["⚠ Cannot check - site not using HTTPS"];
               recommendation := EmptyString |}
            [] [] [("mixedContent", Flag false)].

(** 9. Exposed server information (5 points). *)
Definition serverInfoCheck : Step :=
  let serverHeader := JS.or_else (header "server") EmptyString in
  let poweredBy := JS.or_else (header "x-powered-by") EmptyString in
  if negb (JS.truthy serverHeader) && negb (JS.truthy poweredBy) then
    checked {| name := "Server Information Exposure"; status := good; score := 5;
               maxScore := 5; details := ["✓ No server version information exposed"];
               recommendation := EmptyString |}
            [] [] [("serverInfo", Flag true)]
  else
    checked
      {| name := "Server Information Exposure"; status := partial; score := 2;
         maxScore := 5;
         details :=
           (if JS.truthy serverHeader
            then ["⚠ Server header exposed: " +:+ serverHeader] else [])
           ++ (if JS.truthy poweredBy
               then ["⚠ X-Powered-By header exposed: " +:+ poweredBy] else []);
         recommendation :=
           "Remove or obscure Server and X-Powered-By headers in your web server config. Attackers use this info to find exploits." |}
      [] [] [("serverInfo", Flag false)].

Definition sec_steps : list Step :=
  [sec_httpsCheck; hstsCheck; cspCheck; frameCheck; mimeCheck; referrerCheck;
   permissionsCheck; mixedContentCheck; serverInfoCheck].

(** The letter grade, from the score before the clamp. *)
Definition securityGrade (sc : Z) : string :=
  if 85 <=? sc then "A" else if 70 <=? sc then "B" else if 55 <=? sc then "C"
  else if 40 <=? sc then "D" else "F".

Definition analyzeSecurityHeaders : Security :=
  let t := run_steps [] sec_steps in
  {| sec_score := clamp (total t);
     grade := securityGrade (total t);
     sec_issues := issues t;
     sec_checks := checks t;
     sec_detailedChecks := detailedChecks t;
     sec_hasHttps := https;
     summary :=
       if 70 <=? total t then "Good security posture with minor improvements possible."
       else if 50 <=? total t
            then "Moderate security - several important headers missing."
            else "Security needs attention - multiple vulnerabilities detected." |}.
End Security.

End Revised.

(** ** The AEO/GEO scorer of the earliest revision of the route

    The earliest revision has the AI-readiness, SEO, security and
    accessibility scorers of [route.js] word for word.  Its AEO/GEO
    scorer has the same six sections and builds no detailed checks; its
    detectors test lists of keywords and report no confidence. *)

Module Earliest.
Import Route.

(** [checks] and [llmContext] are missing on the error path. *)
Record AEOGEO : Type := {
  aeo_score : Z;
  aeo_checks : option (gmap string mark);
  aeo_issues : list string;
  aeo_recommendations : list string;
  llmContext : option (bool * string)
}.

Section AEO.
Variables (d : WebsiteData) (industry city companyName : string).

(** Schema Markup (20 points). *)
Definition schema_step : Step :=
  match schemaMarkup d with
  | Some sm =>
      if found sm then
        points (10 + (if hasLocalBusiness sm then 5 else 0)
                   + (if hasFAQSchema sm then 5 else 0))
               [] [] [("schemaMarkup", Flag true)]
      else
        points 0
          ["No structured data/schema markup - LLMs cannot easily parse your business info"]
          ["Add LocalBusiness and FAQPage schema markup"] []
  | None =>
      points 0
        ["No structured data/schema markup - LLMs cannot easily parse your business info"]
        ["Add LocalBusiness and FAQPage schema markup"] []
  end.

(** FAQ Content (15 points). *)
Definition faq_step : Step :=
  if is_true (hasFAQ d) || schema_flag d hasFAQSchema then
    points 15 [] [] [("faqContent", Flag true)]
  else
    points 0 ["No FAQ content - missing opportunity for LLMs to extract Q&A"]
           ["Create FAQ section answering common " +:+ industry +:+ " questions"] [].

(** Local Business Signals (15 points). *)
Definition local_step : Step :=
  if local d hasAddress && local d (fun l => JS.truthy_opt (phone l)) then
    points (10 + (if local d hasHours then 5 else 0)) [] [] [("localSignals", Flag true)]
  else
    points 0 ["Weak local signals - LLMs may not recommend you for local searches"]
           ["Prominently display " +:+ city +:+ " address, phone, and business hours"] [].

(** Clear, Extractable Answers (20 points). *)
Definition answers_step : Step :=
  if aeo d hasDefinitiveStatements && aeo d hasServiceDescriptions then
    points (15 + (if aeo d hasProcessDescription then 5 else 0)) [] []
           [("clearAnswers", Flag true)]
  else
    points 0 ["Content lacks clear, direct statements LLMs can extract"]
           ["Write clear " +:+ JS.dq +:+ "We are..." +:+ JS.dq +:+ ", " +:+ JS.dq +:+ "We specialize in..." +:+ JS.dq +:+ ", " +:+ JS.dq +:+ "Our process is..." +:+ JS.dq +:+ " statements"]
           [].

(** Expertise / E-E-A-T Signals (15 points). *)
Definition expertise_step : Step :=
  if aeo d hasExpertiseIndicators then
    points (10 + (if aeo d hasStatistics then 5 else 0)) [] []
           [("expertiseSignals", Flag true)]
  else
    points 0 ["Missing expertise indicators that build LLM trust"]
           ["Add credentials, years of experience, certifications, and client statistics"]
           [].

(** Structured Content (15 points): 15 with both lists and Q&A
    format, 8 with one of the two. *)
Definition structure_step : Step :=
  if aeo d hasStructuredLists && aeo d hasQAFormat then
    points 15 [] [] [("structuredContent", Flag true)]
  else if aeo d hasStructuredLists || aeo d hasQAFormat then
    points 8 [] [] [("structuredContent", Flag true)]
  else
    points 0 ["Content not structured for LLM parsing"]
           ["Use bullet points, numbered lists, and clear headings"] [].

Definition aeo_steps : list Step :=
  [schema_step; faq_step; local_step; answers_step; expertise_step; structure_step].

Definition analyzeAEOGEO : AEOGEO :=
  if has_error d then
    {| aeo_score := 0; aeo_checks := None; aeo_issues := []; aeo_recommendations := [];
       llmContext := None |}
  else
    let t := run_steps aeo_initial aeo_steps in
    {| aeo_score := clamp (total t);
       aeo_checks := Some (checks t);
       aeo_issues := issues t;
       aeo_recommendations := recommendations t;
       llmContext :=
         Some (60 <=? total t,
               if 60 <=? total t then
                 "Site has sufficient signals for LLMs to understand and recommend "
                 +:+ companyName
               else
                 "LLMs like ChatGPT may struggle to recommend " +:+ companyName
                 +:+ " for " +:+ JS.dq +:+ industry +:+ " in " +:+ city +:+ JS.dq +:+ " queries") |}.
End AEO.

End Earliest.

(** ** Sample inputs *)

Module Sample.

Definition q : string := JS.dq.

(** A structured-data block whose text is [{"@type":"<ty>"}]. *)
Definition block (ty : string) : string :=
  "<script type='application/ld+json'>{" +:+ q +:+ "@type" +:+ q +:+ ":" +:+ q +:+ ty
  +:+ q +:+ "}</script>".

(** A block whose text is not JSON. *)
Definition broken_block : string :=
  "<script type='application/ld+json'>{ @type: FAQPage,, }</script>".

Definition organization_page : string :=
  "<html lang='en'><head><title>Acme</title>" +:+ block "Organization"
  +:+ "</head><body><h1>Acme plumbing</h1></body></html>".

Definition mixed_page : string :=
  "<html><head>" +:+ broken_block +:+ block "FAQPage" +:+ "</head><body></body></html>".

Definition calconic_page : string :=
  "<html><body><script src='https://app.calconic.com/api/loader.js'></script></body></html>".

Definition title45 : string := "Acme Plumbing | Emergency Plumbers, Austin TX".
Definition description140 : string :=
  "Acme Plumbing is a licensed plumber serving Austin and the surrounding area with emergency repairs, installations and upfront pricing. Call.".

Definition tags : MetaTags :=
  {| title := Some title45; description := Some description140;
     ogTitle := Some "Acme Plumbing"; ogDescription := Some "Licensed plumber in Austin";
     canonical := Some "https://acme.example/"; robots := None |}.

Definition indicators (lists qa : bool) : AEOIndicators :=
  {| hasDefinitiveStatements := true; hasQAFormat := qa; hasStructuredLists := lists;
     hasServiceDescriptions := true; hasLocalKeywords := true;
     hasExpertiseIndicators := false; hasProcessDescription := false;
     hasComparisonContent := false; hasStatistics := false;
     hasAuthorAttribution := false |}.

(** The object [scrapeWebsiteData] builds for a page, given the parts
    of it that the extractors above do not compute. *)
Definition scraped (page : string) (faq : bool) (a : AEOIndicators) : WebsiteData :=
  {| error := None;
     html := Some page;
     headers := Some {[ "server" := "nginx" ]};
     hasHttps := Some true;
     hasChatbot := Some (Extract.checkForChatbot page);
     hasVoiceAgent := Some (Extract.checkForVoiceAgent page);
     hasCalculator := Some (Extract.checkForCalculator page);
     schemaMarkup := Some (Extract.extractSchemaMarkup Json.parse page);
     metaTags := Some tags;
     headings := Some {| h1 := ["Acme plumbing"]; h2 := []; h3 := [] |};
     hasFAQ := Some faq;
     localBusinessInfo := Some {| phone := None; hasAddress := false; hasHours := true |};
     hasReviews := Some {| reviews_detected := false; hasStarRating := false |};
     contactInfo := Some {| hasPhoneInHeader := false; hasClickToCall := false;
                            hasContactForm := false; hasEmail := false |};
     aeoIndicators := Some a |}.

Definition organization_data : WebsiteData :=
  scraped organization_page false (indicators true true).

(** A report of the performance lab with the two sub-scores. *)
Definition report (perf a11y : Q) : option PageSpeed :=
  Some {| performance_score := JS.Num perf; accessibility_score := JS.Num a11y |}.

End Sample.

(** ** More of the runtime: [trim], capture groups, and what a pattern
    can match *)

Module Text.

(** The code units that [trim] removes: white space and line
    terminators, the set of [\s]. *)
Fixpoint trim_start (s : list ascii) : list ascii :=
  match s with
  | c :: s' => if Regex.is_space c then trim_start s' else s
  | [] => []
  end.

Definition trim_end (s : list ascii) : list ascii := rev (trim_start (rev s)).

Definition trim_units (s : list ascii) : list ascii := trim_end (trim_start s).

(** [s.trim()]. *)
Definition trim (s : string) : string :=
  string_of_list_ascii (trim_units (list_ascii_of_string s)).

(** [s.toLowerCase().includes(keyword)] for one of a list of keywords:
    [keywords.some(k => lower.includes(k))]. *)
Definition includes_any (keywords : list string) (lower : string) : bool :=
  existsb (fun k => JS.includes k lower) keywords.

End Text.

Module Capture.
Import Regex.

(** A pattern with one capture group: [before(group)after]. *)
Record grouped : Type := Grouped {
  before : re;
  group : re;
  after : re;
  grouped_i : bool
}.

(** The pattern without its parentheses. *)
Definition whole (p : grouped) : regex :=
  Regex (Cat (before p) (Cat (group p) (after p))) (grouped_i p).

(** The match of the pattern at the head of [s], in the backtracking
    order of [run]: the text of the group. *)
Definition group_here (p : grouped) (s : list ascii) : option (list ascii) :=
  run (grouped_i p) (before p) s (fun s1 =>
    run (grouped_i p) (group p) s1 (fun s2 =>
      run (grouped_i p) (after p) s2 (fun _ =>
        Some (take (length s1 - length s2)%nat s1)))).

Fixpoint group_search (p : grouped) (s : list ascii) : option (list ascii) :=
  match group_here p s with
  | Some g => Some g
  | None =>
      match s with
      | [] => None
      | _ :: s' => group_search p s'
      end
  end.

(** [s.match(pattern)], then [match[1]] when the match is not
    [null]. *)
Definition group1 (p : grouped) (s : string) : option string :=
  match group_search p (list_ascii_of_string s) with
  | Some g => Some (string_of_list_ascii g)
  | None => None
  end.

(** [s.match(pattern)[0]] for a pattern without the [g] flag: the
    leftmost match. *)
Definition first_match (p : regex) (s : string) : option string :=
  match search (flag_i p) (body p) (list_ascii_of_string s) with
  | Some (_, m, _) => Some (string_of_list_ascii m)
  | None => None
  end.

End Capture.

Module Language.
Import Regex.

(** The texts a pattern matches, whatever the order in which the
    matcher tries them. *)
Inductive Matches (ci : bool) : re -> list ascii -> Prop :=
| MEps : Matches ci Eps []
| MLit c x : lit_match ci c x = true -> Matches ci (Lit c) [x]
| MDot x : is_line_end x = false -> Matches ci Dot [x]
| MSet neg items x :
    xorb neg (in_items ci x items) = true -> Matches ci (Set_ neg items) [x]
| MCat a b w1 w2 :
    Matches ci a w1 -> Matches ci b w2 -> Matches ci (Cat a b) (w1 ++ w2)
| MAltL a b w : Matches ci a w -> Matches ci (Alt a b) w
| MAltR a b w : Matches ci b w -> Matches ci (Alt a b) w
| MStarNil greedy a : Matches ci (Star greedy a) []
| MStarMore greedy a w1 w2 :
    Matches ci a w1 -> Matches ci (Star greedy a) w2 ->
    Matches ci (Star greedy a) (w1 ++ w2).

(** The iterations of a star, as [run] unfolds them. *)
Section Iterate.
Variables (ci greedy : bool) (a : re) (k : cont).

Fixpoint iterate (n : nat) (s : list ascii) {struct n} : option (list ascii) :=
  match n with
  | O => k s
  | S n' =>
      let again (_ : unit) :=
        run ci a s (fun s' =>
          if (length s' <? length s)%nat then iterate n' s' else None) in
      if greedy then
        match again tt with Some out => Some out | None => k s end
      else
        match k s with Some out => Some out | None => again tt end
  end.
End Iterate.

(** The least length of a match. *)
Fixpoint min_length (r : re) : nat :=
  match r with
  | Eps => 0
  | Lit _ | Dot | Set_ _ _ => 1
  | Cat a b => min_length a + min_length b
  | Alt a b => Nat.min (min_length a) (min_length b)
  | Star _ _ => 0
  end.

(** The greatest length of a match; [None] when there is none. *)
Fixpoint max_length (r : re) : option nat :=
  match r with
  | Eps => Some 0%nat
  | Lit _ | Dot | Set_ _ _ => Some 1%nat
  | Cat a b =>
      match max_length a, max_length b with
      | Some m, Some n => Some (m + n)%nat
      | _, _ => None
      end
  | Alt a b =>
      match max_length a, max_length b with
      | Some m, Some n => Some (Nat.max m n)
      | _, _ => None
      end
  | Star _ _ => None
  end.

(** Whether the character [x] can occur in a match. *)
Fixpoint may_hold (ci : bool) (r : re) (x : ascii) : bool :=
  match r with
  | Eps => false
  | Lit c => lit_match ci c x
  | Dot => negb (is_line_end x)
  | Set_ neg items => xorb neg (in_items ci x items)
  | Cat a b | Alt a b => may_hold ci a x || may_hold ci b x
  | Star _ a => may_hold ci a x
  end.

(** The text [t] in any letter case, at the head of [s]. *)
Fixpoint prefix_ci (t s : list ascii) : bool :=
  match t, s with
  | [], _ => true
  | c :: t', x :: s' => lit_match true c x && prefix_ci t' s'
  | _ :: _, [] => false
  end.

(** The text [t] in any letter case, somewhere in [s]. *)
Fixpoint includes_ci (t s : list ascii) : bool :=
  prefix_ci t s ||
  match s with
  | [] => false
  | _ :: s' => includes_ci t s'
  end.

End Language.

(** ** The rest of the signal extractor, and [scrapeWebsiteData] *)

Module Extract2.
Import Regex Capture.

Definition tag_rest : re := star (none_of ">").
Definition sp_opt : re := opt sp.

(** A [meta] tag with the quoted attribute [attr=value], then a
    quoted [content]: the group is the content, up to the first quote
    of either kind. *)
Definition meta_pattern (attr value : string) : grouped :=
  Grouped (seq [lit "<meta"; tag_rest; lit attr; lit "="; quote; lit value; quote; tag_rest;
                lit "content="; quote])
          (star not_quote) quote true.

Definition title_pattern : grouped :=
  Grouped (seq [lit "<title"; tag_rest; lit ">"]) (star (none_of "<")) (lit "</title>") true.
Definition description_pattern : grouped := meta_pattern "name" "description".
Definition og_title_pattern : grouped := meta_pattern "property" "og:title".
Definition og_description_pattern : grouped := meta_pattern "property" "og:description".
Definition canonical_pattern : grouped :=
  Grouped (seq [lit "<link"; tag_rest; lit "rel="; quote; lit "canonical"; quote; tag_rest;
                lit "href="; quote])
          (star not_quote) quote true.
Definition robots_pattern : grouped := meta_pattern "name" "robots".

(** [m ? m[1].trim() : null]. *)
Definition trimmed_group (p : grouped) (html : string) : option string :=
  match group1 p html with
  | Some g => Some (Text.trim g)
  | None => None
  end.

Definition extractMetaTags (html : string) : MetaTags :=
  {| title := trimmed_group title_pattern html;
     description := trimmed_group description_pattern html;
     ogTitle := trimmed_group og_title_pattern html;
     ogDescription := trimmed_group og_description_pattern html;
     canonical := trimmed_group canonical_pattern html;
     robots := trimmed_group robots_pattern html |}.

(** A heading element with no tag inside, and any tag. *)
Definition heading_pattern (tag : string) : regex :=
  ri (seq [lit "<"; lit tag; tag_rest; lit ">"; star (none_of "<"); lit "</"; lit tag;
           lit ">"]).
Definition any_tag : regex := rs (seq [lit "<"; tag_rest; lit ">"]).

(** [matches.map(h => h.replace(/<[^>]*>/g, '').trim()).filter(Boolean)]. *)
Definition heading_texts (tag html : string) : list string :=
  List.filter JS.truthy
    (map (fun h => Text.trim (remove_all any_tag h)) (match_all (heading_pattern tag) html)).

Definition extractHeadings (html : string) : Headings :=
  {| h1 := heading_texts "h1" html;
     h2 := heading_texts "h2" html;
     h3 := heading_texts "h3" html |}.

Definition faq_indicators : list string :=
  ["faq"; "frequently asked"; "common questions"; "questions and answers"; "q&a";
   "help center"].

Definition checkForFAQ (html : string) : bool :=
  Text.includes_any faq_indicators (JS.toLowerCase html).

(** [[-.\s]?] and [\d{n}]. *)
Definition separator : re := opt (Set_ false [One "-"; One "."; Space]).
Definition digits (n : nat) : re := exactly n digit.

(** [\+?1?[-.\s]?\(?\d{3}\)?[-.\s]?\d{3}[-.\s]?\d{4}]. *)
Definition phone_body : re :=
  seq [opt (lit "+"); opt (lit "1"); separator; opt (lit "("); digits 3; opt (lit ")");
       separator; digits 3; separator; digits 4].
Definition phone_pattern : regex := rs phone_body.

(** [\w]. *)
Definition word_items : list item :=
  [Range "a" "z"; Range "A" "Z"; Range "0" "9"; One "_"].

(** [/\d+\s+[\w\s]+(?:street|st|avenue|ave|road|rd|drive|dr|boulevard|blvd)/i]. *)
Definition street_pattern : regex :=
  ri (seq [plus digit; plus sp; plus (Set_ false (word_items ++ [Space]));
           alts [lit "street"; lit "st"; lit "avenue"; lit "ave"; lit "road"; lit "rd";
                 lit "drive"; lit "dr"; lit "boulevard"; lit "blvd"]]).

Definition extractLocalBusinessInfo (html : string) : LocalBusinessInfo :=
  {| phone := first_match phone_pattern html;
     hasAddress := JS.includes "address" (JS.toLowerCase html) || test street_pattern html;
     hasHours := JS.includes "hours" (JS.toLowerCase html)
                 || JS.includes "open" (JS.toLowerCase html)
                 || JS.includes "schedule" (JS.toLowerCase html) |}.

Definition review_indicators : list string :=
  ["testimonial"; "review"; "rating"; "stars"; "customer-feedback"; "what our clients say";
   "google-reviews"; "yelp"; "trust-pilot"].

(** The star glyph is outside the code units of the model; it is kept
    as the bytes of its text in the source, so that a page given as
    such bytes is tested as the program tests it. *)
Definition checkForReviews (html : string) : Reviews :=
  {| reviews_detected := Text.includes_any review_indicators (JS.toLowerCase html);
     hasStarRating := JS.includes "★" html
                      || JS.includes "star-rating" (JS.toLowerCase html) |}.

Definition header_phone_pattern : regex :=
  ri (seq [lit "<header"; tag_rest; lit ">"; lazy_star any; phone_body; lazy_star any;
           lit "</header>"]).
Definition tel_link_pattern : regex := ri (seq [lit "href="; quote; lit "tel:"]).
Definition contact_form_pattern : regex :=
  ri (seq [lit "<form"; lazy_star any; alts [lit "contact"; lit "inquiry"; lit "message"];
           lazy_star any; lit "</form>"]).
(** [[a-zA-Z0-9._%+-]+@[a-zA-Z0-9.-]+\.[a-zA-Z]{2,}]. *)
Definition email_pattern : regex :=
  ri (seq [plus (Set_ false ([Range "a" "z"; Range "A" "Z"; Range "0" "9"] ++ chars "._%+-"));
           lit "@";
           plus (Set_ false ([Range "a" "z"; Range "A" "Z"; Range "0" "9"] ++ chars ".-"));
           lit ".";
           exactly 2 (Set_ false [Range "a" "z"; Range "A" "Z"]);
           star (Set_ false [Range "a" "z"; Range "A" "Z"])]).

Definition extractContactInfo (html : string) : ContactInfo :=
  {| hasPhoneInHeader := test header_phone_pattern html;
     hasClickToCall := test tel_link_pattern html;
     hasContactForm := test contact_form_pattern html;
     hasEmail := test email_pattern html |}.

Definition definitive_pattern : regex :=
  ri (seq [lit "we "; alts [lit "are"; lit "specialize"; lit "provide"; lit "offer";
                            lit "help"]]).
Definition qa_pattern : regex :=
  ri (alts [seq [lit "<"; alts [lit "dt"; lit "dd"]];
            seq [lit "class="; quote; star not_quote; lit "faq"];
            seq [lit "question"; star Dot; lit "answer"]]).
Definition list_pattern : regex :=
  ri (seq [lit "<"; alts [lit "ul"; lit "ol"]; tag_rest; lit ">"; lazy_star any; lit "<li"]).
Definition services_pattern : regex :=
  ri (alts [lit "our services"; seq [lit "what we "; alts [lit "do"; lit "offer"]];
            lit "how we help"]).
Definition local_pattern : regex :=
  ri (alts [lit "serving"; lit "located in"; lit "based in"; lit "near"; lit "local"]).
Definition expertise_pattern : regex :=
  ri (alts [lit "years of experience"; lit "certified"; lit "licensed"; lit "award";
            lit "expert"; lit "specialist"]).
Definition process_pattern : regex :=
  ri (alts [lit "our process"; seq [lit "how "; alts [lit "it"; lit "we"]; lit " work"];
            seq [lit "step"; opt (any_of "s")]; lit "approach"]).
Definition comparison_pattern : regex :=
  ri (alts [lit "vs"; lit "versus"; lit "compared to"; lit "difference between";
            lit "why choose"]).
Definition statistics_pattern : regex :=
  ri (alts [seq [plus digit; lit "%"];
            seq [plus digit; lit " ";
                 alts [lit "years"; lit "clients"; lit "projects"; lit "customers"]]]).
Definition author_pattern : regex :=
  ri (alts [lit "written by"; lit "author"; lit "expert"; lit "founder"; lit "ceo";
            lit "owner"]).

Definition checkAEOIndicators (html : string) : AEOIndicators :=
  let htmlLower := JS.toLowerCase html in
  {| hasDefinitiveStatements := test definitive_pattern html;
     hasQAFormat := test qa_pattern html;
     hasStructuredLists := test list_pattern html;
     hasServiceDescriptions := test services_pattern htmlLower;
     hasLocalKeywords := test local_pattern htmlLower;
     hasExpertiseIndicators := test expertise_pattern htmlLower;
     hasProcessDescription := test process_pattern htmlLower;
     hasComparisonContent := test comparison_pattern htmlLower;
     hasStatistics := test statistics_pattern html;
     hasAuthorAttribution := test author_pattern htmlLower |}.

(** What [fetch(url)] followed by [response.text()] comes to: a
    response, of whatever status, with its body and its headers, or an
    exception with its message. *)
Inductive Fetched : Type :=
| Responded (status : Z) (body : string) (response_headers : gmap string string)
| Rejected (message : string).

Section Scrape.
Variable JSON_parse : string -> option Json.json.

Definition scrapeWebsiteData (url : string) (f : Fetched) : WebsiteData :=
  match f with
  | Responded _ html hs =>
      {| error := None;
         html := Some html;
         headers := Some hs;
         hasHttps := Some (JS.startsWith "https://" url);
         hasChatbot := Some (Extract.checkForChatbot html);
         hasVoiceAgent := Some (Extract.checkForVoiceAgent html);
         hasCalculator := Some (Extract.checkForCalculator html);
         schemaMarkup := Some (Extract.extractSchemaMarkup JSON_parse html);
         metaTags := Some (extractMetaTags html);
         headings := Some (extractHeadings html);
         hasFAQ := Some (checkForFAQ html);
         localBusinessInfo := Some (extractLocalBusinessInfo html);
         hasReviews := Some (checkForReviews html);
         contactInfo := Some (extractContactInfo html);
         aeoIndicators := Some (checkAEOIndicators html) |}
  | Rejected message => failed message
  end.
End Scrape.

End Extract2.

(** ** Performance metrics, the fallback insights and the request handler *)

Module Metrics.

Record PerformanceMetrics : Type := {
  firstContentfulPaint : string;
  largestContentfulPaint : string;
  totalBlockingTime : string;
  cumulativeLayoutShift : string;
  speedIndex : string;
  timeToInteractive : string
}.

(** [audits[name]?.displayValue || 'N/A']; an audit is given by its
    [displayValue], [None] when it has none. *)
Definition display (audits : gmap string (option string)) (name : string) : string :=
  match audits !! name with
  | Some (Some (String c s)) => String c s
  | _ => "N/A"
  end.

(** The argument is [pageSpeedData?.lighthouseResult?.audits]: [None]
    when the report is [null] or a link of the chain is missing. *)
Definition extractPerformanceMetrics (audits : option (gmap string (option string)))
  : PerformanceMetrics :=
  match audits with
  | None =>
      {| firstContentfulPaint := "N/A"; largestContentfulPaint := "N/A";
         totalBlockingTime := "N/A"; cumulativeLayoutShift := "N/A";
         speedIndex := "N/A"; timeToInteractive := "N/A" |}
  | Some a =>
      {| firstContentfulPaint := display a "first-contentful-paint";
         largestContentfulPaint := display a "largest-contentful-paint";
         totalBlockingTime := display a "total-blocking-time";
         cumulativeLayoutShift := display a "cumulative-layout-shift";
         speedIndex := display a "speed-index";
         timeToInteractive := display a "interactive" |}
  end.

End Metrics.

Module Insights.
Import Route.

Record Issue : Type := { issue_title : string; impact : string; issue_description : string }.
Record QuickWin : Type := {
  win_title : string;
  win_description : string;
  timeEstimate : string
}.

Record DefaultInsights : Type := {
  executiveSummary : string;
  topIssues : list Issue;
  quickWins : list QuickWin;
  industryInsight : string;
  llmRecommendation : string
}.

(** The properties of [data] that [getDefaultInsights] reads. *)
Record InsightData : Type := {
  companyName : string;
  industry : string;
  city : string;
  mobileScore : Z;
  aiReadiness : AIReadiness;
  aeoGeoAnalysis : AEOGEO
}.

(** [data.aiReadiness.features.chatbot?.detected]; [features] is [{}]
    on the error path. *)
Definition chatbot_detected (data : InsightData) : bool :=
  match features (aiReadiness data) with
  | Some f => detected (chatbot f)
  | None => false
  end.

(** The three tests of [getDefaultInsights]. *)
Definition slow_mobile (data : InsightData) : bool := mobileScore data <? 50.
Definition no_chatbot (data : InsightData) : bool := negb (chatbot_detected data).
Definition weak_ai_search (data : InsightData) : bool :=
  aeo_score (aeoGeoAnalysis data) <? 50.

(** The array [issues] before it is sliced. *)
Definition issues (data : InsightData) : list Issue :=
  (if slow_mobile data then
     [{| issue_title := "Mobile Speed Needs Improvement"; impact := "High";
         issue_description :=
           "53% of mobile visitors leave if a page takes more than 3 seconds to load." |}]
   else [])
  ++ (if no_chatbot data then
        [{| issue_title := "No 24/7 Lead Capture"; impact := "High";
            issue_description :=
              "When visitors arrive after hours, they have no way to get immediate answers." |}]
      else [])
  ++ (if weak_ai_search data then
        [{| issue_title := "Not Optimized for AI Search"; impact := "Medium";
            issue_description :=
              "When people ask ChatGPT for recommendations, your business may not appear." |}]
      else []).

(** The array [quickWins] before it is sliced. *)
Definition wins (data : InsightData) : list QuickWin :=
  (if slow_mobile data then
     [{| win_title := "Compress Images";
         win_description := "Use TinyPNG.com to compress images without losing quality.";
         timeEstimate := "15 minutes" |}]
   else [])
  ++ (if no_chatbot data then
        [{| win_title := "Add AI Chatbot";
            win_description :=
              "Install a chatbot like Tidio or Drift to qualify leads around the clock.";
            timeEstimate := "30 minutes" |}]
      else [])
  ++ (if weak_ai_search data then
        [{| win_title := "Add FAQ Schema";
            win_description :=
              "Create FAQ content with proper schema markup for LLM visibility.";
            timeEstimate := "45 minutes" |}]
      else []).

Definition likely_mention (data : InsightData) : string :=
  "ChatGPT would likely mention " +:+ companyName data +:+ " when asked about "
  +:+ industry data +:+ " services in " +:+ city data +:+ ".".

Definition may_struggle (data : InsightData) : string :=
  "ChatGPT may struggle to recommend " +:+ companyName data +:+ " for " +:+ JS.dq
  +:+ industry data +:+ " in " +:+ city data
  +:+ JS.dq +:+ " queries due to limited structured data and AI signals.".

Definition getDefaultInsights (data : InsightData) : DefaultInsights :=
  {| executiveSummary :=
       companyName data +:+ "'s website has a mobile speed score of "
       +:+ JS.show (mobileScore data) +:+ "/100 and an AI readiness score of "
       +:+ JS.show (ai_score (aiReadiness data))
       +:+ "/100. There are opportunities to improve lead capture and visibility to AI assistants.";
     topIssues := take 4 (issues data);
     quickWins := take 4 (wins data);
     industryInsight :=
       "In 2026, " +:+ industry data +:+ " businesses in " +:+ city data
       +:+ " are competing not just on Google rankings, but on AI recommendations. The businesses with AI chatbots, voice agents, and LLM-optimized content are capturing leads that others miss.";
     llmRecommendation :=
       if 60 <=? aeo_score (aeoGeoAnalysis data) then likely_mention data
       else may_struggle data |}.

(** What [generateAIInsights] returns: the value parsed from the reply
    of the text generator, or the fallback. *)
Inductive Generated : Type :=
| FromModel (v : Json.json)
| Fallback (d : DefaultInsights).

(** The part of a reply from its first opening brace to its last
    closing brace. *)
Definition braces : Regex.regex :=
  Regex.rs (Regex.seq [Regex.lit "{"; Regex.star Regex.any; Regex.lit "}"]).

Section Generate.
Variable JSON_parse : string -> option Json.json.

(** [api_key] is whether [process.env.GEMINI_API_KEY] is set;
    [reply] is the text of the generator for the prompt, [None]
    when the call throws.  An exception of [JSON.parse] is caught
    like one of the call. *)
Definition generateAIInsights (api_key : bool) (reply : option string)
    (data : InsightData) : Generated :=
  if negb api_key then Fallback (getDefaultInsights data)
  else
    match reply with
    | None => Fallback (getDefaultInsights data)
    | Some text =>
        match Capture.first_match braces text with
        | Some jsonMatch =>
            match JSON_parse jsonMatch with
            | Some v => FromModel v
            | None => Fallback (getDefaultInsights data)
            end
        | None => Fallback (getDefaultInsights data)
        end
    end.
End Generate.

End Insights.

(** The helper of [generateReportHTML] that turns a score into the style
    class of its card: the template of [route.js] calls it on each
    score of the summary but the AI-readiness one. *)
Module Report.

Definition getScoreClass (score : Z) : string :=
  if 70 <=? score then "good" else if 50 <=? score then "average" else "poor".

End Report.

Module Handler.
Import Route.

(** What [await request.json()] settles to: the value of the body,
    any JSON value, or an exception when the body is not JSON. *)
Inductive Body : Type :=
| Unparsable
| Parsed (v : Json.json).

(** The four properties that the handler takes out of the body; a
    field is [None] ([undefined]) when the body has no such property,
    as in a body that is a number, a text or an array. *)
Record Request : Type := {
  req_url : option Json.json;
  req_companyName : option Json.json;
  req_industry : option Json.json;
  req_city : option Json.json
}.

(** [const { url, companyName, industry, city } = ...]: [None] is the
    [TypeError] of destructuring [null]. *)
Definition fields (v : Json.json) : option Request :=
  match Json.get "url" v, Json.get "companyName" v, Json.get "industry" v,
        Json.get "city" v with
  | Some url, Some companyName, Some industry, Some city =>
      Some {| req_url := url; req_companyName := companyName;
              req_industry := industry; req_city := city |}
  | _, _, _, _ => None
  end.

(** [!x] on a field. *)
Definition falsy (x : option Json.json) : bool :=
  match x with
  | Some v => negb (Json.truthy v)
  | None => true
  end.

(** [!url || !companyName || !industry || !city]. *)
Definition missing_fields (r : Request) : bool :=
  falsy (req_url r) || falsy (req_companyName r) || falsy (req_industry r)
  || falsy (req_city r).

Definition normalizeUrl (url : string) : string :=
  if negb (JS.startsWith "http://" url) && negb (JS.startsWith "https://" url)
  then "https://" +:+ url else url.

(** [Math.round((report?.lighthouseResult?.categories?.performance?.score || 0) * 100)]. *)
Definition speed_score (report : option PageSpeed) : Z :=
  JS.round (JS.num_or_zero (performance_sub_score report) * 100).

Record ScoreSummary : Type := {
  mobile : Z;
  desktop : Z;
  aiReadiness : Z;
  seo : Z;
  aeoGeo : Z;
  security : Z;
  accessibility : Z
}.

Definition is_text (x : Json.json) : bool :=
  match x with
  | Json.JStr _ => true
  | _ => false
  end.

(** How far the handler gets: the 400 answer, the 500 answer of its
    [catch] for an exception before the [scores] object, or the
    [scores] object, after which it builds the report. *)
Inductive Progress : Type :=
| MissingFields
| Caught
| Scored (normalizedUrl : string) (websiteData : WebsiteData) (s : ScoreSummary).

Section Post.
Variable JSON_parse : string -> option Json.json.

(** [ToString] of the runtime on a value that is not a string, as a
    template literal applies it; [None] is its [TypeError], for an
    object that has no primitive value. *)
Variable ToString : Json.json -> option string.

(** A field inside a template literal. *)
Definition text (x : Json.json) : option string :=
  match x with
  | Json.JStr s => Some s
  | _ => ToString x
  end.

(** The handler from the three settled requests to the [scores]
    object; [None] is an exception, which the handler catches and
    answers with status 500.  Three calls can throw on the way:
    [analyzeAIReadiness]; [analyzeAEOGEO], which past its error
    return calls [industry.toLowerCase()] and writes [city] and
    [companyName] into its texts; and [generateAIInsights], which
    writes the three fields into its prompt or, without a key, and
    again after any exception, into the fallback insights.  So each
    of the three fields is turned into a text on every path, and
    [industry] has to be a string unless the data carry an error
    marker. *)
Definition scores (normalizedUrl : string) (industry city companyName : Json.json)
    (pageSpeedMobile pageSpeedDesktop : option PageSpeed) (websiteData : WebsiteData)
  : option ScoreSummary :=
  match analyzeAIReadiness websiteData with
  | None => None
  | Some ai =>
      if negb (has_error websiteData) && negb (is_text industry) then None
      else
        match text industry, text city, text companyName with
        | Some industry, Some city, Some companyName =>
            Some {| mobile := speed_score pageSpeedMobile;
                    desktop := speed_score pageSpeedDesktop;
                    aiReadiness := ai_score ai;
                    seo := seo_score (analyzeSEO websiteData pageSpeedMobile);
                    aeoGeo :=
                      aeo_score (analyzeAEOGEO websiteData industry city companyName);
                    security :=
                      sec_score (analyzeSecurityHeaders normalizedUrl websiteData);
                    accessibility :=
                      a11y_score (analyzeAccessibility websiteData pageSpeedMobile) |}
        | _, _, _ => None
        end
  end.

(** [pageSpeedMobile], [pageSpeedDesktop] and [page] are what the
    three requests for the normalized URL settle to.  A [url] that
    is not a string has no [startsWith] to call. *)
Definition POST (body : Body) (pageSpeedMobile pageSpeedDesktop : option PageSpeed)
    (page : Extract2.Fetched) : Progress :=
  match body with
  | Unparsable => Caught
  | Parsed v =>
      match fields v with
      | None => Caught
      | Some r =>
          if missing_fields r then MissingFields
          else
            match req_url r, req_companyName r, req_industry r, req_city r with
            | Some (Json.JStr url), Some companyName, Some industry, Some city =>
                let normalizedUrl := normalizeUrl url in
                let websiteData :=
                  Extract2.scrapeWebsiteData JSON_parse normalizedUrl page in
                match scores normalizedUrl industry city companyName pageSpeedMobile
                             pageSpeedDesktop websiteData with
                | Some s => Scored normalizedUrl websiteData s
                | None => Caught
                end
            | _, _, _, _ => Caught
            end
      end
  end.
End Post.

End Handler.

(** ** Points and issues of a step *)

(** The points of a step, with [c] points counted for each issue that
    it pushes. *)
Definition cost (c : Z) (s : Step) : Z := award s + c * Z.of_nat (length (new_issues s)).

(** How often a check is counted by [passedChecks] and [failedChecks]
    of the detailed SEO scorer together. *)
Definition counted (s : Step) : Z :=
  match entry s with
  | Some c => Z.b2z (Revised.is_good c) + Z.b2z (Revised.is_missing_or_partial c)
  | None => 0
  end.

(** A signal that text added before or after the page never takes
    away. *)
Definition kept (signal : string -> bool) : Prop :=
  forall before html after : string,
    signal html = true -> signal (before +:+ html +:+ after) = true.

(** ** Shapes of extracted values *)

Module Shape.

(** No white space at either end. *)
Definition trimmed (s : string) : bool :=
  match list_ascii_of_string s with
  | [] => true
  | c :: t => negb (Regex.is_space c) && negb (Regex.is_space (List.last t c))
  end.

(** None of the characters of [bad] occurs in [s]. *)
Definition free_of (bad s : string) : bool :=
  forallb (fun c => negb (existsb (Ascii.eqb c) (list_ascii_of_string bad)))
          (list_ascii_of_string s).

(** A value that may be [null]: trimmed and free of [bad] when it is
    not. *)
Definition clean (bad : string) (o : option string) : bool :=
  match o with
  | Some v => trimmed v && free_of bad v
  | None => true
  end.

(** The characters of a telephone number: digits, white space and the
    punctuation of the pattern. *)
Definition phone_unit (c : ascii) : bool :=
  Regex.is_digit c || Regex.is_space c
  || existsb (Ascii.eqb c) (list_ascii_of_string "+-.()").

Definition all_units : list ascii := map ascii_of_nat (seq 0 256).

(** The pattern matches the same texts with and without the [i] flag:
    each of its literals and sets does, on every character. *)
Fixpoint case_blind (r : Regex.re) : bool :=
  match r with
  | Regex.Eps | Regex.Dot => true
  | Regex.Lit c =>
      forallb (fun x => Bool.eqb (Regex.lit_match true c x) (Regex.lit_match false c x))
              all_units
  | Regex.Set_ _ items =>
      forallb (fun x => Bool.eqb (Regex.in_items true x items) (Regex.in_items false x items))
              all_units
  | Regex.Cat a b | Regex.Alt a b => case_blind a && case_blind b
  | Regex.Star _ a => case_blind a
  end.

Definition is_upper (c : ascii) : bool :=
  let n := nat_of_ascii c in ((65 <=? n) && (n <=? 90))%nat.

(** A test on every pair of characters. *)
Definition on_all_pairs (P : ascii -> ascii -> bool) : bool :=
  forallb (fun c => forallb (P c) all_units) all_units.

(** The opening tag of a structured-data block, and its closing
    tag. *)
Definition block_opening : Regex.re :=
  Regex.seq [Regex.lit "<script"; Regex.star (Regex.none_of ">"); Regex.lit "type=";
             Regex.quote; Regex.lit "application/ld+json"; Regex.quote;
             Regex.star (Regex.none_of ">"); Regex.lit ">"].
Definition block_closing : list ascii := list_ascii_of_string "</script>".

End Shape.

(** ** More sample inputs *)

Module Cases.

(** A body with the four fields, each a string. *)
Definition body (url : string) : Json.json :=
  Json.JObj [("url", Json.JStr url); ("companyName", Json.JStr "Acme Plumbing");
             ("industry", Json.JStr "Plumbing"); ("city", Json.JStr "Austin")].

Definition request (url : string) : Handler.Body := Handler.Parsed (body url).

(** The body for [acme.example] with another value for one field. *)
Definition request_with (key : string) (x : Json.json) : Handler.Body :=
  match body "acme.example" with
  | Json.JObj fields => Handler.Parsed (Json.JObj (Json.put key x fields))
  | v => Handler.Parsed v
  end.

(** The data of a page that answered, without headers. *)
Definition fetched (page : string) : WebsiteData :=
  Extract2.scrapeWebsiteData Json.parse "https://acme.example"
    (Extract2.Responded 200 page ∅).

Fixpoint copies (n : nat) (s : string) : string :=
  match n with
  | O => EmptyString
  | S m => s +:+ copies m s
  end.

(** A page with [described] images that have an alternative text and
    [bare] images whose alternative text is empty. *)
Definition gallery (described bare : nat) : string :=
  "<html><body>" +:+ copies described "<img src='van.png' alt='A van'>"
  +:+ copies bare "<IMG SRC='logo.png' alt=''>" +:+ "</body></html>".

(** A response with the structured-data page of the samples and one
    header. *)
Definition response : Extract2.Fetched :=
  Extract2.Responded 200 Sample.organization_page {[ "server" := "nginx" ]}.

(** A page with a telephone number in its header. *)
Definition header_page : string :=
  "<html><body><header class='top'>Call (512) 555-1234 today</header>"
  +:+ "<h1> Acme </h1><h2></h2></body></html>".

(** The audits of a report in which one metric has no display value
    and the others but two are missing. *)
Definition audits : gmap string (option string) :=
  {[ "first-contentful-paint" := Some "1.2 s"; "speed-index" := None;
     "interactive" := Some EmptyString; "total-blocking-time" := Some "40 ms" ]}.

(** The data handed to the insights for the structured-data page. *)
Definition insight_data (mobile : Z) : option Insights.InsightData :=
  match Route.analyzeAIReadiness Sample.organization_data with
  | Some ai =>
      Some {| Insights.companyName := "Acme Plumbing"; Insights.industry := "Plumbing";
              Insights.city := "Austin"; Insights.mobileScore := mobile;
              Insights.aiReadiness := ai;
              Insights.aeoGeoAnalysis :=
                Route.analyzeAEOGEO Sample.organization_data "Plumbing" "Austin"
                  "Acme Plumbing" |}
  | None => None
  end.

(** The data handed to the insights when the page could not be
    fetched. *)
Definition unreachable_data : Insights.InsightData :=
  {| Insights.companyName := "Acme Plumbing"; Insights.industry := "Plumbing";
     Insights.city := "Austin"; Insights.mobileScore := 0;
     Insights.aiReadiness :=
       {| Route.ai_score := 0; Route.features := None;
          Route.ai_issues := ["Could not analyze website"];
          Route.opportunities := None |};
     Insights.aeoGeoAnalysis :=
       Route.analyzeAEOGEO (failed "fetch failed") "Plumbing" "Austin" "Acme Plumbing" |}.

(** A reply of the text generator: a sentence, an object, a remark
    with a brace in it. *)
Definition reply (tail : string) : string :=
  "Here you go: {" +:+ JS.dq +:+ "executiveSummary" +:+ JS.dq +:+ ":" +:+ JS.dq +:+ "fine" +:+ JS.dq +:+ "}" +:+ tail.

End Cases.

(** * Properties *)

Import Route.

(** ** The bookkeeping of a scorer *)

Lemma total_fold (steps : list Step) (t : Tally) :
  total (fold_left commit steps t) = total t + fold_right (fun s acc => award s + acc) 0 steps.
Proof.
  revert t. induction steps as [|s steps IH]; intros t; simpl.
  - lia.
  - rewrite IH. simpl. lia.
Qed.

Lemma issues_fold (steps : list Step) (t : Tally) :
  issues (fold_left commit steps t) = issues t ++ concat (map new_issues steps).
Proof.
  revert t. induction steps as [|s steps IH]; intros t; simpl.
  - by rewrite app_nil_r.
  - rewrite IH. simpl. by rewrite <- app_assoc.
Qed.

Lemma detailed_fold (steps : list Step) (t : Tally) :
  detailedChecks (fold_left commit steps t) = detailedChecks t ++ omap entry steps.
Proof.
  revert t. induction steps as [|s steps IH]; intros t; simpl.
  - by rewrite app_nil_r.
  - rewrite IH. simpl. destruct (entry s); simpl.
    + by rewrite <- app_assoc.
    + done.
Qed.

(** While every step is balanced, the running score is the sum of the
    scores of the checks pushed so far. *)
Lemma score_is_sum_fold (steps : list Step) (t : Tally) :
  Forall balanced steps ->
  total t = sum_scores (detailedChecks t) ->
  total (fold_left commit steps t) = sum_scores (detailedChecks (fold_left commit steps t)).
Proof.
  intros Hb. revert t. induction Hb as [|s steps Hs _ IH]; intros t Ht; simpl.
  - exact Ht.
  - apply IH. unfold commit, balanced in *. simpl.
    destruct (entry s) as [c|].
    + rewrite Hs, Ht. unfold sum_scores. rewrite fold_right_app. simpl.
      generalize (detailedChecks t). intros l. induction l as [|x l IHl]; simpl; lia.
    + rewrite Hs, Ht. lia.
Qed.

Lemma score_is_sum (initial : list (string * mark)) (steps : list Step) :
  Forall balanced steps ->
  total (run_steps initial steps) = sum_scores (detailedChecks (run_steps initial steps)).
Proof. intros Hb. apply score_is_sum_fold; [exact Hb | reflexivity]. Qed.

(** The checks of a run are the entries of its steps. *)
Lemma detailed_run (initial : list (string * mark)) (steps : list Step) :
  detailedChecks (run_steps initial steps) = omap entry steps.
Proof. unfold run_steps. by rewrite detailed_fold. Qed.

Lemma total_run (initial : list (string * mark)) (steps : list Step) :
  total (run_steps initial steps) = fold_right (fun s acc => award s + acc) 0 steps.
Proof. unfold run_steps. by rewrite total_fold. Qed.

Lemma issues_run (initial : list (string * mark)) (steps : list Step) :
  issues (run_steps initial steps) = concat (map new_issues steps).
Proof. unfold run_steps. by rewrite issues_fold. Qed.

(** ** [Math.round] on a sub-score *)

Lemma round_scaled (q : Q) (k : Z) :
  (0 <= q <= 1)%Q -> 0 <= k -> 0 <= JS.round (q * inject_Z k) <= k.
Proof.
  intros [H0 H1] Hk. unfold JS.round. split.
  - change 0 with (Qfloor 0). apply Qfloor_resp_le.
    assert (0 <= q * inject_Z k)%Q.
    { apply Qmult_le_0_compat; [exact H0 |]. rewrite Zle_Qle in Hk. exact Hk. }
    assert (0 <= 1 # 2)%Q by done.
    replace 0%Q with (0 + 0)%Q by reflexivity. by apply Qplus_le_compat.
  - assert (Hle : (q * inject_Z k + (1 # 2) <= inject_Z k + (1 # 2))%Q).
    { apply Qplus_le_compat; [| apply Qle_refl].
      rewrite <- (Qmult_1_l (inject_Z k)) at 2.
      apply Qmult_le_compat_r; [exact H1 |]. rewrite Zle_Qle in Hk. exact Hk. }
    apply Qfloor_resp_le in Hle.
    assert (Hfl : Qfloor (inject_Z k + (1 # 2)) = k).
    { unfold Qfloor, inject_Z, Qplus. simpl.
      symmetry. apply Z.div_unique with (r := 1); lia. }
    lia.
Qed.

(** ** Every category score lies in [0,100] *)

(** Case analysis on every test a step makes, then arithmetic. *)
Ltac by_cases :=
  cbv zeta;
  repeat match goal with
         | |- context [award (if ?b then _ else _)] => destruct b
         | |- context [award (match ?x with _ => _ end)] => destruct x
         end;
  cbn [award checked points score]; repeat case_match; lia.

(** The sum of the awards of a fixed list of steps, written out. *)
Ltac sum_awards := cbv zeta; rewrite total_run; cbn [fold_right].

Section Ranges.
Variables (d : WebsiteData) (url industry city companyName : string).
Variable pageSpeedData : option PageSpeed.

Lemma chatbot_step_range f : 0 <= award (chatbot_step f) <= 30.
Proof. unfold chatbot_step. by_cases. Qed.
Lemma voice_step_range f : 0 <= award (voice_step f) <= 25.
Proof. unfold voice_step. by_cases. Qed.
Lemma calculator_step_range f : 0 <= award (calculator_step f) <= 25.
Proof. unfold calculator_step. by_cases. Qed.
Lemma ai_schema_step_range : 0 <= award (ai_schema_step d) <= 20.
Proof. unfold ai_schema_step. by_cases. Qed.

Lemma ai_readiness_range r :
  analyzeAIReadiness d = Some r -> 0 <= ai_score r <= 100.
Proof.
  unfold analyzeAIReadiness. destruct (has_error d).
  - intros [= <-]. simpl. lia.
  - destruct (hasChatbot d) as [c|], (hasVoiceAgent d) as [v|],
      (hasCalculator d) as [k|]; try discriminate.
    intros [= <-]. cbv zeta. cbn [ai_score].
    set (f := {| chatbot := c; voiceAgent := v; calculator := k |}).
    pose proof (chatbot_step_range f). pose proof (voice_step_range f).
    pose proof (calculator_step_range f). pose proof ai_schema_step_range.
    unfold clamp. lia.
Qed.


Lemma schemaCheck_range : 0 <= award (schemaCheck d industry city companyName) <= 20.
Proof. unfold schemaCheck. by_cases. Qed.
Lemma faqCheck_range : 0 <= award (faqCheck d industry city) <= 15.
Proof. unfold faqCheck. by_cases. Qed.
Lemma localCheck_range : 0 <= award (localCheck d city) <= 15.
Proof. unfold localCheck. by_cases. Qed.
Lemma answersCheck_range : 0 <= award (answersCheck d industry city companyName) <= 20.
Proof. unfold answersCheck. by_cases. Qed.
Lemma expertiseCheck_range : 0 <= award (expertiseCheck d city) <= 15.
Proof. unfold expertiseCheck. by_cases. Qed.
Lemma structureCheck_range : 0 <= award (structureCheck d) <= 15.
Proof. unfold structureCheck. by_cases. Qed.

Lemma aeo_total_range :
  0 <= total (run_steps aeo_initial (aeo_steps d industry city companyName)) <= 100.
Proof.
  unfold aeo_steps. sum_awards.
  pose proof schemaCheck_range. pose proof faqCheck_range. pose proof localCheck_range.
  pose proof answersCheck_range. pose proof expertiseCheck_range.
  pose proof structureCheck_range. lia.
Qed.

Lemma aeo_range : 0 <= aeo_score (analyzeAEOGEO d industry city companyName) <= 100.
Proof.
  unfold analyzeAEOGEO. destruct (has_error d); cbv zeta; cbn [aeo_score]; [lia |].
  pose proof aeo_total_range. unfold clamp. lia.
Qed.


Lemma title_step_range : 0 <= award (title_step d) <= 15.
Proof. unfold title_step. by_cases. Qed.
Lemma description_step_range : 0 <= award (description_step d) <= 15.
Proof. unfold description_step. by_cases. Qed.
Lemma h1_step_range : 0 <= award (h1_step d) <= 15.
Proof. unfold h1_step. by_cases. Qed.
Lemma seo_schema_step_range : 0 <= award (seo_schema_step d) <= 15.
Proof. unfold seo_schema_step. by_cases. Qed.
Lemma https_step_range : 0 <= award (https_step d) <= 10.
Proof. unfold https_step. by_cases. Qed.
Lemma canonical_step_range : 0 <= award (canonical_step d) <= 10.
Proof. unfold canonical_step. by_cases. Qed.
Lemma mobile_step_range : 0 <= award (mobile_step pageSpeedData) <= 10.
Proof. unfold mobile_step. by_cases. Qed.
Lemma open_graph_step_range : 0 <= award (open_graph_step d) <= 10.
Proof. unfold open_graph_step. by_cases. Qed.

Lemma seo_range : 0 <= seo_score (analyzeSEO d pageSpeedData) <= 100.
Proof.
  unfold analyzeSEO. destruct (has_error d); cbv zeta; cbn [seo_score]; [lia |].
  unfold seo_steps. sum_awards.
  pose proof title_step_range. pose proof description_step_range.
  pose proof h1_step_range. pose proof seo_schema_step_range.
  pose proof https_step_range. pose proof canonical_step_range.
  pose proof mobile_step_range. pose proof open_graph_step_range.
  unfold clamp. lia.
Qed.

Lemma sec_https_step_range : 0 <= award (sec_https_step url) <= 40.
Proof. unfold sec_https_step. by_cases. Qed.

Lemma header_steps_range :
  0 <= fold_right (fun s acc => award s + acc) 0 (header_steps d) <= 60.
Proof. unfold header_steps. destruct (headers d); cbn [fold_right]; by_cases. Qed.

Lemma security_range : 0 <= sec_score (analyzeSecurityHeaders url d) <= 100.
Proof.
  unfold analyzeSecurityHeaders. cbv zeta. cbn [sec_score]. sum_awards.
  pose proof sec_https_step_range. pose proof header_steps_range.
  unfold clamp. lia.
Qed.

Lemma lighthouse_step_range :
  unit_interval (accessibility_sub_score pageSpeedData) ->
  0 <= award (lighthouse_step pageSpeedData) <= 40.
Proof.
  unfold lighthouse_step, unit_interval.
  destruct (accessibility_sub_score pageSpeedData) as [| |q]; intros Hq.
  - simpl. lia.
  - cbn [award points JS.num_or_zero]. change (0 * 40)%Q with (0 * inject_Z 40)%Q.
    apply round_scaled; [split; done | lia].
  - cbn [award points JS.num_or_zero]. change (q * 40)%Q with (q * inject_Z 40)%Q.
    apply round_scaled; [exact Hq | lia].
Qed.

Lemma alt_text_step_range : 0 <= award (alt_text_step d) <= 15.
Proof. unfold alt_text_step. by_cases. Qed.
Lemma heading_step_range : 0 <= award (heading_step d) <= 10.
Proof. unfold heading_step. by_cases. Qed.
Lemma form_label_step_range : 0 <= award (form_label_step d) <= 10.
Proof. unfold form_label_step. by_cases. Qed.
Lemma skip_link_step_range : 0 <= award (skip_link_step d) <= 5.
Proof. unfold skip_link_step. by_cases. Qed.
Lemma landmark_step_range : 0 <= award (landmark_step d) <= 5.
Proof. unfold landmark_step. by_cases. Qed.
Lemma contrast_step_range : 0 <= award (contrast_step d) <= 5.
Proof. unfold contrast_step. by_cases. Qed.
Lemma focus_step_range : 0 <= award (focus_step d) <= 5.
Proof. unfold focus_step. by_cases. Qed.
Lemma lang_step_range : 0 <= award (lang_step d) <= 5.
Proof. unfold lang_step. by_cases. Qed.

(** The score of the accessibility scorer before the clamp. *)
Lemma accessibility_total :
  total (fold_left commit (html_steps d) (run_steps [] [lighthouse_step pageSpeedData]))
  = award (lighthouse_step pageSpeedData) + award (alt_text_step d)
    + award (heading_step d) + award (form_label_step d) + award (skip_link_step d)
    + award (landmark_step d) + award (contrast_step d) + award (focus_step d)
    + award (lang_step d).
Proof. rewrite total_fold, total_run. unfold html_steps. cbn [fold_right]. lia. Qed.

Lemma accessibility_range :
  unit_interval (accessibility_sub_score pageSpeedData) ->
  0 <= a11y_score (analyzeAccessibility d pageSpeedData) <= 100.
Proof.
  intros Hq. pose proof (lighthouse_step_range Hq).
  unfold analyzeAccessibility. cbv zeta. destruct (has_error d); cbn [a11y_score].
  - rewrite total_run. cbn [fold_right]. lia.
  - rewrite accessibility_total.
    pose proof alt_text_step_range. pose proof heading_step_range.
    pose proof form_label_step_range. pose proof skip_link_step_range.
    pose proof landmark_step_range. pose proof contrast_step_range.
    pose proof focus_step_range. pose proof lang_step_range.
    unfold clamp. lia.
Qed.




End Ranges.



(** ** The degenerate request *)

(** C2, as stated, fails on the code.  For the request of
    [https://acme.example] whose page fetch failed with the message
    [fetch failed] and whose performance reports are both [null], the
    claim asks for score 0 and at least one issue from every scorer.  The
    security scorer returns 70 (40 for the [https] URL and 30 of partial
    credit for the headers it could not check) with no issue, and the
    AEO/GEO and SEO scorers return an empty list of issues. *)
Lemma degenerate_request_counterexample :
  sec_score (analyzeSecurityHeaders "https://acme.example" (failed "fetch failed")) = 70 /\
  sec_issues (analyzeSecurityHeaders "https://acme.example" (failed "fetch failed")) = [] /\
  aeo_issues (analyzeAEOGEO (failed "fetch failed") "Plumbing" "Austin" "Acme") = [] /\
  seo_issues (analyzeSEO (failed "fetch failed") None) = [].
Proof. repeat split; reflexivity. Qed.

(** C2, amended.  For every website data object that carries an error
    marker, with the mobile performance report [null]: the AI-readiness,
    AEO/GEO and SEO scorers return score 0, and so does the accessibility
    scorer, which has no performance-derived points to add; the
    AI-readiness and accessibility results carry one explanatory issue
    each.  The security scorer does not read the error marker: when the
    data have no headers, as after a failed fetch, it returns the 30
    points of partial credit, plus 40 when the URL starts with
    [https://]. *)
Theorem degenerate_request
    (d : WebsiteData) (url industry city companyName : string) :
  has_error d = true ->
  analyzeAIReadiness d
  = Some {| ai_score := 0; features := None; ai_issues := ["Could not analyze website"];
            opportunities := None |} /\
  aeo_score (analyzeAEOGEO d industry city companyName) = 0 /\
  seo_score (analyzeSEO d None) = 0 /\
  a11y_score (analyzeAccessibility d None) = 0 /\
  a11y_issues (analyzeAccessibility d None) = ["Could not analyze website HTML"] /\
  (headers d = None ->
   sec_score (analyzeSecurityHeaders url d)
   = if JS.startsWith "https://" url then 70 else 30).
Proof.
  intros He.
  unfold analyzeAIReadiness, analyzeAEOGEO, analyzeSEO, analyzeAccessibility.
  rewrite He. cbv zeta. repeat split.
  intros Hh. unfold analyzeSecurityHeaders, header_steps, sec_https_step.
  rewrite Hh. by destruct (JS.startsWith "https://" url).
Qed.

Lemma degenerate_request_witness :
  has_error (failed "fetch failed") = true /\
  sec_score (analyzeSecurityHeaders "http://acme.example" (failed "fetch failed")) = 30.
Proof.
  split; [reflexivity |].
  apply (degenerate_request (failed "fetch failed") "http://acme.example"
           "Plumbing" "Austin" "Acme" eq_refl).
  reflexivity.
Defined.

(** The detailed security scorer of the later revision does not read
    the marker either: with no headers and no page it finds nothing to
    object to in the page and nothing disclosed by the server. *)
Lemma degenerate_request_revised (message : string) :
  Revised.sec_score (Revised.analyzeSecurityHeaders "https://acme.example" (failed message))
  = 40 /\
  Revised.sec_score (Revised.analyzeSecurityHeaders "http://acme.example" (failed message))
  = 5.
Proof. split; reflexivity. Qed.

(** ** Detailed checks *)

Lemma sound_checks (initial : list (string * mark)) (steps : list Step) :
  Forall sound steps ->
  Forall (fun c => 0 <= score c <= maxScore c) (detailedChecks (run_steps initial steps)) /\
  sum_scores (detailedChecks (run_steps initial steps)) = total (run_steps initial steps).
Proof.
  intros Hs. split.
  - rewrite detailed_run. induction Hs as [|s steps [_ Hw] _ IH]; simpl; [constructor |].
    unfold within_max in Hw. destruct (entry s); [by constructor | exact IH].
  - symmetry. apply score_is_sum. eapply Forall_impl; [exact Hs |]. by intros s [Hb _].
Qed.

Lemma sound_checked c iss recs ms :
  0 <= score c <= maxScore c -> sound (checked c iss recs ms).
Proof. intros H. split; [reflexivity | exact H]. Qed.

(** Case analysis on every test of a step of a detailed scorer. *)
Ltac sound_step :=
  cbv zeta;
  repeat match goal with
         | |- sound (checked _ _ _ _) => apply sound_checked; cbn [score maxScore]
         | |- sound (if ?b then _ else _) => destruct b
         | |- sound (match ?x with _ => _ end) => destruct x
         end;
  repeat case_match; lia.

Section DetailedChecks.
Variables (d : WebsiteData) (url industry city companyName : string).
Variable pageSpeedData : option PageSpeed.

Lemma aeo_steps_sound : Forall sound (aeo_steps d industry city companyName).
Proof.
  unfold aeo_steps.
  apply Forall_cons_2; [unfold schemaCheck; sound_step |].
  apply Forall_cons_2; [unfold faqCheck; sound_step |].
  apply Forall_cons_2; [unfold localCheck; sound_step |].
  apply Forall_cons_2; [unfold answersCheck; sound_step |].
  apply Forall_cons_2; [unfold expertiseCheck; sound_step |].
  apply Forall_cons_2; [unfold structureCheck; sound_step |].
  apply Forall_nil_2.
Qed.

Lemma revised_seo_steps_sound : Forall sound (Revised.seo_steps d pageSpeedData).
Proof.
  unfold Revised.seo_steps.
  apply Forall_cons_2; [unfold Revised.titleCheck; sound_step |].
  apply Forall_cons_2; [unfold Revised.descCheck; sound_step |].
  apply Forall_cons_2; [unfold Revised.h1Check; sound_step |].
  apply Forall_cons_2; [unfold Revised.schemaCheck; sound_step |].
  apply Forall_cons_2; [unfold Revised.canonicalCheck; sound_step |].
  apply Forall_cons_2; [unfold Revised.ogCheck; sound_step |].
  apply Forall_cons_2; [unfold Revised.robotsCheck; sound_step |].
  apply Forall_cons_2; [unfold Revised.mobileCheck; sound_step |].
  apply Forall_cons_2; [unfold Revised.httpsCheck; sound_step |].
  apply Forall_cons_2; [unfold Revised.cwvCheck; sound_step |].
  apply Forall_nil_2.
Qed.

Lemma revised_sec_steps_sound : Forall sound (Revised.sec_steps url d).
Proof.
  unfold Revised.sec_steps.
  apply Forall_cons_2; [unfold Revised.sec_httpsCheck; sound_step |].
  apply Forall_cons_2; [unfold Revised.hstsCheck; sound_step |].
  apply Forall_cons_2; [unfold Revised.cspCheck; sound_step |].
  apply Forall_cons_2; [unfold Revised.frameCheck; sound_step |].
  apply Forall_cons_2; [unfold Revised.mimeCheck; sound_step |].
  apply Forall_cons_2; [unfold Revised.referrerCheck; sound_step |].
  apply Forall_cons_2; [unfold Revised.permissionsCheck; sound_step |].
  apply Forall_cons_2; [unfold Revised.mixedContentCheck; sound_step |].
  apply Forall_cons_2; [unfold Revised.serverInfoCheck; sound_step |].
  apply Forall_nil_2.
Qed.
End DetailedChecks.

(** C3. For every input, every detailed check that a scorer produces
    has a score between 0 and its [maxScore], and the scores of the
    detailed checks of a category, summed and clamped to 100, are the
    reported score of the category: for the AEO/GEO scorer, for the
    detailed security scorer and for the detailed SEO scorer. *)
Theorem detailed_checks_add_up
    (d : WebsiteData) (url industry city companyName : string)
    (pageSpeedData : option PageSpeed) :
  (Forall (fun c => 0 <= score c <= maxScore c)
          (aeo_detailedChecks (analyzeAEOGEO d industry city companyName)) /\
   clamp (sum_scores (aeo_detailedChecks (analyzeAEOGEO d industry city companyName)))
   = aeo_score (analyzeAEOGEO d industry city companyName)) /\
  (Forall (fun c => 0 <= score c <= maxScore c)
          (Revised.sec_detailedChecks (Revised.analyzeSecurityHeaders url d)) /\
   clamp (sum_scores (Revised.sec_detailedChecks (Revised.analyzeSecurityHeaders url d)))
   = Revised.sec_score (Revised.analyzeSecurityHeaders url d)) /\
  (Forall (fun c => 0 <= score c <= maxScore c)
          (Revised.seo_detailedChecks (Revised.analyzeSEO d pageSpeedData)) /\
   clamp (sum_scores (Revised.seo_detailedChecks (Revised.analyzeSEO d pageSpeedData)))
   = Revised.seo_score (Revised.analyzeSEO d pageSpeedData)).
Proof.
  split; [| split].
  - unfold analyzeAEOGEO. destruct (has_error d); cbv zeta;
      cbn [aeo_detailedChecks aeo_score].
    + split; [constructor | reflexivity].
    + destruct (sound_checks aeo_initial _ (aeo_steps_sound d industry city companyName))
        as [Hall Hsum].
      split; [exact Hall | by rewrite Hsum].
  - unfold Revised.analyzeSecurityHeaders. cbv zeta.
    cbn [Revised.sec_detailedChecks Revised.sec_score].
    destruct (sound_checks [] _ (revised_sec_steps_sound d url)) as [Hall Hsum].
    split; [exact Hall | by rewrite Hsum].
  - unfold Revised.analyzeSEO. destruct (has_error d); cbv zeta;
      cbn [Revised.seo_detailedChecks Revised.seo_score].
    + split; [constructor | reflexivity].
    + destruct (sound_checks [] _ (revised_seo_steps_sound d pageSpeedData))
        as [Hall Hsum].
      split; [exact Hall | by rewrite Hsum].
Qed.

(** ** The SEO scorer at full score *)

Lemma length_truthy (n : nat) (t : string) :
  String.length t = S n -> exists c s, t = String c s.
Proof. destruct t as [|c s]; [discriminate |]. intros _. by exists c, s. Qed.

(** C4. For every website data object without error marker whose title
    has length 45, whose meta description has length 140, with exactly
    one H1 heading, schema markup found, HTTPS, a canonical URL, both
    Open Graph title and description, and a mobile performance
    sub-score of 0.6, [analyzeSEO] of [route.js] returns score 100. *)
Theorem seo_full_score
    (d : WebsiteData) (pageSpeedData : option PageSpeed)
    (m : MetaTags) (t ds : string) (h : Headings) :
  has_error d = false ->
  metaTags d = Some m ->
  title m = Some t -> String.length t = 45%nat ->
  description m = Some ds -> String.length ds = 140%nat ->
  headings d = Some h -> length (h1 h) = 1%nat ->
  flag (schemaMarkup d) found = true ->
  hasHttps d = Some true ->
  JS.truthy_opt (canonical m) = true ->
  performance_sub_score pageSpeedData = JS.Num (6 # 10) ->
  JS.truthy_opt (ogTitle m) = true ->
  JS.truthy_opt (ogDescription m) = true ->
  seo_score (analyzeSEO d pageSpeedData) = 100.
Proof.
  intros He Hm Ht Htl Hd Hdl Hh Hh1 Hs Hhttps Hc Hp Hog1 Hog2.
  assert (A1 : award (title_step d) = 15).
  { unfold title_step, meta, length_within. rewrite Hm, Ht.
    destruct (length_truthy _ _ Htl) as (c & s & ->). by rewrite Htl. }
  assert (A2 : award (description_step d) = 15).
  { unfold description_step, meta, length_within. rewrite Hm, Hd.
    destruct (length_truthy _ _ Hdl) as (c & s & ->). by rewrite Hdl. }
  assert (A3 : award (h1_step d) = 15).
  { unfold h1_step, h1_length. by rewrite Hh, Hh1. }
  assert (A4 : award (seo_schema_step d) = 15).
  { unfold seo_schema_step. by rewrite Hs. }
  assert (A5 : award (https_step d) = 10).
  { unfold https_step. by rewrite Hhttps. }
  assert (A6 : award (canonical_step d) = 10).
  { unfold canonical_step, has_meta, meta. by rewrite Hm, Hc. }
  assert (A7 : award (mobile_step pageSpeedData) = 10).
  { unfold mobile_step, mobileScore. by rewrite Hp. }
  assert (A8 : award (open_graph_step d) = 10).
  { unfold open_graph_step, has_meta, meta. by rewrite Hm, Hog1, Hog2. }
  unfold analyzeSEO. rewrite He. cbv zeta. cbn [seo_score].
  rewrite total_run. unfold seo_steps. cbn [fold_right].
  rewrite A1, A2, A3, A4, A5, A6, A7, A8. reflexivity.
Qed.

Lemma seo_full_score_witness :
  seo_score (analyzeSEO Sample.organization_data (Sample.report (6 # 10) (87 # 100))) = 100.
Proof.
  apply (seo_full_score Sample.organization_data (Sample.report (6 # 10) (87 # 100))
           Sample.tags Sample.title45 Sample.description140
           {| h1 := ["Acme plumbing"]; h2 := []; h3 := [] |});
    vm_compute; reflexivity.
Defined.

(** ** Structured data *)

Section SchemaProperties.
Variable JSON_parse : string -> option Json.json.

Lemma collect_fold (blocks : list string) (acc : list Schema) :
  fold_left (fun schemas block =>
               match Extract.try_block JSON_parse block with
               | Some s => schemas ++ [s]
               | None => schemas
               end) blocks acc
  = acc ++ omap (Extract.try_block JSON_parse) blocks.
Proof.
  revert acc. induction blocks as [|b blocks IH]; intros acc; simpl.
  - by rewrite app_nil_r.
  - rewrite IH. destruct (Extract.try_block JSON_parse b); simpl.
    + by rewrite <- app_assoc.
    + done.
Qed.

(** The schemas are the blocks whose [try] body ran to its end, in
    page order. *)
Lemma collect_spec (blocks : list string) :
  Extract.collect JSON_parse blocks = omap (Extract.try_block JSON_parse) blocks.
Proof. unfold Extract.collect. by rewrite collect_fold. Qed.

Lemma is_string_spec (text : string) (v : Json.json) :
  Json.is_string text v = true <-> v = Json.JStr text.
Proof.
  destruct v; simpl; try (split; [discriminate | congruence]).
  rewrite String.eqb_eq. split; [by intros -> | congruence].
Qed.

Lemma some_is_type (names : list string) (l : list Schema) :
  existsb (Extract.is_type names) l = true <->
  exists s n, s ∈ l /\ n ∈ names /\ schemaType s = Json.JStr n.
Proof.
  rewrite existsb_exists. split.
  - intros (s & Hs & Ht). unfold Extract.is_type in Ht.
    apply existsb_exists in Ht as (n & Hn & Hv).
    exists s, n. rewrite !list_elem_of_In. by rewrite <- is_string_spec.
  - intros (s & n & Hs & Hn & Hv). exists s. rewrite <- list_elem_of_In.
    split; [exact Hs |]. unfold Extract.is_type. apply existsb_exists.
    exists n. rewrite <- list_elem_of_In, is_string_spec. done.
Qed.

(** A block that parses to a value with a truthy [@type]. *)
Lemma try_block_valid (block : string) (parsed ty : Json.json) :
  JSON_parse (Regex.remove_all Extract.script_tag block) = Some parsed ->
  Json.get "@type" parsed = Some (Some ty) ->
  Json.truthy ty = true ->
  Extract.try_block JSON_parse block
  = Some {| type := "JSON-LD"; schemaType := ty; data := parsed |}.
Proof. intros Hp Hg Ht. unfold Extract.try_block. by rewrite Hp, Hg, Ht. Qed.

Lemma try_block_invalid (block : string) :
  JSON_parse (Regex.remove_all Extract.script_tag block) = None ->
  Extract.try_block JSON_parse block = None.
Proof. intros Hp. unfold Extract.try_block. by rewrite Hp. Qed.
End SchemaProperties.

(** C5. [extractSchemaMarkup] is a total function: every exception of
    [JSON.parse] is caught inside the loop.  For every page whose
    structured-data blocks are one block that [JSON.parse] rejects and
    one block that parses and declares a type, in either order, the
    rejected block is skipped and the other one is the one entry of
    [schemas], with its declared type, and [count] is 1. *)
Theorem invalid_block_is_skipped
    (JSON_parse : string -> option Json.json) (html bad ok : string)
    (parsed ty : Json.json) :
  Extract.jsonLdMatches html = [bad; ok] \/ Extract.jsonLdMatches html = [ok; bad] ->
  JSON_parse (Regex.remove_all Extract.script_tag bad) = None ->
  JSON_parse (Regex.remove_all Extract.script_tag ok) = Some parsed ->
  Json.get "@type" parsed = Some (Some ty) ->
  Json.truthy ty = true ->
  schemas (Extract.extractSchemaMarkup JSON_parse html)
  = [{| type := "JSON-LD"; schemaType := ty; data := parsed |}] /\
  count (Extract.extractSchemaMarkup JSON_parse html) = 1 /\
  found (Extract.extractSchemaMarkup JSON_parse html) = true.
Proof.
  intros Hblocks Hbad Hok Hty Htruthy.
  pose proof (try_block_invalid JSON_parse bad Hbad) as Eb.
  pose proof (try_block_valid JSON_parse ok parsed ty Hok Hty Htruthy) as Eo.
  unfold Extract.extractSchemaMarkup. cbv zeta. cbn [schemas count found].
  rewrite collect_spec.
  destruct Hblocks as [-> | ->]; simpl; rewrite Eb, Eo; simpl; done.
Qed.

Lemma invalid_block_is_skipped_witness :
  schemas (Extract.extractSchemaMarkup Json.parse Sample.mixed_page)
  = [{| type := "JSON-LD"; schemaType := Json.JStr "FAQPage";
        data := Json.JObj [("@type", Json.JStr "FAQPage")] |}] /\
  count (Extract.extractSchemaMarkup Json.parse Sample.mixed_page) = 1 /\
  found (Extract.extractSchemaMarkup Json.parse Sample.mixed_page) = true.
Proof.
  apply (invalid_block_is_skipped Json.parse Sample.mixed_page Sample.broken_block
           (Sample.block "FAQPage"));
    vm_compute; auto.
Defined.

(** The first detailed check of the AEO/GEO scorer is the schema check,
    the second the FAQ check, the sixth the structured-content check. *)
Lemma aeo_detailed_checks (d : WebsiteData) (industry city companyName : string) :
  has_error d = false ->
  aeo_detailedChecks (analyzeAEOGEO d industry city companyName)
  = omap entry (aeo_steps d industry city companyName).
Proof.
  intros He. unfold analyzeAEOGEO. rewrite He. cbv zeta. cbn [aeo_detailedChecks].
  apply detailed_run.
Qed.

(** The score of the AI-readiness scorer, by its four sections. *)
Lemma ai_readiness_score (d : WebsiteData) (r : AIReadiness) :
  has_error d = false ->
  analyzeAIReadiness d = Some r ->
  exists f,
    features r = Some f /\
    ai_score r = clamp (award (chatbot_step f) + award (voice_step f)
                        + award (calculator_step f) + award (ai_schema_step d)).
Proof.
  intros He. unfold analyzeAIReadiness. rewrite He.
  destruct (hasChatbot d) as [c|], (hasVoiceAgent d) as [v|], (hasCalculator d) as [k|];
    try discriminate.
  intros [= <-]. eexists. split; [reflexivity |].
  cbv zeta. cbn [ai_score]. rewrite ?total_run. cbn [fold_right]. unfold clamp. lia.
Qed.

(** C9. The schemas of [extractSchemaMarkup] are the blocks that were
    parsed, and [hasLocalBusiness] holds exactly when one of them has
    the type [LocalBusiness], [Organization] or [ProfessionalService]
    ([hasReviewSchema]: [Review] or [AggregateRating];
    [hasServiceSchema]: [Service] or [Product]).  So for a page whose
    one schema has the type [Organization], the schema section of the
    AI-readiness scorer awards 10 + 5 points, and the schema check of
    the AEO/GEO scorer scores 10 + 5. *)
Theorem organization_is_local_business
    (JSON_parse : string -> option Json.json) (html : string) :
  schemas (Extract.extractSchemaMarkup JSON_parse html)
  = omap (Extract.try_block JSON_parse) (Extract.jsonLdMatches html) /\
  (hasLocalBusiness (Extract.extractSchemaMarkup JSON_parse html) = true <->
   exists s, s ∈ schemas (Extract.extractSchemaMarkup JSON_parse html) /\
             (schemaType s = Json.JStr "LocalBusiness" \/
              schemaType s = Json.JStr "Organization" \/
              schemaType s = Json.JStr "ProfessionalService")) /\
  (hasReviewSchema (Extract.extractSchemaMarkup JSON_parse html) = true <->
   exists s, s ∈ schemas (Extract.extractSchemaMarkup JSON_parse html) /\
             (schemaType s = Json.JStr "Review" \/
              schemaType s = Json.JStr "AggregateRating")) /\
  (hasServiceSchema (Extract.extractSchemaMarkup JSON_parse html) = true <->
   exists s, s ∈ schemas (Extract.extractSchemaMarkup JSON_parse html) /\
             (schemaType s = Json.JStr "Service" \/ schemaType s = Json.JStr "Product")) /\
  (forall (d : WebsiteData) (industry city companyName : string) (s : Schema),
     has_error d = false ->
     schemaMarkup d = Some (Extract.extractSchemaMarkup JSON_parse html) ->
     schemas (Extract.extractSchemaMarkup JSON_parse html) = [s] ->
     schemaType s = Json.JStr "Organization" ->
     award (ai_schema_step d) = 10 + 5 /\
     (forall r, analyzeAIReadiness d = Some r ->
                exists f, features r = Some f /\
                          ai_score r = clamp (award (chatbot_step f) + award (voice_step f)
                                              + award (calculator_step f) + (10 + 5))) /\
     exists c rest,
       aeo_detailedChecks (analyzeAEOGEO d industry city companyName) = c :: rest /\
       name c = "Schema Markup (Structured Data)" /\
       score c = 10 + 5).
Proof.
  split; [| split; [| split; [| split]]].
  - unfold Extract.extractSchemaMarkup. cbv zeta. cbn [schemas]. apply collect_spec.
  - unfold Extract.extractSchemaMarkup. cbv zeta. cbn [schemas hasLocalBusiness].
    rewrite some_is_type. split.
    + intros (s & n & Hs & Hn & Hv). exists s. split; [exact Hs |].
      set_unfold in Hn. destruct Hn as [-> | [-> | [-> | []]]]; auto.
    + intros (s & Hs & Hv). exists s.
      destruct Hv as [Hv | [Hv | Hv]]; eexists; (split; [exact Hs |]);
        (split; [| exact Hv]); set_solver.
  - unfold Extract.extractSchemaMarkup. cbv zeta. cbn [schemas hasReviewSchema].
    rewrite some_is_type. split.
    + intros (s & n & Hs & Hn & Hv). exists s. split; [exact Hs |].
      set_unfold in Hn. destruct Hn as [-> | [-> | []]]; auto.
    + intros (s & Hs & Hv). exists s.
      destruct Hv as [Hv | Hv]; eexists; (split; [exact Hs |]);
        (split; [| exact Hv]); set_solver.
  - unfold Extract.extractSchemaMarkup. cbv zeta. cbn [schemas hasServiceSchema].
    rewrite some_is_type. split.
    + intros (s & n & Hs & Hn & Hv). exists s. split; [exact Hs |].
      set_unfold in Hn. destruct Hn as [-> | [-> | []]]; auto.
    + intros (s & Hs & Hv). exists s.
      destruct Hv as [Hv | Hv]; eexists; (split; [exact Hs |]);
        (split; [| exact Hv]); set_solver.
  - intros d industry city companyName s He Hsm Hone Hty.
    set (sm := Extract.extractSchemaMarkup JSON_parse html) in *.
    assert (Hfound : found sm = true).
    { unfold sm, Extract.extractSchemaMarkup in *. cbv zeta in *.
      cbn [found schemas] in *. by rewrite Hone. }
    assert (Hlb : hasLocalBusiness sm = true).
    { unfold sm, Extract.extractSchemaMarkup in *. cbv zeta in *.
      cbn [hasLocalBusiness schemas] in *. rewrite Hone.
      unfold Extract.is_type. simpl. by rewrite Hty. }
    assert (Hfaq : hasFAQSchema sm = false).
    { unfold sm, Extract.extractSchemaMarkup in *. cbv zeta in *.
      cbn [hasFAQSchema schemas] in *. rewrite Hone.
      unfold Extract.is_type. simpl. by rewrite Hty. }
    assert (Hai : award (ai_schema_step d) = 10 + 5).
    { unfold ai_schema_step. by rewrite Hsm, Hfound, Hlb, Hfaq. }
    split; [exact Hai | split].
    + intros r Hr. destruct (ai_readiness_score d r He Hr) as (f & Hf & Hscore).
      exists f. split; [exact Hf |]. by rewrite Hscore, Hai.
    + rewrite (aeo_detailed_checks d industry city companyName He).
      unfold aeo_steps. cbn [omap list_omap].
      unfold schemaCheck at 1. rewrite Hsm, Hfound. cbv zeta. rewrite Hlb, Hfaq.
      cbn [entry checked mbind option_bind]. eexists _, _. split; [reflexivity |].
      split; reflexivity.
Qed.

Lemma organization_is_local_business_witness :
  award (ai_schema_step Sample.organization_data) = 10 + 5 /\
  exists c rest,
    aeo_detailedChecks (analyzeAEOGEO Sample.organization_data "Plumbing" "Austin" "Acme")
    = c :: rest /\
    name c = "Schema Markup (Structured Data)" /\ score c = 10 + 5.
Proof.
  destruct (organization_is_local_business Json.parse Sample.organization_page)
    as (_ & _ & _ & _ & H).
  destruct (H Sample.organization_data "Plumbing" "Austin" "Acme"
              {| type := "JSON-LD"; schemaType := Json.JStr "Organization";
                 data := Json.JObj [("@type", Json.JStr "Organization")] |}
              eq_refl eq_refl) as (Hai & _ & Haeo).
  - vm_compute. reflexivity.
  - reflexivity.
  - split; [exact Hai | exact Haeo].
Defined.

(** ** The FAQ check and the structured-content check of the AEO/GEO scorer *)

(** Every section of the AEO/GEO scorer pushes a check. *)
Ltac entry_is_some :=
  cbv zeta;
  repeat match goal with
         | |- is_Some (entry (if ?b then _ else _)) => destruct b
         | |- is_Some (entry (match ?x with _ => _ end)) => destruct x
         end;
  by eexists.

Lemma aeo_entries (d : WebsiteData) (industry city companyName : string) :
  has_error d = false ->
  exists c1 c2 c3 c4 c5 c6,
    entry (schemaCheck d industry city companyName) = Some c1 /\
    entry (faqCheck d industry city) = Some c2 /\
    entry (localCheck d city) = Some c3 /\
    entry (answersCheck d industry city companyName) = Some c4 /\
    entry (expertiseCheck d city) = Some c5 /\
    entry (structureCheck d) = Some c6 /\
    aeo_detailedChecks (analyzeAEOGEO d industry city companyName)
    = [c1; c2; c3; c4; c5; c6].
Proof.
  intros He.
  assert (is_Some (entry (schemaCheck d industry city companyName))) as [c1 E1]
    by (unfold schemaCheck; entry_is_some).
  assert (is_Some (entry (faqCheck d industry city))) as [c2 E2]
    by (unfold faqCheck; entry_is_some).
  assert (is_Some (entry (localCheck d city))) as [c3 E3]
    by (unfold localCheck; entry_is_some).
  assert (is_Some (entry (answersCheck d industry city companyName))) as [c4 E4]
    by (unfold answersCheck; entry_is_some).
  assert (is_Some (entry (expertiseCheck d city))) as [c5 E5]
    by (unfold expertiseCheck; entry_is_some).
  assert (is_Some (entry (structureCheck d))) as [c6 E6]
    by (unfold structureCheck; entry_is_some).
  exists c1, c2, c3, c4, c5, c6. repeat (split; [assumption |]).
  rewrite (aeo_detailed_checks d industry city companyName He).
  unfold aeo_steps. cbn [omap list_omap]. by rewrite E1, E2, E3, E4, E5, E6.
Qed.

(** C10. In the AEO/GEO scorer the FAQ check is the second detailed
    check, out of 15 points.  With the FAQ schema flag set it scores 15
    with status [good], whether or not the page has FAQ text; with FAQ
    text and no FAQ schema it scores 10 with status [partial]; it scores
    0 exactly when both are absent. *)
Theorem faq_check_scores (d : WebsiteData) (industry city companyName : string) :
  has_error d = false ->
  exists c,
    aeo_detailedChecks (analyzeAEOGEO d industry city companyName) !! 1%nat = Some c /\
    name c = "FAQ Content" /\
    maxScore c = 15 /\
    (flag (schemaMarkup d) hasFAQSchema = true -> score c = 15 /\ status c = good) /\
    (is_true (hasFAQ d) = true -> flag (schemaMarkup d) hasFAQSchema = false ->
     score c = 10 /\ status c = partial) /\
    (score c = 0 <->
     is_true (hasFAQ d) = false /\ flag (schemaMarkup d) hasFAQSchema = false).
Proof.
  intros He.
  destruct (aeo_entries d industry city companyName He)
    as (c1 & c & c3 & c4 & c5 & c6 & _ & E & _ & _ & _ & _ & ->).
  exists c. split; [reflexivity |].
  unfold faqCheck, schema_flag in E.
  destruct (is_true (hasFAQ d)), (flag (schemaMarkup d) hasFAQSchema);
    cbn [orb entry checked] in E; injection E as <-; cbn [name maxScore score status];
    repeat split; try done; intros []; done.
Qed.

Lemma faq_check_scores_witness :
  exists c,
    aeo_detailedChecks (analyzeAEOGEO Sample.organization_data "Plumbing" "Austin" "Acme")
      !! 1%nat = Some c /\
    (score c = 0 <->
     is_true (hasFAQ Sample.organization_data) = false /\
     flag (schemaMarkup Sample.organization_data) hasFAQSchema = false).
Proof.
  destruct (faq_check_scores Sample.organization_data "Plumbing" "Austin" "Acme" eq_refl)
    as (c & Hc & _ & _ & _ & _ & Hzero).
  exists c. split; [exact Hc | exact Hzero].
Defined.

(** In the earliest revision the structured-content section has no
    check object; it awards 15 points for both signals and 8 for
    exactly one of the two. *)
Lemma earliest_structure_step (d : WebsiteData) :
  award (Earliest.structure_step d)
  = if aeo d hasStructuredLists && aeo d hasQAFormat then 15
    else if aeo d hasStructuredLists || aeo d hasQAFormat then 8 else 0.
Proof.
  unfold Earliest.structure_step.
  by destruct (aeo d hasStructuredLists), (aeo d hasQAFormat).
Qed.

(** C7, as stated, fails on the code.  For a page with Q&A format and
    no structured list, the structured-content check (the sixth
    detailed check, out of 15 points) scores 7; the claim says 8. *)
Lemma structured_content_counterexample :
  map (fun c => (name c, score c, maxScore c))
      (aeo_detailedChecks
         (analyzeAEOGEO (Sample.scraped Sample.organization_page false
                                        (Sample.indicators false true))
                        "Plumbing" "Austin" "Acme"))
  = [("Schema Markup (Structured Data)", 15, 20); ("FAQ Content", 0, 15);
     ("Local Business Signals", 5, 15); ("Clear, Extractable Content", 15, 20);
     ("Expertise & Trust Signals (E-E-A-T)", 0, 15);
     ("Structured Content Format", 7, 15)].
Proof. vm_compute. reflexivity. Qed.

(** C7, amended.  In the AEO/GEO scorer the structured-content check is
    the sixth detailed check, out of 15 points: 8 for structured lists
    plus 7 for Q&A format.  With both it scores 15, with lists only 8,
    with Q&A format only 7, with neither 0. *)
Theorem structured_content_scores
    (d : WebsiteData) (industry city companyName : string) :
  has_error d = false ->
  exists c,
    aeo_detailedChecks (analyzeAEOGEO d industry city companyName) !! 5%nat = Some c /\
    name c = "Structured Content Format" /\
    maxScore c = 15 /\
    score c = (if aeo d hasStructuredLists then 8 else 0)
              + (if aeo d hasQAFormat then 7 else 0) /\
    (aeo d hasStructuredLists = true -> aeo d hasQAFormat = true -> score c = 15) /\
    (aeo d hasStructuredLists = true -> aeo d hasQAFormat = false -> score c = 8) /\
    (aeo d hasStructuredLists = false -> aeo d hasQAFormat = true -> score c = 7) /\
    (aeo d hasStructuredLists = false -> aeo d hasQAFormat = false -> score c = 0).
Proof.
  intros He.
  destruct (aeo_entries d industry city companyName He)
    as (c1 & c2 & c3 & c4 & c5 & c & _ & _ & _ & _ & _ & E & ->).
  exists c. split; [reflexivity |].
  unfold structureCheck in E. cbv zeta in E. cbn [entry checked] in E.
  injection E as <-. cbn [name maxScore score].
  destruct (aeo d hasStructuredLists), (aeo d hasQAFormat); repeat split; done.
Qed.

Lemma structured_content_scores_witness :
  exists c,
    aeo_detailedChecks (analyzeAEOGEO Sample.organization_data "Plumbing" "Austin" "Acme")
      !! 5%nat = Some c /\
    score c = 15.
Proof.
  destruct (structured_content_scores Sample.organization_data "Plumbing" "Austin" "Acme"
              eq_refl) as (c & Hc & _ & _ & _ & Hboth & _).
  exists c. split; [exact Hc | exact (Hboth eq_refl eq_refl)].
Defined.

(** ** Confidence of the feature detectors *)

(** A detector finds something exactly when a pattern of its registry
    matches. *)
Lemma matched_nonempty (reg : Extract.registry) (html : string) :
  bool_decide (Extract.matched reg html <> [])
  = existsb (fun e => Regex.test (snd e) html) reg.
Proof.
  unfold Extract.matched. induction reg as [|e reg IH]; simpl.
  - done.
  - destruct (Regex.test (snd e) html); [done | exact IH].
Qed.

(** C6, as stated, fails on the code.  On a page that loads the script
    of a calculator vendor ([calconic.com], the first pattern of the
    calculator registry), the calculator detector reports the vendor
    label with confidence [medium]; the claim says [high]. *)
Lemma calculator_confidence_counterexample :
  Extract.checkForCalculator Sample.calconic_page
  = {| calc_detected := true; types := ["Third-party Calculator Tool"];
       calc_confidence := medium |}.
Proof. vm_compute. reflexivity. Qed.

(** C6, amended.  For every page, the chatbot detector and the
    voice-agent detector report confidence [high] when a pattern of
    their registry matches and [none] otherwise; the calculator detector
    reports [medium] when any of its patterns matches, a vendor or
    element fingerprint of its registry or one of its three structural
    patterns, and [none] otherwise, and so never [high]. *)
Theorem detector_confidence (html : string) :
  confidence (Extract.checkForChatbot html)
  = (if existsb (fun e => Regex.test (snd e) html) Extract.chatbot_registry
     then high else none) /\
  confidence (Extract.checkForVoiceAgent html)
  = (if existsb (fun e => Regex.test (snd e) html) Extract.voice_registry
     then high else none) /\
  calc_confidence (Extract.checkForCalculator html)
  = (if existsb (fun e => Regex.test (snd e) html) Extract.calc_registry
        || Regex.test Extract.calc_form html || Regex.test Extract.calc_widget html
        || Regex.test Extract.calc_script html
     then medium else none).
Proof.
  split; [| split].
  - unfold Extract.checkForChatbot. cbv zeta. cbn [confidence].
    by rewrite matched_nonempty.
  - unfold Extract.checkForVoiceAgent. cbv zeta. cbn [confidence].
    by rewrite matched_nonempty.
  - unfold Extract.checkForCalculator. cbv zeta. cbn [calc_confidence].
    pose proof (matched_nonempty Extract.calc_registry html) as Hm.
    destruct (existsb _ Extract.calc_registry).
    + apply bool_decide_eq_true_1 in Hm.
      destruct (_ || _ || _); [| by rewrite bool_decide_eq_true_2].
      rewrite (bool_decide_eq_false_2 (_ = [])) by done.
      by rewrite bool_decide_eq_true_2.
    + apply bool_decide_eq_false_1 in Hm.
      assert (Hnil : Extract.matched Extract.calc_registry html = []).
      { destruct (Extract.matched _ _); [done | by destruct Hm]. }
      rewrite Hnil. cbn [orb].
      destruct (Regex.test Extract.calc_form html || Regex.test Extract.calc_widget html
                || Regex.test Extract.calc_script html); done.
Qed.

(** ** Alt text in the accessibility scorer *)

(** The score and the issues of the accessibility scorer, by section. *)
Lemma accessibility_sections (d : WebsiteData) (pageSpeedData : option PageSpeed) :
  has_error d = false ->
  a11y_score (analyzeAccessibility d pageSpeedData)
  = clamp (award (lighthouse_step pageSpeedData) + award (alt_text_step d)
           + award (heading_step d) + award (form_label_step d)
           + award (skip_link_step d) + award (landmark_step d)
           + award (contrast_step d) + award (focus_step d) + award (lang_step d)) /\
  a11y_issues (analyzeAccessibility d pageSpeedData)
  = new_issues (lighthouse_step pageSpeedData) ++ new_issues (alt_text_step d)
    ++ new_issues (heading_step d) ++ new_issues (form_label_step d)
    ++ new_issues (skip_link_step d) ++ new_issues (landmark_step d)
    ++ new_issues (contrast_step d) ++ new_issues (focus_step d)
    ++ new_issues (lang_step d).
Proof.
  intros He. unfold analyzeAccessibility. rewrite He. cbv zeta.
  cbn [a11y_score a11y_issues]. split.
  - by rewrite accessibility_total.
  - rewrite issues_fold, issues_run. unfold html_steps.
    cbn [map concat]. by rewrite !app_nil_r, <- ?app_assoc.
Qed.

(** The performance-lab section pushes no issue. *)
Lemma lighthouse_step_no_issue (pageSpeedData : option PageSpeed) :
  new_issues (lighthouse_step pageSpeedData) = [].
Proof. unfold lighthouse_step. by destruct (accessibility_sub_score pageSpeedData). Qed.

(** [Math.round] returns an integer nearest to its argument. *)
Lemma nearest_integer (q : Q) :
  (inject_Z (JS.round q) - (1 # 2) <= q)%Q /\ (q <= inject_Z (JS.round q) + (1 # 2))%Q.
Proof.
  unfold JS.round.
  pose proof (Qfloor_le (q + (1 # 2))) as Hlo.
  pose proof (Qlt_floor (q + (1 # 2))) as Hhi.
  set (z := Qfloor (q + (1 # 2))) in *. clearbody z.
  destruct q as [a b].
  repeat (unfold Qle, Qlt, Qplus, Qminus, Qopp, inject_Z in *; cbn [Qnum Qden] in * ).
  rewrite ?Pos2Z.inj_mul in *. split; lia.
Qed.

(** C8. For every website data object without error marker, let the
    images of the page be the parts of its HTML that match the pattern
    for an [<img>] tag, in any letter case, and let the described images
    be those in which the pattern for a non-empty [alt] attribute
    matches; the ratio is the number of described images over the
    number of images.  The accessibility scorer returns the clamped sum
    of the alt-text points and the points of its other sections, and
    the alt-text issue, if any, before the issues of the later sections.
    With no image the ratio counts as 1, the alt-text points are 15 and
    there is no alt-text issue.  With images the alt-text points are 15,
    without issue, when the ratio is at least 0.9; 8, with an issue that
    gives the rounded percentage of images without description, when
    the ratio is at least 0.5 and below 0.9; and 0, with an issue, when
    it is below 0.5. *)
Theorem alt_text_tiers (d : WebsiteData) (pageSpeedData : option PageSpeed) :
  has_error d = false ->
  let images :=
    Regex.match_all
      (Regex.ri (Regex.seq [Regex.lit "<img"; Regex.star (Regex.none_of ">"); Regex.lit ">"]))
      (JS.or_else (html d) EmptyString) in
  let described :=
    List.filter
      (Regex.test
         (Regex.ri (Regex.seq [Regex.lit "alt"; Regex.star Regex.sp; Regex.lit "=";
                               Regex.star Regex.sp; Regex.quote; Regex.plus Regex.not_quote;
                               Regex.quote])))
      images in
  let ratio := (Z.of_nat (length described) # Pos.of_nat (length images))%Q in
  let other_points :=
    award (lighthouse_step pageSpeedData) + award (heading_step d)
    + award (form_label_step d) + award (skip_link_step d) + award (landmark_step d)
    + award (contrast_step d) + award (focus_step d) + award (lang_step d) in
  let later_issues :=
    new_issues (heading_step d) ++ new_issues (form_label_step d)
    ++ new_issues (skip_link_step d) ++ new_issues (landmark_step d)
    ++ new_issues (contrast_step d) ++ new_issues (focus_step d)
    ++ new_issues (lang_step d) in
  let result := analyzeAccessibility d pageSpeedData in
  (images = [] ->
   altRatio d = 1%Q /\
   a11y_score result = clamp (15 + other_points) /\ a11y_issues result = later_issues) /\
  (images <> [] ->
   altRatio d = ratio /\
   ((9 # 10 <= ratio)%Q ->
    a11y_score result = clamp (15 + other_points) /\ a11y_issues result = later_issues) /\
   ((1 # 2 <= ratio)%Q -> (ratio < 9 # 10)%Q ->
    a11y_score result = clamp (8 + other_points) /\
    exists percent : Z,
      (inject_Z percent - (1 # 2) <= (1 - ratio) * 100)%Q /\
      ((1 - ratio) * 100 <= inject_Z percent + (1 # 2))%Q /\
      a11y_issues result
      = (JS.show percent
         +:+ "% of images missing alt text - screen readers cannot describe them")
        :: later_issues) /\
   ((ratio < 1 # 2)%Q ->
    a11y_score result = clamp (0 + other_points) /\
    a11y_issues result
    = "Most images missing alt text - site not accessible to visually impaired users"
      :: later_issues)).
Proof.
  intros He. cbv zeta.
  destruct (accessibility_sections d pageSpeedData He) as [Hs Hi].
  rewrite lighthouse_step_no_issue in Hi. cbn [app] in Hi.
  assert (Hsum : forall a,
    award (alt_text_step d) = a ->
    a11y_score (analyzeAccessibility d pageSpeedData)
    = clamp (a + (award (lighthouse_step pageSpeedData) + award (heading_step d)
                  + award (form_label_step d) + award (skip_link_step d)
                  + award (landmark_step d) + award (contrast_step d)
                  + award (focus_step d) + award (lang_step d)))).
  { intros a <-. rewrite Hs. f_equal. lia. }
  change (Regex.match_all _ (JS.or_else (html d) EmptyString)) with (imgTags d).
  change (List.filter _ (imgTags d)) with (imgsWithAlt d).
  split.
  - intros Hnone.
    assert (Hr : altRatio d = 1%Q) by (unfold altRatio; rewrite Hnone; reflexivity).
    split; [exact Hr |].
    assert (Hstep : alt_text_step d = points 15 [] [] [("altText", Flag true)]).
    { unfold alt_text_step. rewrite Hr. reflexivity. }
    split; [apply Hsum; rewrite Hstep; reflexivity |].
    rewrite Hi, Hstep. reflexivity.
  - intros Hsome.
    assert (Hr : altRatio d
                 = (Z.of_nat (length (imgsWithAlt d)) # Pos.of_nat (length (imgTags d)))%Q).
    { unfold altRatio. destruct (imgTags d) as [|x l] eqn:E; [done |].
      cbn [length]. by rewrite Pos.of_nat_succ. }
    split; [exact Hr |].
    rewrite <- Hr. clear Hr.
    split; [| split].
    + intros H. apply Qle_bool_iff in H.
      assert (Hstep : alt_text_step d = points 15 [] [] [("altText", Flag true)]).
      { unfold alt_text_step. rewrite H. reflexivity. }
      split; [apply Hsum; rewrite Hstep; reflexivity |].
      rewrite Hi, Hstep. reflexivity.
    + intros H1 H2. apply Qle_bool_iff in H1.
      assert (H9 : Qle_bool (9 # 10) (altRatio d) = false).
      { destruct (Qle_bool (9 # 10) (altRatio d)) eqn:E; [| done].
        apply Qle_bool_iff in E. by apply Qlt_not_le in H2. }
      assert (Hstep : alt_text_step d
                      = points 8
                          [JS.show (JS.round ((1 - altRatio d) * 100))
                           +:+ "% of images missing alt text - screen readers cannot describe them"]
                          [] [("altText", Flag false)]).
      { unfold alt_text_step. rewrite H9, H1. reflexivity. }
      split; [apply Hsum; rewrite Hstep; reflexivity |].
      exists (JS.round ((1 - altRatio d) * 100)).
      destruct (nearest_integer ((1 - altRatio d) * 100)) as [Hlo Hhi].
      split; [exact Hlo |]. split; [exact Hhi |].
      rewrite Hi, Hstep. reflexivity.
    + intros H.
      assert (H9 : Qle_bool (9 # 10) (altRatio d) = false).
      { destruct (Qle_bool (9 # 10) (altRatio d)) eqn:E; [| done].
        apply Qle_bool_iff in E. exfalso. apply (Qlt_not_le _ _ H).
        eapply Qle_trans; [| exact E]. done. }
      assert (H5 : Qle_bool (1 # 2) (altRatio d) = false).
      { destruct (Qle_bool (1 # 2) (altRatio d)) eqn:E; [| done].
        apply Qle_bool_iff in E. by apply Qlt_not_le in H. }
      assert (Hstep : alt_text_step d
                      = points 0
                          ["Most images missing alt text - site not accessible to visually impaired users"]
                          [] [("altText", Flag false)]).
      { unfold alt_text_step. rewrite H9, H5. reflexivity. }
      split; [apply Hsum; rewrite Hstep; reflexivity |].
      rewrite Hi, Hstep. reflexivity.
Qed.

Lemma alt_text_tiers_witness :
  (let d := Cases.fetched (Cases.gallery 0 0) in
   has_error d = false /\ a11y_score (analyzeAccessibility d None) = 30 /\
   length (a11y_issues (analyzeAccessibility d None)) = 5%nat) /\
  (let d := Cases.fetched (Cases.gallery 9 1) in
   has_error d = false /\ a11y_score (analyzeAccessibility d None) = 30) /\
  (let d := Cases.fetched (Cases.gallery 1 1) in
   has_error d = false /\ a11y_score (analyzeAccessibility d None) = 23) /\
  (let d := Cases.fetched (Cases.gallery 1 2) in
   has_error d = false /\ a11y_score (analyzeAccessibility d None) = 15 /\
   head (a11y_issues (analyzeAccessibility d None))
   = Some "Most images missing alt text - site not accessible to visually impaired users").
Proof.
  cbv zeta.
  split; [| split; [| split]].
  - split; [reflexivity |].
    destruct (alt_text_tiers (Cases.fetched (Cases.gallery 0 0)) None eq_refl)
      as [Hnone _].
    destruct Hnone as (_ & Hs & Hi); [vm_compute; reflexivity |].
    rewrite Hs, Hi. vm_compute. split; reflexivity.
  - split; [reflexivity |].
    destruct (alt_text_tiers (Cases.fetched (Cases.gallery 9 1)) None eq_refl)
      as [_ Hsome].
    destruct Hsome as (_ & Hfull & _); [vm_compute; discriminate |].
    destruct Hfull as [Hs _]; [vm_compute; discriminate |].
    rewrite Hs. vm_compute. reflexivity.
  - split; [reflexivity |].
    destruct (alt_text_tiers (Cases.fetched (Cases.gallery 1 1)) None eq_refl)
      as [_ Hsome].
    destruct Hsome as (_ & _ & Hpart & _); [vm_compute; discriminate |].
    destruct Hpart as [Hs _]; [vm_compute; discriminate | vm_compute; reflexivity |].
    rewrite Hs. vm_compute. reflexivity.
  - split; [reflexivity |].
    destruct (alt_text_tiers (Cases.fetched (Cases.gallery 1 2)) None eq_refl)
      as [_ Hsome].
    destruct Hsome as (_ & _ & _ & Hlow); [vm_compute; discriminate |].
    destruct Hlow as [Hs Hi]; [vm_compute; reflexivity |].
    rewrite Hs, Hi. vm_compute. split; reflexivity.
Defined.

(** ** What the matcher finds is a match *)

Section MatcherSound.
Import Regex Language.
Variable ci : bool.

Lemma on_char_sound (p : ascii -> bool) s (k : cont) out :
  on_char p s k = Some out ->
  exists x s', s = x :: s' /\ p x = true /\ k s' = Some out.
Proof.
  destruct s as [|x s']; simpl; [discriminate|].
  destruct (p x) eqn:E; [|discriminate].
  intros H. exists x, s'. auto.
Qed.

(** A successful run splits its input into a match of the pattern and
    the rest, on which the continuation succeeded. *)
Lemma run_sound r : forall s (k : cont) out,
  run ci r s k = Some out ->
  exists w s', s = w ++ s' /\ Matches ci r w /\ k s' = Some out.
Proof.
  induction r as [|c| |neg items|a IHa b IHb|a IHa b IHb|greedy a IHa]; intros s k out H.
  - exists [], s. split; [reflexivity|]. split; [constructor|exact H].
  - apply on_char_sound in H as (x & s' & -> & Hp & Hk).
    exists [x], s'. split; [reflexivity|]. split; [constructor; exact Hp|exact Hk].
  - apply on_char_sound in H as (x & s' & -> & Hp & Hk).
    exists [x], s'. split; [reflexivity|]. split; [|exact Hk].
    constructor. destruct (is_line_end x); [discriminate|reflexivity].
  - apply on_char_sound in H as (x & s' & -> & Hp & Hk).
    exists [x], s'. split; [reflexivity|]. split; [constructor; exact Hp|exact Hk].
  - simpl in H. apply IHa in H as (w1 & s1 & -> & H1 & H).
    apply IHb in H as (w2 & s2 & -> & H2 & H).
    exists (w1 ++ w2), s2. rewrite <- app_assoc.
    split; [reflexivity|]. split; [constructor; assumption|exact H].
  - simpl in H. destruct (run ci a s k) eqn:E.
    + injection H as ->. apply IHa in E as (w & s' & -> & Hw & Hk).
      exists w, s'. split; [reflexivity|]. split; [apply MAltL; exact Hw|exact Hk].
    + apply IHb in H as (w & s' & -> & Hw & Hk).
      exists w, s'. split; [reflexivity|]. split; [apply MAltR; exact Hw|exact Hk].
  - change (iterate ci greedy a k (length s) s = Some out) in H.
    revert H. generalize (length s) as n. intros n. revert s out.
    induction n as [|n IHn]; intros s out H.
    + exists [], s. split; [reflexivity|]. split; [constructor|exact H].
    + assert (Hagain : forall o,
        run ci a s (fun s' =>
          if (length s' <? length s)%nat then iterate ci greedy a k n s' else None) = Some o ->
        exists w s', s = w ++ s' /\ Matches ci (Star greedy a) w /\ k s' = Some o).
      { intros o Ho. apply IHa in Ho as (w1 & s1 & -> & H1 & Ho).
        destruct (length s1 <? length (w1 ++ s1))%nat; [|discriminate].
        apply IHn in Ho as (w2 & s2 & -> & H2 & Ho).
        exists (w1 ++ w2), s2. rewrite <- app_assoc.
        split; [reflexivity|]. split; [apply MStarMore; assumption|exact Ho]. }
      assert (Hnil : forall o, k s = Some o ->
        exists w s', s = w ++ s' /\ Matches ci (Star greedy a) w /\ k s' = Some o).
      { intros o Ho. exists [], s. split; [reflexivity|]. split; [constructor|exact Ho]. }
      cbn [iterate] in H. destruct greedy.
      * match type of H with (match ?e with _ => _ end) = _ => destruct e eqn:E end.
        -- injection H as ->. apply Hagain. reflexivity.
        -- apply Hnil. exact H.
      * match type of H with (match ?e with _ => _ end) = _ => destruct e eqn:E end.
        -- injection H as ->. apply Hnil. reflexivity.
        -- apply Hagain. exact H.
Qed.


Lemma take_matched (w s' : list ascii) :
  take (length (w ++ s') - length s') (w ++ s') = w.
Proof.
  rewrite length_app.
  replace (length w + length s' - length s')%nat with (length w) by lia.
  apply take_app_length.
Qed.

Lemma match_here_sound r s m rest :
  match_here ci r s = Some (m, rest) -> s = m ++ rest /\ Matches ci r m.
Proof.
  unfold match_here. destruct (run ci r s Some) as [out|] eqn:E; [|discriminate].
  apply run_sound in E as (w & s' & -> & Hw & [= ->]).
  rewrite take_matched. intros [= <- <-]. split; [reflexivity|exact Hw].
Qed.

Lemma search_sound r : forall s pre m rest,
  search ci r s = Some (pre, m, rest) -> s = pre ++ m ++ rest /\ Matches ci r m.
Proof.
  induction s as [|x s IH]; intros pre m rest H.
  - simpl in H. destruct (match_here ci r []) as [[m' rest']|] eqn:E; [|discriminate].
    injection H as <- <- <-. apply match_here_sound in E. exact E.
  - simpl in H. destruct (match_here ci r (x :: s)) as [[m' rest']|] eqn:E.
    + injection H as <- <- <-. apply match_here_sound in E. exact E.
    + destruct (search ci r s) as [[[pre' m'] rest']|] eqn:E'; [|discriminate].
      injection H as <- <- <-. destruct (IH _ _ _ eq_refl) as [-> Hm].
      split; [reflexivity|exact Hm].
Qed.

Lemma scan_sound r : forall fuel s,
  Forall (fun pm => Matches ci r (snd pm)) (scan fuel ci r s).
Proof.
  induction fuel as [|fuel IH]; intros s; simpl; [constructor|].
  destruct (search ci r s) as [[[pre m] rest]|] eqn:E; [|constructor].
  apply search_sound in E as [_ Hm].
  constructor; [exact Hm|].
  destruct m as [|y m].
  - destruct rest as [|x rest]; [constructor|].
    specialize (IH rest). destruct (scan fuel ci r rest) as [|[pre' m'] tl]; [constructor|].
    inversion IH; subst. constructor; assumption.
  - apply IH.
Qed.

(** The lengths of a match. *)
Lemma matches_min_length r w : Matches ci r w -> (min_length r <= length w)%nat.
Proof.
  induction 1; simpl; rewrite ?length_app; lia.
Qed.

Lemma matches_max_length r w :
  Matches ci r w -> forall n, max_length r = Some n -> (length w <= n)%nat.
Proof.
  induction 1; simpl; intros n Hn; try (injection Hn as <-; simpl; lia); try discriminate.
  - destruct (max_length a) as [m1|]; [|discriminate].
    destruct (max_length b) as [m2|]; [|discriminate].
    injection Hn as <-. rewrite length_app.
    specialize (IHMatches1 _ eq_refl). specialize (IHMatches2 _ eq_refl). lia.
  - destruct (max_length a) as [m1|]; [|discriminate].
    destruct (max_length b) as [m2|]; [|discriminate].
    injection Hn as <-. specialize (IHMatches _ eq_refl). lia.
  - destruct (max_length a) as [m1|]; [|discriminate].
    destruct (max_length b) as [m2|]; [|discriminate].
    injection Hn as <-. specialize (IHMatches _ eq_refl). lia.
Qed.

(** The characters of a match. *)
Lemma matches_may_hold r w :
  Matches ci r w -> Forall (fun x => may_hold ci r x = true) w.
Proof.
  induction 1; simpl.
  - constructor.
  - constructor; [assumption|constructor].
  - constructor; [|constructor]. rewrite H. reflexivity.
  - constructor; [assumption|constructor].
  - apply Forall_app. split.
    + eapply Forall_impl; [exact IHMatches1|]. simpl. intros x ->. reflexivity.
    + eapply Forall_impl; [exact IHMatches2|]. simpl. intros x ->. apply orb_true_r.
  - eapply Forall_impl; [exact IHMatches|]. simpl. intros x ->. reflexivity.
  - eapply Forall_impl; [exact IHMatches|]. simpl. intros x ->. apply orb_true_r.
  - constructor.
  - apply Forall_app. split; assumption.
Qed.

End MatcherSound.

Section GroupSound.
Import Regex Language Capture.

Lemma group_here_sound p s g :
  group_here p s = Some g ->
  exists w0 w2 rest,
    s = w0 ++ g ++ w2 ++ rest /\ Matches (grouped_i p) (before p) w0
    /\ Matches (grouped_i p) (group p) g /\ Matches (grouped_i p) (after p) w2.
Proof.
  unfold group_here. intros H.
  apply run_sound in H as (w0 & s1 & -> & H0 & H).
  apply run_sound in H as (w1 & s2 & -> & H1 & H).
  apply run_sound in H as (w2 & s3 & -> & H2 & H).
  rewrite take_matched in H. injection H as <-.
  exists w0, w2, s3. auto.
Qed.

Lemma group_search_sound p : forall s g,
  group_search p s = Some g ->
  exists pre w0 w2 rest,
    s = pre ++ w0 ++ g ++ w2 ++ rest /\ Matches (grouped_i p) (before p) w0
    /\ Matches (grouped_i p) (group p) g /\ Matches (grouped_i p) (after p) w2.
Proof.
  induction s as [|x s IH]; intros g H; simpl in H.
  - destruct (group_here p []) eqn:E; [|discriminate]. injection H as ->.
    apply group_here_sound in E as (w0 & w2 & rest & -> & H0 & H1 & H2).
    exists [], w0, w2, rest. auto.
  - destruct (group_here p (x :: s)) eqn:E.
    + injection H as ->.
      apply group_here_sound in E as (w0 & w2 & rest & -> & H0 & H1 & H2).
      exists [], w0, w2, rest. auto.
    + apply IH in H as (pre & w0 & w2 & rest & -> & H0 & H1 & H2).
      exists (x :: pre), w0, w2, rest. auto.
Qed.

End GroupSound.

(** ** A match is found by the matcher *)

Section MatcherComplete.
Import Regex Language.
Variable ci : bool.

Lemma iterate_done greedy a (k : cont) n s :
  k s <> None -> iterate ci greedy a k n s <> None.
Proof.
  intros Hk. destruct n as [|n]; simpl; [exact Hk|].
  destruct greedy.
  - destruct (run ci a s _); [discriminate|exact Hk].
  - destruct (k s); [discriminate|]. contradiction.
Qed.

Lemma iterate_more greedy a (k : cont) n s :
  run ci a s (fun s' =>
    if (length s' <? length s)%nat then iterate ci greedy a k n s' else None) <> None ->
  iterate ci greedy a k (S n) s <> None.
Proof.
  intros H. cbn [iterate]. destruct greedy.
  - destruct (run ci a s _); [discriminate|contradiction].
  - destruct (k s); [discriminate|exact H].
Qed.

Lemma iterate_complete greedy a (k : cont) :
  (forall w, Matches ci a w -> forall s' (k' : cont),
      k' s' <> None -> run ci a (w ++ s') k' <> None) ->
  forall w, Matches ci (Star greedy a) w -> forall s' n,
    k s' <> None -> (length (w ++ s') <= n)%nat ->
    iterate ci greedy a k n (w ++ s') <> None.
Proof.
  intros Ha w Hw. remember (Star greedy a) as r eqn:Er.
  induction Hw as [| | | | | | | |g a' w1 w2 H1 _ H2 IH2]; try discriminate.
  - intros s' n Hk _. apply iterate_done. exact Hk.
  - injection Er as -> ->. intros s' n Hk Hn.
    destruct w1 as [|x w1]; [apply (IH2 eq_refl); assumption|].
    destruct n as [|n]; [simpl in Hn; lia|].
    apply iterate_more. rewrite <- app_assoc. apply Ha; [exact H1|].
    replace (length (w2 ++ s') <? length ((x :: w1) ++ w2 ++ s'))%nat with true.
    + apply (IH2 eq_refl); [exact Hk|].
      rewrite <- app_assoc in Hn. simpl in Hn. rewrite length_app in Hn. lia.
    + symmetry. apply Nat.ltb_lt. simpl. rewrite (length_app w1). lia.
Qed.

(** Every way of splitting the input into a match and a rest that the
    continuation accepts makes the run succeed. *)
Lemma run_complete r : forall w, Matches ci r w -> forall s' (k : cont),
  k s' <> None -> run ci r (w ++ s') k <> None.
Proof.
  induction r as [|c| |neg items|a IHa b IHb|a IHa b IHb|greedy a IHa]; intros w Hw s' k Hk.
  - inversion Hw; subst. exact Hk.
  - inversion Hw as [|c' x Hx| | | | | | |]; subst. simpl. rewrite Hx. exact Hk.
  - inversion Hw as [| |x Hx| | | | | |]; subst. simpl. rewrite Hx. exact Hk.
  - inversion Hw as [| | |neg' items' x Hx| | | | |]; subst. simpl. rewrite Hx. exact Hk.
  - inversion Hw; subst. simpl. rewrite <- app_assoc.
    apply IHa; [assumption|]. apply IHb; assumption.
  - simpl. inversion Hw; subst.
    + match goal with H : Matches ci a w |- _ => specialize (IHa _ H s' k Hk) end.
      destruct (run ci a (w ++ s') k); [discriminate|contradiction].
    + destruct (run ci a (w ++ s') k); [discriminate|]. apply IHb; assumption.
  - change (iterate ci greedy a k (length (w ++ s')) (w ++ s') <> None).
    apply iterate_complete; [exact IHa|exact Hw|exact Hk|lia].
Qed.

Lemma match_here_complete r w s' :
  Matches ci r w -> match_here ci r (w ++ s') <> None.
Proof.
  intros Hw. unfold match_here.
  pose proof (run_complete r w Hw s' Some) as H.
  destruct (run ci r (w ++ s') Some); [discriminate|]. exfalso. apply H; [discriminate|reflexivity].
Qed.

Lemma search_complete r w : forall pre post,
  Matches ci r w -> search ci r (pre ++ w ++ post) <> None.
Proof.
  intros pre post Hw. induction pre as [|x pre IH]; simpl.
  - pose proof (match_here_complete r w post Hw) as H.
    destruct (w ++ post) as [|y t].
    + simpl. destruct (match_here ci r []) as [[m rest]|]; [discriminate|contradiction].
    + simpl. destruct (match_here ci r (y :: t)) as [[m rest]|]; [discriminate|contradiction].
  - destruct (match_here ci r (x :: pre ++ w ++ post)) as [[m rest]|]; [discriminate|].
    destruct (search ci r (pre ++ w ++ post)) as [[[p m] rest]|]; [discriminate|contradiction].
Qed.

(** The pattern is found in a text exactly when some part of the text
    matches it. *)
Lemma search_found r s :
  search ci r s <> None <->
  exists pre w post, s = pre ++ w ++ post /\ Matches ci r w.
Proof.
  split.
  - destruct (search ci r s) as [[[pre m] rest]|] eqn:E; [|contradiction].
    intros _. apply search_sound in E as [-> Hm]. exists pre, m, rest. auto.
  - intros (pre & w & post & -> & Hw). apply search_complete. exact Hw.
Qed.

End MatcherComplete.

Section TestSpec.
Import Regex Language.

Lemma test_spec p s :
  test p s = true <->
  exists pre w post,
    list_ascii_of_string s = pre ++ w ++ post /\ Matches (flag_i p) (body p) w.
Proof.
  unfold test. rewrite <- search_found.
  destruct (search (flag_i p) (body p) (list_ascii_of_string s)); split; intros H.
  - discriminate.
  - reflexivity.
  - discriminate H.
  - exfalso. apply H. reflexivity.
Qed.

End TestSpec.

(** ** The request handler *)

Lemma prefix_append (p s : string) : String.prefix p (p +:+ s) = true.
Proof.
  induction p as [|c p IH]; simpl.
  - by destruct s.
  - destruct (ascii_dec c c); [exact IH | done].
Qed.


Lemma scored_data_returns JSON_parse url page :
  analyzeAIReadiness (Extract2.scrapeWebsiteData JSON_parse url page) = None
  <-> page = Extract2.Rejected EmptyString.
Proof.
  destruct page as [status body hs|message]; simpl.
  - split; [|discriminate]. unfold analyzeAIReadiness. simpl. discriminate.
  - destruct message as [|c m].
    + split; [reflexivity|]. intros _. reflexivity.
    + split; [|discriminate]. unfold analyzeAIReadiness. simpl. discriminate.
Qed.

Lemma fields_of_value (v : Json.json) :
  v <> Json.JNull ->
  exists u c i t,
    Json.get "url" v = Some u /\ Json.get "companyName" v = Some c
    /\ Json.get "industry" v = Some i /\ Json.get "city" v = Some t
    /\ Handler.fields v
       = Some {| Handler.req_url := u; Handler.req_companyName := c;
                 Handler.req_industry := i; Handler.req_city := t |}.
Proof.
  intros Hv. unfold Handler.fields.
  destruct v; try (by destruct Hv); cbn [Json.get]; eexists _, _, _, _; repeat split.
Qed.

Lemma falsy_field (key : string) (v : Json.json) (f : option Json.json) :
  Json.get key v = Some f ->
  (Handler.falsy f = false
   <-> exists x, Json.get key v = Some (Some x) /\ Json.truthy x = true).
Proof.
  intros ->. destruct f as [x|]; cbn [Handler.falsy].
  - split.
    + intros H. exists x. split; [reflexivity |]. by destruct (Json.truthy x).
    + intros (y & [= <-] & ->). reflexivity.
  - split; [discriminate |]. intros (y & [=] & _).
Qed.

(** X2: the handler answers 400 exactly when the body is a JSON value
    other than [null] in which one of the four fields is missing or
    falsy.  Otherwise it throws before its [scores] object is built, and
    answers 500, in these cases only: the body is not JSON or is
    [null]; [url] is not a string; the page request failed with an
    empty message; the page was fetched and [industry] is not a string;
    or one of [companyName], [industry] and [city] is a value that
    cannot be turned into a text.  In every other case it builds the
    [scores] object, for the normalized URL and the data of the page.
    The reports of the performance lab enter with sub-scores that are
    numbers, [null] or missing, and a failed page request with a
    message that is a text. *)
Theorem post_outcome (JSON_parse : string -> option Json.json)
    (ToString : Json.json -> option string) (body : Handler.Body)
    (pageSpeedMobile pageSpeedDesktop : option PageSpeed) (page : Extract2.Fetched) :
  let outcome :=
    Handler.POST JSON_parse ToString body pageSpeedMobile pageSpeedDesktop page in
  let truthy key v := exists x, Json.get key v = Some (Some x) /\ Json.truthy x = true in
  let complete v :=
    truthy "url" v /\ truthy "companyName" v /\ truthy "industry" v /\ truthy "city" v in
  let is_string key v := exists s, Json.get key v = Some (Some (Json.JStr s)) in
  let no_text key v :=
    exists x, Json.get key v = Some (Some x) /\ (forall s, x <> Json.JStr s)
              /\ ToString x = None in
  (outcome = Handler.MissingFields
   <-> exists v, body = Handler.Parsed v /\ v <> Json.JNull /\ ~ complete v)
  /\ (outcome = Handler.Caught
      <-> body = Handler.Unparsable \/ body = Handler.Parsed Json.JNull
          \/ exists v,
               body = Handler.Parsed v /\ complete v
               /\ (~ is_string "url" v
                   \/ page = Extract2.Rejected EmptyString
                   \/ ((exists status text hs, page = Extract2.Responded status text hs)
                       /\ ~ is_string "industry" v)
                   \/ no_text "companyName" v \/ no_text "industry" v
                   \/ no_text "city" v))
  /\ (forall n w s,
        outcome = Handler.Scored n w s ->
        exists v url,
          body = Handler.Parsed v /\ Json.get "url" v = Some (Some (Json.JStr url))
          /\ n = Handler.normalizeUrl url
          /\ w = Extract2.scrapeWebsiteData JSON_parse n page).
Proof.
  cbv zeta. destruct body as [|v].
  { cbn [Handler.POST]. split; [| split].
    - split; [discriminate |]. intros (v & [=] & _).
    - split; [intros _; left; reflexivity | reflexivity].
    - intros n w s [=]. }
  assert (Hnull : v = Json.JNull \/ v <> Json.JNull).
  { destruct v; [left; reflexivity | right; discriminate ..]. }
  destruct Hnull as [-> | Hv].
  { cbn. split; [| split].
    - split; [discriminate |]. intros (v & [= <-] & Hn & _). by destruct Hn.
    - split; [intros _; right; left; reflexivity | reflexivity].
    - intros n w s [=]. }
  destruct (fields_of_value v Hv) as (u & c & i & t & Hu & Hc & Hi & Ht & Hf).
  pose proof (falsy_field "url" v u Hu) as Fu.
  pose proof (falsy_field "companyName" v c Hc) as Fc.
  pose proof (falsy_field "industry" v i Hi) as Fi.
  pose proof (falsy_field "city" v t Ht) as Ft.
  cbn [Handler.POST]. rewrite Hf. unfold Handler.missing_fields.
  cbn [Handler.req_url Handler.req_companyName Handler.req_industry Handler.req_city].
  destruct (Handler.falsy u || Handler.falsy c || Handler.falsy i || Handler.falsy t) eqn:E.
  { assert (Hnot : ~ ((exists x, Json.get "url" v = Some (Some x) /\ Json.truthy x = true)
                      /\ (exists x, Json.get "companyName" v = Some (Some x)
                                    /\ Json.truthy x = true)
                      /\ (exists x, Json.get "industry" v = Some (Some x)
                                    /\ Json.truthy x = true)
                      /\ (exists x, Json.get "city" v = Some (Some x)
                                    /\ Json.truthy x = true))).
    { intros (H1 & H2 & H3 & H4).
      apply Fu in H1. apply Fc in H2. apply Fi in H3. apply Ft in H4.
      rewrite H1, H2, H3, H4 in E. discriminate E. }
    split; [| split].
    - split; [| reflexivity]. intros _. exists v. repeat split; assumption.
    - split; [discriminate |].
      intros [H | [H | (v' & [= <-] & Hcomp & _)]]; [discriminate H | | by destruct Hnot].
      injection H as ->. by destruct Hv.
    - intros n w s [=]. }
  apply orb_false_elim in E as [E Et]. apply orb_false_elim in E as [E Ei].
  apply orb_false_elim in E as [Eu Ec].
  assert (Hcomp : (exists x, Json.get "url" v = Some (Some x) /\ Json.truthy x = true)
                  /\ (exists x, Json.get "companyName" v = Some (Some x)
                                /\ Json.truthy x = true)
                  /\ (exists x, Json.get "industry" v = Some (Some x)
                                /\ Json.truthy x = true)
                  /\ (exists x, Json.get "city" v = Some (Some x) /\ Json.truthy x = true)).
  { split; [by apply Fu | split; [by apply Fc | split; [by apply Fi | by apply Ft]]]. }
  split.
  { split; [| intros (v' & [= <-] & _ & Hn); by destruct Hn].
    destruct u as [[]|], c, i, t; try discriminate;
      cbv zeta; destruct (Handler.scores _ _ _ _ _ _ _ _); discriminate. }
  clear Fu Fc Fi Ft.
  destruct u as [xu|]; [| discriminate Eu].
  destruct c as [xc|]; [| discriminate Ec].
  destruct i as [xi|]; [| discriminate Ei].
  destruct t as [xt|]; [| discriminate Et].
  assert (Hbad : forall key x,
            Json.get key v = Some (Some x) ->
            (Handler.text ToString x = None
             <-> exists y, Json.get key v = Some (Some y) /\ (forall s, y <> Json.JStr s)
                           /\ ToString y = None)).
  { intros key x Hk. split.
    - intros Hx. exists x. split; [exact Hk |].
      destruct x; cbn [Handler.text] in Hx; try discriminate Hx;
        (split; [intros s; discriminate | exact Hx]).
    - intros (y & Hy & Hs & Hn). rewrite Hk in Hy. injection Hy as <-.
      destruct x; cbn [Handler.text]; try exact Hn. by destruct (Hs s). }
  assert (Hstr : forall key x,
            Json.get key v = Some (Some x) ->
            (Handler.is_text x = true
             <-> exists s, Json.get key v = Some (Some (Json.JStr s)))).
  { intros key x Hk. split.
    - destruct x; try discriminate. intros _. exists s. exact Hk.
    - intros (s & Hs). rewrite Hk in Hs. injection Hs as ->. reflexivity. }
  pose proof (Hbad _ _ Hc) as Bc. pose proof (Hbad _ _ Hi) as Bi.
  pose proof (Hbad _ _ Ht) as Bt.
  pose proof (Hstr _ _ Hu) as Su. pose proof (Hstr _ _ Hi) as Si.
  clear Hbad Hstr.
  destruct (Handler.is_text xu) eqn:Eu'.
  2:{ assert (Hno : ~ exists s, Json.get "url" v = Some (Some (Json.JStr s))).
      { intros H. apply Su in H. discriminate H. }
      split.
      - split; [| by destruct xu].
        intros _. right; right. exists v. split; [reflexivity |].
        split; [exact Hcomp |]. left. exact Hno.
      - intros n w s. by destruct xu. }
  destruct xu as [| | |url| |]; try discriminate Eu'. clear Su Eu'.
  cbv zeta. unfold Handler.scores.
  pose proof (scored_data_returns JSON_parse (Handler.normalizeUrl url) page) as Hr.
  set (d := Extract2.scrapeWebsiteData JSON_parse (Handler.normalizeUrl url) page) in *.
  assert (Hd : has_error d = false <-> exists status text hs,
                                         page = Extract2.Responded status text hs
                                         \/ page = Extract2.Rejected EmptyString).
  { unfold d. destruct page as [st b hs|[|a m]]; cbn.
    - split; [| reflexivity]. intros _. exists st, b, hs. left. reflexivity.
    - split; [| reflexivity]. intros _. exists 0, EmptyString, ∅. right. reflexivity.
    - split; [discriminate |]. intros (? & ? & ? & [H|H]); discriminate H. }
  assert (Hurl : exists s, Json.get "url" v = Some (Some (Json.JStr s))) by (by exists url).
  split.
  2:{ intros n w s.
      destruct (analyzeAIReadiness d); [| discriminate].
      destruct (negb (has_error d) && negb (Handler.is_text xi)); [discriminate |].
      destruct (Handler.text ToString xi), (Handler.text ToString xt),
        (Handler.text ToString xc); try discriminate.
      intros [= <- <- <-]. exists v, url. repeat split; assumption. }
  split.
  - intros Hout. right; right. exists v. split; [reflexivity |]. split; [exact Hcomp |].
    right.
    destruct (analyzeAIReadiness d) as [ai|] eqn:Eai.
    2:{ left. apply Hr. reflexivity. }
    right.
    destruct (has_error d) eqn:Ee; cbn [negb andb] in Hout.
    + right.
      destruct (Handler.text ToString xi) eqn:Ti; [| right; left; by apply Bi].
      destruct (Handler.text ToString xt) eqn:Tt; [| right; right; by apply Bt].
      destruct (Handler.text ToString xc) eqn:Tc; [discriminate Hout | left; by apply Bc].
    + destruct (Handler.is_text xi) eqn:Ii; cbn [negb] in Hout.
      * right.
        destruct (Handler.text ToString xi) eqn:Ti; [| right; left; by apply Bi].
        destruct (Handler.text ToString xt) eqn:Tt; [| right; right; by apply Bt].
        destruct (Handler.text ToString xc) eqn:Tc; [discriminate Hout | left; by apply Bc].
      * left. split.
        -- destruct (proj1 Hd eq_refl) as (st & b & hs & [H|H]); [by exists st, b, hs |].
           apply Hr in H. discriminate H.
        -- intros H. apply Si in H. discriminate H.
  - intros [H | [H | (v' & [= <-] & _ & Hcase)]]; [discriminate H | |].
    { injection H as ->. by destruct Hv. }
    destruct Hcase as [H | [H | [[(st & b & hs & Hp) Hn] | H]]].
    + by destruct H.
    + apply Hr in H. rewrite H. reflexivity.
    + destruct (analyzeAIReadiness d); [| reflexivity].
      assert (Ee : has_error d = false).
      { apply Hd. exists st, b, hs. left. exact Hp. }
      rewrite Ee. cbn [negb andb].
      destruct (Handler.is_text xi) eqn:Ii; [| reflexivity].
      exfalso. apply Hn. by apply Si.
    + destruct (analyzeAIReadiness d); [| reflexivity].
      destruct (negb (has_error d) && negb (Handler.is_text xi)); [reflexivity |].
      destruct H as [H | [H | H]].
      * apply Bc in H. rewrite H.
        destruct (Handler.text ToString xi), (Handler.text ToString xt); reflexivity.
      * apply Bi in H. rewrite H. reflexivity.
      * apply Bt in H. rewrite H. destruct (Handler.text ToString xi); reflexivity.
Qed.

(** What the handler has computed when it reaches its [scores]
    object. *)
Lemma post_scored (JSON_parse : string -> option Json.json)
    (ToString : Json.json -> option string) (body : Handler.Body)
    (pageSpeedMobile pageSpeedDesktop : option PageSpeed) (page : Extract2.Fetched)
    (n : string) (w : WebsiteData) (s : Handler.ScoreSummary) :
  Handler.POST JSON_parse ToString body pageSpeedMobile pageSpeedDesktop page
  = Handler.Scored n w s ->
  exists v url industry city companyName ai,
    body = Handler.Parsed v /\ Json.get "url" v = Some (Some (Json.JStr url))
    /\ n = Handler.normalizeUrl url
    /\ w = Extract2.scrapeWebsiteData JSON_parse n page
    /\ analyzeAIReadiness w = Some ai
    /\ s = {| Handler.mobile := Handler.speed_score pageSpeedMobile;
              Handler.desktop := Handler.speed_score pageSpeedDesktop;
              Handler.aiReadiness := ai_score ai;
              Handler.seo := seo_score (analyzeSEO w pageSpeedMobile);
              Handler.aeoGeo := aeo_score (analyzeAEOGEO w industry city companyName);
              Handler.security := sec_score (analyzeSecurityHeaders n w);
              Handler.accessibility :=
                a11y_score (analyzeAccessibility w pageSpeedMobile) |}.
Proof.
  destruct body as [|v]; [discriminate |]. cbn [Handler.POST].
  unfold Handler.fields.
  destruct (Json.get "url" v) as [u|] eqn:Hu; [| discriminate].
  destruct (Json.get "companyName" v) as [c|]; [| discriminate].
  destruct (Json.get "industry" v) as [i|]; [| discriminate].
  destruct (Json.get "city" v) as [t|]; [| discriminate].
  destruct (Handler.missing_fields _); [discriminate |].
  cbn [Handler.req_url Handler.req_companyName Handler.req_industry Handler.req_city].
  destruct u as [[| | |url| |]|]; try discriminate.
  destruct c as [xc|]; [| discriminate].
  destruct i as [xi|]; [| discriminate].
  destruct t as [xt|]; [| discriminate].
  cbv zeta. unfold Handler.scores.
  destruct (analyzeAIReadiness _) as [ai|] eqn:Eai; [| discriminate].
  destruct (negb _ && negb _); [discriminate |].
  destruct (Handler.text ToString xi) as [industry|]; [| discriminate].
  destruct (Handler.text ToString xt) as [city|]; [| discriminate].
  destruct (Handler.text ToString xc) as [companyName|]; [| discriminate].
  intros [= <- <- <-].
  exists v, url, industry, city, companyName, ai. repeat split; assumption || reflexivity.
Qed.

Lemma speed_score_range report :
  unit_interval (performance_sub_score report) -> 0 <= Handler.speed_score report <= 100.
Proof.
  unfold Handler.speed_score, unit_interval.
  destruct (performance_sub_score report) as [| |q]; intros Hq; cbn [JS.num_or_zero].
  - change (0 * 100)%Q with (0 * inject_Z 100)%Q. apply round_scaled; [split; done | lia].
  - change (0 * 100)%Q with (0 * inject_Z 100)%Q. apply round_scaled; [split; done | lia].
  - change (q * 100)%Q with (q * inject_Z 100)%Q. apply round_scaled; [exact Hq | lia].
Qed.

(** X3: whenever the handler reaches its [scores] object, each of the
    seven scores of the summary is between 0 and 100, as long as the
    sub-scores of the performance lab are fractions of one. *)
Theorem summary_scores_in_range (JSON_parse : string -> option Json.json)
    (ToString : Json.json -> option string) (body : Handler.Body)
    (pageSpeedMobile pageSpeedDesktop : option PageSpeed)
    (page : Extract2.Fetched) (normalizedUrl : string) (websiteData : WebsiteData)
    (s : Handler.ScoreSummary) :
  unit_interval (performance_sub_score pageSpeedMobile) ->
  unit_interval (performance_sub_score pageSpeedDesktop) ->
  unit_interval (accessibility_sub_score pageSpeedMobile) ->
  Handler.POST JSON_parse ToString body pageSpeedMobile pageSpeedDesktop page
  = Handler.Scored normalizedUrl websiteData s ->
  (0 <= Handler.mobile s <= 100) /\ (0 <= Handler.desktop s <= 100)
  /\ (0 <= Handler.aiReadiness s <= 100) /\ (0 <= Handler.seo s <= 100)
  /\ (0 <= Handler.aeoGeo s <= 100) /\ (0 <= Handler.security s <= 100)
  /\ (0 <= Handler.accessibility s <= 100).
Proof.
  intros Hm Hd Ha Hp.
  apply post_scored in Hp
    as (v & url & industry & city & companyName & ai & _ & _ & _ & _ & Eai & ->).
  cbn [Handler.mobile Handler.desktop Handler.aiReadiness Handler.seo Handler.aeoGeo
       Handler.security Handler.accessibility].
  split; [apply speed_score_range; exact Hm |].
  split; [apply speed_score_range; exact Hd |].
  split; [eapply ai_readiness_range; exact Eai |].
  split; [apply seo_range |].
  split; [apply aeo_range |].
  split; [apply security_range |].
  apply accessibility_range. exact Ha.
Qed.

Lemma summary_scores_in_range_witness :
  exists n w s,
    Handler.POST Json.parse (fun _ => None) (Cases.request "acme.example")
      (Sample.report (3 # 5) (9 # 10)) (Sample.report (4 # 5) (9 # 10)) Cases.response
    = Handler.Scored n w s
    /\ (0 <= Handler.mobile s <= 100) /\ (0 <= Handler.desktop s <= 100)
    /\ (0 <= Handler.aiReadiness s <= 100) /\ (0 <= Handler.seo s <= 100)
    /\ (0 <= Handler.aeoGeo s <= 100) /\ (0 <= Handler.security s <= 100)
    /\ (0 <= Handler.accessibility s <= 100).
Proof.
  eexists _, _, _. split; [vm_compute; reflexivity |].
  eapply (summary_scores_in_range Json.parse (fun _ => None) (Cases.request "acme.example")
            (Sample.report (3 # 5) (9 # 10)) (Sample.report (4 # 5) (9 # 10)) Cases.response).
  - vm_compute. split; discriminate.
  - vm_compute. split; discriminate.
  - vm_compute. split; discriminate.
  - vm_compute. reflexivity.
Defined.

(** X4: a site that could not be fetched gets 30 points more for
    security than a site that answered without any header, and is
    spared the issue about the missing HSTS header. *)
Theorem unreachable_site_outscores_bare_response (JSON_parse : string -> option Json.json)
    (url message body : string) (status : Z) :
  let unreachable :=
    analyzeSecurityHeaders url
      (Extract2.scrapeWebsiteData JSON_parse url (Extract2.Rejected message)) in
  let bare :=
    analyzeSecurityHeaders url
      (Extract2.scrapeWebsiteData JSON_parse url (Extract2.Responded status body ∅)) in
  sec_score unreachable = sec_score bare + 30
  /\ sec_issues bare = sec_issues unreachable ++ ["Missing HSTS header"].
Proof.
  cbv zeta. unfold analyzeSecurityHeaders. cbv zeta. cbn [sec_score sec_issues].
  rewrite !total_run, !issues_run. unfold header_steps, sec_https_step.
  cbn [Extract2.scrapeWebsiteData headers failed].
  unfold has_header, header_includes. rewrite !lookup_empty. cbn [JS.truthy_opt orb].
  destruct (JS.startsWith "https://" url); vm_compute; split; reflexivity.
Qed.

Lemma prefix_inv (p s : string) :
  String.prefix p s = true -> exists rest, s = p +:+ rest.
Proof.
  revert s. induction p as [|c p IH]; intros s H.
  - exists s. reflexivity.
  - destruct s as [|x s]; [discriminate H|]. cbn [String.prefix] in H.
    destruct (ascii_dec c x) as [<-|]; [|discriminate H].
    apply IH in H as [rest ->]. exists rest. reflexivity.
Qed.

Lemma http_is_not_https (url : string) :
  String.prefix "http://" url = true -> String.prefix "https://" url = false.
Proof.
  intros H. apply prefix_inv in H as [rest ->]. reflexivity.
Qed.

Lemma normalized_https (url : string) :
  JS.startsWith "https://" (Handler.normalizeUrl url) = negb (JS.startsWith "http://" url).
Proof.
  unfold Handler.normalizeUrl, JS.startsWith.
  destruct (String.prefix "http://" url) eqn:E1; cbn [negb andb].
  - apply http_is_not_https. exact E1.
  - destruct (String.prefix "https://" url) eqn:E2; cbn [negb andb].
    + exact E2.
    + apply prefix_append.
Qed.

(** X5: whether a site counts as served over HTTPS is decided by the
    URL of the request alone: it does unless that URL starts with
    [http://].  Such a request cannot get more than 60 for security nor
    more than 90 for SEO, and every other request gets at least 40 for
    security, whatever the site answers. *)
Theorem https_is_read_off_the_request (JSON_parse : string -> option Json.json)
    (ToString : Json.json -> option string) (v : Json.json)
    (pageSpeedMobile pageSpeedDesktop : option PageSpeed)
    (status : Z) (body : string) (hs : gmap string string)
    (url normalizedUrl : string) (websiteData : WebsiteData) (s : Handler.ScoreSummary) :
  Json.get "url" v = Some (Some (Json.JStr url)) ->
  Handler.POST JSON_parse ToString (Handler.Parsed v) pageSpeedMobile pageSpeedDesktop
    (Extract2.Responded status body hs) = Handler.Scored normalizedUrl websiteData s ->
  hasHttps websiteData = Some (negb (JS.startsWith "http://" url))
  /\ (if JS.startsWith "http://" url
      then Handler.security s <= 60 /\ Handler.seo s <= 90
      else 40 <= Handler.security s).
Proof.
  intros Hu Hp.
  apply post_scored in Hp
    as (v' & url' & industry & city & companyName & ai & [= <-] & Hu' & Hn & Hw & _ & ->).
  rewrite Hu in Hu'. injection Hu' as <-. subst normalizedUrl websiteData.
  set (d := Extract2.scrapeWebsiteData JSON_parse (Handler.normalizeUrl url)
              (Extract2.Responded status body hs)).
  assert (Hd : hasHttps d = Some (negb (JS.startsWith "http://" url))).
  { unfold d. cbn [Extract2.scrapeWebsiteData hasHttps]. rewrite normalized_https. reflexivity. }
  assert (He : has_error d = false) by reflexivity.
  clearbody d.
  cbn [Handler.security Handler.seo].
  split; [exact Hd|].
  pose proof (header_steps_range d) as Hh.
  unfold analyzeSecurityHeaders, analyzeSEO. rewrite He. cbv zeta. cbn [sec_score seo_score].
  rewrite !total_run. unfold seo_steps. cbn [fold_right].
  unfold sec_https_step, https_step. rewrite Hd, normalized_https.
  pose proof (title_step_range d). pose proof (description_step_range d).
  pose proof (h1_step_range d). pose proof (seo_schema_step_range d).
  pose proof (canonical_step_range d). pose proof (mobile_step_range pageSpeedMobile).
  pose proof (open_graph_step_range d).
  destruct (JS.startsWith "http://" url); cbn [negb is_true award points]; unfold clamp; lia.
Qed.

Lemma https_is_read_off_the_request_witness :
  exists n w s,
    Handler.POST Json.parse (fun _ => None) (Cases.request "http://acme.example")
      (Sample.report (3 # 5) (9 # 10)) None Cases.response = Handler.Scored n w s
    /\ hasHttps w = Some false /\ Handler.security s <= 60 /\ Handler.seo s <= 90.
Proof.
  eexists _, _, _. split; [vm_compute; reflexivity |].
  eapply (https_is_read_off_the_request Json.parse (fun _ => None)
            (Cases.body "http://acme.example")
            (Sample.report (3 # 5) (9 # 10)) None 200 Sample.organization_page
            {[ "server" := "nginx" ]} "http://acme.example").
  - reflexivity.
  - vm_compute. reflexivity.
Defined.

(** ** Texts and their code units *)

Lemma units_of_append (a b : string) :
  list_ascii_of_string (a +:+ b) = list_ascii_of_string a ++ list_ascii_of_string b.
Proof. induction a as [|c a IH]; simpl; [reflexivity | by rewrite IH]. Qed.

Lemma text_of_app (a b : list ascii) :
  string_of_list_ascii (a ++ b) = string_of_list_ascii a +:+ string_of_list_ascii b.
Proof. induction a as [|c a IH]; simpl; [reflexivity | by rewrite IH]. Qed.

Lemma length_units (s : string) : length (list_ascii_of_string s) = String.length s.
Proof. induction s as [|c s IH]; simpl; [reflexivity | by rewrite IH]. Qed.

Lemma includes_here (t post : string) : JS.includes t (t +:+ post) = true.
Proof.
  destruct t as [|c t]; [by destruct post|].
  change (String c t +:+ post) with (String c (t +:+ post)). cbn [JS.includes].
  change (String c (t +:+ post)) with (String c t +:+ post).
  rewrite prefix_append. reflexivity.
Qed.

Lemma includes_later (t s : string) (c : ascii) :
  JS.includes t s = true -> JS.includes t (String c s) = true.
Proof. intros H. cbn [JS.includes]. rewrite H. apply orb_true_r. Qed.

(** A text that occurs in another is included in it. *)
Lemma includes_intro (t s : string) (pre post : list ascii) :
  list_ascii_of_string s = pre ++ list_ascii_of_string t ++ post ->
  JS.includes t s = true.
Proof.
  intros H. rewrite <- (string_of_list_ascii_of_string s), H.
  clear H. induction pre as [|c pre IH].
  - simpl. rewrite text_of_app, string_of_list_ascii_of_string. apply includes_here.
  - simpl. apply includes_later. exact IH.
Qed.

Lemma includes_elim (t s : string) :
  JS.includes t s = true ->
  exists pre post, s = pre +:+ t +:+ post.
Proof.
  induction s as [|c s IH]; cbn [JS.includes]; intros H.
  - rewrite orb_false_r in H. apply prefix_inv in H as [rest ->].
    exists EmptyString, rest. reflexivity.
  - apply orb_true_iff in H as [H|H].
    + apply prefix_inv in H as [rest ->]. exists EmptyString, rest. reflexivity.
    + apply IH in H as (pre & post & ->). exists (String c pre), post. reflexivity.
Qed.

(** ** [trim] *)

Section Trim.
Import Text.

Lemma trim_start_split (s : list ascii) :
  exists sp, s = sp ++ trim_start s /\ Forall (fun c => Regex.is_space c = true) sp.
Proof.
  induction s as [|c s (sp & IH & Hsp)]; simpl.
  - exists []. split; [reflexivity | constructor].
  - destruct (Regex.is_space c) eqn:E.
    + exists (c :: sp). split; [simpl; congruence | by constructor].
    + exists []. split; [reflexivity | constructor].
Qed.

Lemma trim_start_head (s : list ascii) (c : ascii) (t : list ascii) :
  trim_start s = c :: t -> Regex.is_space c = false.
Proof.
  induction s as [|x s IH]; simpl; [discriminate|].
  destruct (Regex.is_space x) eqn:E; [exact IH|]. intros [= <- <-]. exact E.
Qed.

Lemma trim_end_split (s : list ascii) :
  exists sp, s = trim_end s ++ sp.
Proof.
  unfold trim_end. destruct (trim_start_split (rev s)) as (sp & H & _).
  exists (rev sp). rewrite <- rev_app_distr, <- H, rev_involutive. reflexivity.
Qed.

Lemma trim_units_split (s : list ascii) :
  exists a b, s = a ++ trim_units s ++ b.
Proof.
  unfold trim_units. destruct (trim_start_split s) as (a & Ha & _).
  destruct (trim_end_split (trim_start s)) as (b & Hb).
  exists a, b. rewrite <- Hb. exact Ha.
Qed.

Lemma last_is_head_of_rev (t : list ascii) (c y : ascii) (r : list ascii) :
  rev (c :: t) = y :: r -> List.last t c = y.
Proof.
  destruct t as [|z t] using rev_ind.
  - simpl. intros [= <- _]. reflexivity.
  - simpl. rewrite rev_app_distr. simpl. intros [= <- _]. apply last_last.
Qed.

Lemma trim_units_ends (s : list ascii) (c : ascii) (t : list ascii) :
  trim_units s = c :: t ->
  Regex.is_space c = false /\ Regex.is_space (List.last t c) = false.
Proof.
  unfold trim_units. intros H. split.
  - destruct (trim_end_split (trim_start s)) as (b & Hb). rewrite H in Hb.
    simpl in Hb. apply (trim_start_head s c (t ++ b)). exact Hb.
  - unfold trim_end in H.
    assert (Hr : trim_start (rev (trim_start s)) = rev (c :: t))
      by (rewrite <- H, rev_involutive; reflexivity).
    destruct (rev (c :: t)) as [|y r] eqn:Er.
    + apply (f_equal (@length ascii)) in Er. rewrite length_rev in Er. discriminate.
    + apply trim_start_head in Hr. apply last_is_head_of_rev in Er. rewrite Er. exact Hr.
Qed.

(** A trimmed text has no white space at either end. *)
Lemma trim_trimmed (s : string) : Shape.trimmed (trim s) = true.
Proof.
  unfold Shape.trimmed, trim. rewrite list_ascii_of_string_of_list_ascii.
  destruct (trim_units (list_ascii_of_string s)) as [|c t] eqn:E; [reflexivity|].
  apply trim_units_ends in E as [-> ->]. reflexivity.
Qed.

(** Trimming keeps a text free of what it was free of. *)
Lemma trim_keeps (P : ascii -> Prop) (s : list ascii) :
  Forall P s -> Forall P (trim_units s).
Proof.
  intros H. destruct (trim_units_split s) as (a & b & Hs). rewrite Hs in H.
  apply Forall_app in H as [_ H]. apply Forall_app in H as [H _]. exact H.
Qed.

End Trim.

(** ** The extractors of the page *)

Section Extractors.
Import Regex Language Capture.

Lemma member_of_chars (x : ascii) (bad : string) :
  existsb (in_item x) (chars bad) = existsb (Ascii.eqb x) (list_ascii_of_string bad).
Proof.
  unfold chars. induction (list_ascii_of_string bad) as [|c l IH]; simpl; [reflexivity|].
  by rewrite IH.
Qed.

(** A run of characters outside a set holds none of the set. *)
Lemma none_of_excludes (ci : bool) (bad : string) (w : list ascii) :
  Matches ci (star (none_of bad)) w ->
  forallb (fun c => negb (existsb (Ascii.eqb c) (list_ascii_of_string bad))) w = true.
Proof.
  intros H. apply matches_may_hold in H. apply forallb_forall. intros x Hx.
  rewrite List.Forall_forall in H. specialize (H x Hx). simpl in H.
  unfold in_items in H. rewrite member_of_chars in H.
  destruct (existsb (Ascii.eqb x) (list_ascii_of_string bad)); [discriminate H | reflexivity].
Qed.

Lemma trimmed_group_clean (p : grouped) (bad html : string) :
  group p = star (none_of bad) ->
  Shape.clean bad (Extract2.trimmed_group p html) = true.
Proof.
  intros Hg. unfold Extract2.trimmed_group, group1.
  destruct (group_search p (list_ascii_of_string html)) as [g|] eqn:E; [|reflexivity].
  apply group_search_sound in E as (pre & w0 & w2 & rest & _ & _ & Hm & _).
  rewrite Hg in Hm. apply none_of_excludes in Hm.
  cbn [Shape.clean]. rewrite trim_trimmed. cbn [andb].
  unfold Shape.free_of, Text.trim. rewrite !list_ascii_of_string_of_list_ascii.
  apply forallb_forall. rewrite forallb_forall in Hm.
  apply List.Forall_forall. apply trim_keeps. apply List.Forall_forall. exact Hm.
Qed.

End Extractors.

(** X6: every meta tag that [extractMetaTags] reports has no white space
    at either end; the title holds no [<], and the description, the
    Open Graph title and description, the canonical URL and the robots
    directive hold no quote of either kind (a content with a quote in
    it is cut at that quote). *)
Theorem meta_tags_are_clean (html : string) :
  let tags := Extract2.extractMetaTags html in
  let quotes := JS.dq +:+ "'" in
  Shape.clean "<" (title tags) = true
  /\ Shape.clean quotes (description tags) = true
  /\ Shape.clean quotes (ogTitle tags) = true
  /\ Shape.clean quotes (ogDescription tags) = true
  /\ Shape.clean quotes (canonical tags) = true
  /\ Shape.clean quotes (robots tags) = true.
Proof.
  cbv zeta. unfold Extract2.extractMetaTags.
  cbn [title description ogTitle ogDescription canonical robots].
  split; [apply trimmed_group_clean; reflexivity |].
  split; [apply trimmed_group_clean; reflexivity |].
  split; [apply trimmed_group_clean; reflexivity |].
  split; [apply trimmed_group_clean; reflexivity |].
  split; apply trimmed_group_clean; reflexivity.
Qed.

Lemma heading_texts_never_blank (tag html : string) :
  forallb (fun e => JS.truthy e && Shape.trimmed e) (Extract2.heading_texts tag html) = true.
Proof.
  unfold Extract2.heading_texts. apply forallb_forall. intros e He.
  apply List.filter_In in He as [He Ht]. rewrite Ht. cbn [andb].
  apply List.in_map_iff in He as (h & <- & _). apply trim_trimmed.
Qed.

(** X7: no heading that [extractHeadings] lists is empty or blank, and
    none has white space at either end, so that the number of entries
    under [h1] counts headings with a text. *)
Theorem headings_are_never_blank (html : string) :
  let hs := Extract2.extractHeadings html in
  forallb (fun e => JS.truthy e && Shape.trimmed e) (h1 hs ++ h2 hs ++ h3 hs) = true.
Proof.
  cbv zeta. unfold Extract2.extractHeadings. cbn [h1 h2 h3].
  rewrite !forallb_app, !heading_texts_never_blank. reflexivity.
Qed.

Section Phone.
Import Regex Language Capture.

Lemma phone_units (x : ascii) :
  may_hold false Extract2.phone_body x = true -> Shape.phone_unit x = true.
Proof.
  destruct x as [[] [] [] [] [] [] [] []]; vm_compute; intros H;
    first [reflexivity | discriminate H].
Qed.

Lemma first_match_sound (p : regex) (s m : string) :
  first_match p s = Some m ->
  exists pre rest,
    list_ascii_of_string s = pre ++ list_ascii_of_string m ++ rest
    /\ Matches (flag_i p) (body p) (list_ascii_of_string m).
Proof.
  unfold first_match.
  destruct (search (flag_i p) (body p) (list_ascii_of_string s)) as [[[pre w] rest]|] eqn:E;
    [|discriminate].
  intros [= <-]. apply search_sound in E as [E Hm].
  exists pre, rest. rewrite list_ascii_of_string_of_list_ascii. auto.
Qed.

Lemma all_units_complete (x : ascii) : In x Shape.all_units.
Proof.
  unfold Shape.all_units. rewrite <- (ascii_nat_embedding x).
  apply List.in_map. apply List.in_seq. pose proof (nat_ascii_bounded x). lia.
Qed.

(** A pattern without letters matches the same texts under the [i]
    flag. *)
Lemma case_blind_matches (r : re) (w : list ascii) :
  Matches true r w -> Shape.case_blind r = true -> Matches false r w.
Proof.
  induction 1 as [|c x Hx|x Hx|neg items x Hx|a b w1 w2 _ IH1 _ IH2|a b w _ IH|a b w _ IH
                 |g a|g a w1 w2 _ IH1 _ IH2]; cbn [Shape.case_blind]; intros Hb.
  - constructor.
  - constructor. rewrite forallb_forall in Hb.
    specialize (Hb x (all_units_complete x)). apply eqb_prop in Hb. congruence.
  - constructor. exact Hx.
  - constructor. rewrite forallb_forall in Hb.
    specialize (Hb x (all_units_complete x)). apply eqb_prop in Hb. congruence.
  - apply andb_true_iff in Hb as [Ha Hb]. constructor; auto.
  - apply andb_true_iff in Hb as [Ha Hb]. apply MAltL. auto.
  - apply andb_true_iff in Hb as [Ha Hb]. apply MAltR. auto.
  - constructor.
  - constructor; auto.
Qed.

Lemma matches_cat (ci : bool) (a b : re) (w : list ascii) :
  Matches ci (Cat a b) w ->
  exists w1 w2, w = w1 ++ w2 /\ Matches ci a w1 /\ Matches ci b w2.
Proof. inversion 1; subst. eauto. Qed.

End Phone.

(** X8: a telephone number that [extractLocalBusinessInfo] reports is a
    part of the page, has between 10 and 17 characters, and is made of
    digits, white space and the characters [+-.()] only. *)
Theorem phone_shape (html p : string) :
  phone (Extract2.extractLocalBusinessInfo html) = Some p ->
  JS.includes p html = true
  /\ (10 <= String.length p <= 17)%nat
  /\ forallb Shape.phone_unit (list_ascii_of_string p) = true.
Proof.
  unfold Extract2.extractLocalBusinessInfo. cbn [phone]. intros H.
  apply first_match_sound in H as (pre & rest & Hs & Hm).
  cbn [Regex.flag_i Regex.body Extract2.phone_pattern Regex.rs] in Hm.
  split; [eapply includes_intro; exact Hs |].
  split.
  - rewrite <- length_units. split.
    + apply (matches_min_length _ _ _ Hm).
    + apply (matches_max_length _ _ _ Hm). reflexivity.
  - apply forallb_forall. intros x Hx.
    apply matches_may_hold in Hm. rewrite List.Forall_forall in Hm.
    apply phone_units. apply Hm. exact Hx.
Qed.

Lemma phone_shape_witness :
  phone (Extract2.extractLocalBusinessInfo Cases.header_page) = Some " (512) 555-1234"
  /\ JS.includes " (512) 555-1234" Cases.header_page = true
  /\ (10 <= String.length " (512) 555-1234" <= 17)%nat
  /\ forallb Shape.phone_unit (list_ascii_of_string " (512) 555-1234") = true.
Proof.
  split; [vm_compute; reflexivity |].
  apply (phone_shape Cases.header_page " (512) 555-1234"). vm_compute. reflexivity.
Defined.

(** X9: when [extractContactInfo] finds a telephone number in the
    header of the page, [extractLocalBusinessInfo] reports a telephone
    number for the page. *)
Theorem header_phone_is_reported (html : string) :
  hasPhoneInHeader (Extract2.extractContactInfo html) = true ->
  exists p, phone (Extract2.extractLocalBusinessInfo html) = Some p /\ JS.truthy p = true.
Proof.
  unfold Extract2.extractContactInfo, Extract2.extractLocalBusinessInfo.
  cbn [hasPhoneInHeader phone]. intros H.
  apply test_spec in H as (pre & w & post & Hs & Hm).
  cbn [Regex.flag_i Regex.body Extract2.header_phone_pattern Regex.ri Regex.seq fold_right] in Hm.
  apply matches_cat in Hm as (w1 & r1 & -> & _ & Hm).
  apply matches_cat in Hm as (w2 & r2 & -> & _ & Hm).
  apply matches_cat in Hm as (w3 & r3 & -> & _ & Hm).
  apply matches_cat in Hm as (w4 & r4 & -> & _ & Hm).
  apply matches_cat in Hm as (w5 & r5 & -> & Hm & _).
  apply case_blind_matches in Hm; [|vm_compute; reflexivity].
  assert (Hf : Regex.search false Extract2.phone_body (list_ascii_of_string html) <> None).
  { rewrite Hs. apply search_found.
    exists (pre ++ w1 ++ w2 ++ w3 ++ w4), w5, (r5 ++ post).
    split; [|exact Hm]. rewrite <- !app_assoc. reflexivity. }
  destruct (Capture.first_match Extract2.phone_pattern html) as [p|] eqn:E.
  - exists p. split; [reflexivity|].
    apply first_match_sound in E as (_ & _ & _ & Hp).
    apply matches_min_length in Hp.
    destruct p; [simpl in Hp; vm_compute in Hp; lia | reflexivity].
  - exfalso. unfold Capture.first_match in E.
    cbn [Regex.flag_i Regex.body Extract2.phone_pattern Regex.rs] in E.
    destruct (Regex.search false Extract2.phone_body (list_ascii_of_string html))
      as [[[a b] c]|]; [discriminate E | apply Hf; reflexivity].
Qed.

Lemma header_phone_is_reported_witness :
  hasPhoneInHeader (Extract2.extractContactInfo Cases.header_page) = true
  /\ exists p, phone (Extract2.extractLocalBusinessInfo Cases.header_page) = Some p
               /\ JS.truthy p = true.
Proof.
  split; [vm_compute; reflexivity |].
  apply (header_phone_is_reported Cases.header_page). vm_compute. reflexivity.
Defined.

(** ** Performance metrics and insights *)

Lemma display_spec (a : gmap string (option string)) (name : string) :
  JS.truthy (Metrics.display a name) = true
  /\ (forall shown,
        a !! name = Some (Some shown) -> JS.truthy shown = true ->
        Metrics.display a name = shown)
  /\ ((forall shown, a !! name = Some (Some shown) -> JS.truthy shown = false) ->
      Metrics.display a name = "N/A").
Proof.
  unfold Metrics.display. destruct (a !! name) as [[[|c s]|]|]; cbn [JS.truthy].
  - split; [reflexivity |]. split; [| reflexivity]. intros shown [= <-]. discriminate.
  - split; [reflexivity |]. split.
    + intros shown [= <-] _. reflexivity.
    + intros H. specialize (H (String c s) eq_refl). discriminate H.
  - split; [reflexivity |]. split; [| reflexivity]. intros shown [=].
  - split; [reflexivity |]. split; [| reflexivity]. intros shown [=].
Qed.

(** X12: each of the six metrics that [extractPerformanceMetrics]
    returns is a text that is not empty: it is the display value of its
    audit when the report has the audit with a display value that is
    not empty, and [N/A] in every other case. *)
Theorem performance_metrics_are_never_empty (audits : option (gmap string (option string))) :
  let m := Metrics.extractPerformanceMetrics audits in
  Forall (fun '(v, name) =>
            JS.truthy v = true
            /\ (forall a shown,
                  audits = Some a -> a !! name = Some (Some shown) ->
                  JS.truthy shown = true -> v = shown)
            /\ ((forall a shown,
                   audits = Some a -> a !! name = Some (Some shown) ->
                   JS.truthy shown = false) ->
                v = "N/A"))
         [(Metrics.firstContentfulPaint m, "first-contentful-paint");
          (Metrics.largestContentfulPaint m, "largest-contentful-paint");
          (Metrics.totalBlockingTime m, "total-blocking-time");
          (Metrics.cumulativeLayoutShift m, "cumulative-layout-shift");
          (Metrics.speedIndex m, "speed-index");
          (Metrics.timeToInteractive m, "interactive")].
Proof.
  cbv zeta. destruct audits as [a|]; cbn [Metrics.extractPerformanceMetrics
    Metrics.firstContentfulPaint Metrics.largestContentfulPaint Metrics.totalBlockingTime
    Metrics.cumulativeLayoutShift Metrics.speedIndex Metrics.timeToInteractive].
  - assert (Hm : forall name,
      JS.truthy (Metrics.display a name) = true
      /\ (forall a0 shown,
            Some a = Some a0 -> a0 !! name = Some (Some shown) ->
            JS.truthy shown = true -> Metrics.display a name = shown)
      /\ ((forall a0 shown,
             Some a = Some a0 -> a0 !! name = Some (Some shown) ->
             JS.truthy shown = false) ->
          Metrics.display a name = "N/A")).
    { intros name. destruct (display_spec a name) as (H1 & H2 & H3).
      split; [exact H1 |]. split.
      - intros a0 shown [= <-]. apply H2.
      - intros H. apply H3. intros shown. apply H. reflexivity. }
    apply Forall_cons_2; [apply Hm |]. apply Forall_cons_2; [apply Hm |].
    apply Forall_cons_2; [apply Hm |]. apply Forall_cons_2; [apply Hm |].
    apply Forall_cons_2; [apply Hm |]. apply Forall_cons_2; [apply Hm |].
    apply Forall_nil_2.
  - assert (Hn : forall name : string,
      JS.truthy "N/A" = true
      /\ (forall (a0 : gmap string (option string)) shown,
            @None (gmap string (option string)) = Some a0 ->
            a0 !! name = Some (Some shown) ->
            JS.truthy shown = true -> "N/A" = shown)
      /\ ((forall (a0 : gmap string (option string)) shown,
             @None (gmap string (option string)) = Some a0 ->
             a0 !! name = Some (Some shown) ->
             JS.truthy shown = false) ->
          "N/A" = "N/A")).
    { intros name. split; [reflexivity |]. split; [intros a0 shown [=] | reflexivity]. }
    apply Forall_cons_2; [apply Hn |]. apply Forall_cons_2; [apply Hn |].
    apply Forall_cons_2; [apply Hn |]. apply Forall_cons_2; [apply Hn |].
    apply Forall_cons_2; [apply Hn |]. apply Forall_cons_2; [apply Hn |].
    apply Forall_nil_2.
Qed.

(** X13: the fallback insights list an issue and a quick win for each of
    three findings (slow mobile page, no chatbot, weak AI search) and
    for nothing else: the two lists have the same length, at most
    three, the cut to four entries never drops one, and they are empty
    exactly when the mobile score and the AEO score are at least 50 and
    a chatbot was detected. *)
Theorem default_insights_are_paired (data : Insights.InsightData) :
  let d := Insights.getDefaultInsights data in
  Insights.topIssues d = Insights.issues data
  /\ Insights.quickWins d = Insights.wins data
  /\ length (Insights.topIssues d) = length (Insights.quickWins d)
  /\ (length (Insights.topIssues d) <= 3)%nat
  /\ (Insights.topIssues d = []
      <-> 50 <= Insights.mobileScore data /\ Insights.chatbot_detected data = true
          /\ 50 <= aeo_score (Insights.aeoGeoAnalysis data)).
Proof.
  cbv zeta. unfold Insights.getDefaultInsights.
  cbn [Insights.topIssues Insights.quickWins].
  unfold Insights.issues, Insights.wins, Insights.slow_mobile, Insights.no_chatbot,
    Insights.weak_ai_search.
  destruct (Z.ltb_spec (Insights.mobileScore data) 50);
    destruct (Insights.chatbot_detected data);
    destruct (Z.ltb_spec (aeo_score (Insights.aeoGeoAnalysis data)) 50);
    cbn [negb app take length];
    (split; [reflexivity |]); (split; [reflexivity |]); (split; [reflexivity |]);
    (split; [lia |]); split; try discriminate; try (intros (? & ? & ?); first [lia | discriminate]);
    intros _; auto.
Qed.

(** X14: the fallback insights agree with the AEO/GEO scorer whose
    result they are given: they say that ChatGPT would likely mention
    the business exactly when the scorer would recommend it, and they
    list the AI search issue exactly when the scorer predicts a low
    likelihood. *)
Theorem default_recommendation_follows_scorer (d : WebsiteData)
    (industry city companyName : string) (data : Insights.InsightData) (c : LLMContext) :
  Insights.aeoGeoAnalysis data = analyzeAEOGEO d industry city companyName ->
  llmContext (analyzeAEOGEO d industry city companyName) = Some c ->
  Insights.llmRecommendation (Insights.getDefaultInsights data)
  = (if wouldRecommend c then Insights.likely_mention data else Insights.may_struggle data)
  /\ (Insights.weak_ai_search data = true
      <-> prediction c = "LOW likelihood - significant improvements needed for AI visibility").
Proof.
  intros Ha. unfold Insights.getDefaultInsights, Insights.weak_ai_search.
  cbn [Insights.llmRecommendation]. rewrite Ha. unfold analyzeAEOGEO.
  destruct (has_error d); cbv zeta; cbn [llmContext aeo_score]; [discriminate |].
  pose proof (aeo_total_range d industry city companyName) as Ht.
  set (t := total (run_steps aeo_initial (aeo_steps d industry city companyName))) in *.
  intros [= <-]. unfold llm_context. cbn [wouldRecommend prediction].
  replace (clamp t) with t by (unfold clamp; lia).
  split; [reflexivity |].
  destruct (Z.ltb_spec t 50), (Z.leb_spec 70 t), (Z.leb_spec 50 t); try lia;
    split; try discriminate; reflexivity.
Qed.

Lemma default_recommendation_follows_scorer_witness :
  exists data c,
    Cases.insight_data 72 = Some data
    /\ llmContext (analyzeAEOGEO Sample.organization_data "Plumbing" "Austin" "Acme Plumbing")
       = Some c
    /\ Insights.llmRecommendation (Insights.getDefaultInsights data)
       = (if wouldRecommend c then Insights.likely_mention data
          else Insights.may_struggle data)
    /\ (Insights.weak_ai_search data = true
        <-> prediction c
            = "LOW likelihood - significant improvements needed for AI visibility").
Proof.
  eexists _, _. split; [vm_compute; reflexivity |]. split; [vm_compute; reflexivity |].
  eapply (default_recommendation_follows_scorer Sample.organization_data "Plumbing" "Austin"
            "Acme Plumbing").
  - reflexivity.
  - vm_compute. reflexivity.
Defined.

(** ** The leftmost match, and the greedy star over every character *)

Section Leftmost.
Import Regex Language.
Variable ci : bool.

(** No match starts before the one that [search] returns. *)
Lemma search_leftmost (r : re) : forall s pre m rest,
  search ci r s = Some (pre, m, rest) ->
  forall p1 p2, pre = p1 ++ p2 -> p2 <> [] -> match_here ci r (p2 ++ m ++ rest) = None.
Proof.
  induction s as [|x s IH]; intros pre m rest H p1 p2 Hp Hn.
  - simpl in H. destruct (match_here ci r []) as [[m' rest']|]; [|discriminate].
    injection H as <- <- <-. destruct p1, p2; try discriminate. contradiction.
  - simpl in H. destruct (match_here ci r (x :: s)) as [[m' rest']|] eqn:E.
    + injection H as <- <- <-. destruct p1, p2; try discriminate. contradiction.
    + destruct (search ci r s) as [[[pre' m'] rest']|] eqn:E'; [|discriminate].
      injection H as <- <- <-.
      pose proof (search_sound ci r s _ _ _ E') as [Hs _].
      destruct p1 as [|y p1].
      * simpl in Hp. subst p2. simpl. rewrite <- Hs. exact E.
      * injection Hp as <- ->. eapply IH; [reflexivity | reflexivity | exact Hn].
Qed.

Lemma any_accepts (x : ascii) : xorb true (in_items ci x []) = true.
Proof. unfold in_items. by destruct ci. Qed.

Lemma any_matches_all (g : bool) (w : list ascii) : Matches ci (Star g any) w.
Proof.
  induction w as [|x w IH]; [constructor|].
  change (x :: w) with ([x] ++ w). constructor; [|exact IH].
  constructor. apply any_accepts.
Qed.

(** The greedy star over every character gives the continuation the
    shortest rest that it accepts. *)
Lemma greedy_any_is_longest (k : cont) : forall n s out,
  (length s <= n)%nat ->
  iterate ci true any k n s = Some out ->
  exists w s', s = w ++ s' /\ k s' = Some out
               /\ forall w2 s2, s' = w2 ++ s2 -> w2 <> [] -> k s2 = None.
Proof.
  induction n as [|n IH]; intros s out Hn H.
  - destruct s; [|simpl in Hn; lia]. simpl in H.
    exists [], []. split; [reflexivity|]. split; [exact H|].
    intros w2 s2 Hs Hw. destruct w2; [contradiction | discriminate].
  - cbn [iterate] in H. destruct s as [|x s].
    + simpl in H. exists [], []. split; [reflexivity|]. split; [exact H|].
      intros w2 s2 Hs Hw. destruct w2; [contradiction | discriminate].
    + cbn [run any on_char] in H. rewrite any_accepts in H.
      replace (length s <? length (x :: s))%nat with true in H
        by (symmetry; apply Nat.ltb_lt; simpl; lia).
      destruct (iterate ci true any k n s) as [o|] eqn:E.
      * injection H as ->. apply IH in E as (w & s' & -> & Hk & Hlast); [|simpl in Hn; lia].
        exists (x :: w), s'. split; [reflexivity|]. split; [exact Hk | exact Hlast].
      * exists [], (x :: s). split; [reflexivity|]. split; [exact H|].
        intros w2 s2 Hs Hw.
        destruct (k s2) as [o|] eqn:Ek; [|reflexivity]. exfalso.
        destruct w2 as [|y w2]; [contradiction|]. injection Hs as -> ->.
        assert (Hc : iterate ci true any k n (w2 ++ s2) <> None).
        { apply iterate_complete.
          - intros w Hw' s' k' Hk'. apply run_complete; assumption.
          - apply any_matches_all.
          - rewrite Ek. discriminate.
          - simpl in Hn. lia. }
        apply Hc. exact E.
Qed.

End Leftmost.

Section Braces.
Import Regex Language Capture.

Lemma search_here (ci : bool) (r : re) : forall s pre m rest,
  search ci r s = Some (pre, m, rest) -> match_here ci r (m ++ rest) = Some (m, rest).
Proof.
  induction s as [|x s IH]; intros pre m rest H; simpl in H.
  - destruct (match_here ci r []) as [[m' rest']|] eqn:E; [|discriminate].
    injection H as <- <- <-. pose proof (match_here_sound ci r _ _ _ E) as [Hs _].
    rewrite <- Hs. exact E.
  - destruct (match_here ci r (x :: s)) as [[m' rest']|] eqn:E.
    + injection H as <- <- <-. pose proof (match_here_sound ci r _ _ _ E) as [Hs _].
      rewrite <- Hs. exact E.
    + destruct (search ci r s) as [[[pre' m'] rest']|] eqn:E'; [|discriminate].
      injection H as <- <- <-. eapply IH. reflexivity.
Qed.

Lemma includes_unit_false (c : ascii) (l : list ascii) :
  ~ In c l -> JS.includes (String c EmptyString) (string_of_list_ascii l) = false.
Proof.
  induction l as [|x l IH]; intros Hn; [reflexivity|].
  cbn [string_of_list_ascii JS.includes String.prefix].
  destruct (ascii_dec c x) as [->|Hc]; [exfalso; apply Hn; left; reflexivity|].
  cbn [orb]. apply IH. intros Hin. apply Hn. right. exact Hin.
Qed.

(** The match of the braces pattern runs from the first opening brace
    of the text to its last closing brace. *)
Lemma braces_span (s pre m rest : list ascii) :
  search false (body Insights.braces) s = Some (pre, m, rest) ->
  exists mid, s = pre ++ "{"%char :: mid ++ "}"%char :: rest
              /\ m = "{"%char :: mid ++ ["}"%char]
              /\ ~ In "{"%char pre /\ ~ In "}"%char rest.
Proof.
  intros H. pose proof (search_sound _ _ _ _ _ _ H) as [Hs _].
  pose proof (search_leftmost _ _ _ _ _ _ H) as Hleft.
  apply search_here in H. unfold match_here in H.
  destruct (run false (body Insights.braces) (m ++ rest) Some) as [out|] eqn:E; [|discriminate].
  assert (out = rest) by congruence. subst out. clear H.
  cbn [body Insights.braces rs seq lit list_ascii_of_string fold_right run] in E.
  destruct (m ++ rest) as [|x s1] eqn:Em; [discriminate E|].
  cbn [on_char lit_match] in E.
  destruct (Ascii.eqb "{" x) eqn:Ex; [|discriminate E]. apply Ascii.eqb_eq in Ex. subst x.
  change (iterate false true any
            (fun s2 => on_char (lit_match false "}") s2 (fun s' => Some s'))
            (length s1) s1 = Some rest) in E.
  apply greedy_any_is_longest in E as (w & s' & -> & Hk & Hlast); [|lia].
  destruct s' as [|y s']; [discriminate Hk|]. cbn [on_char lit_match] in Hk.
  destruct (Ascii.eqb "}" y) eqn:Ey; [|discriminate Hk]. apply Ascii.eqb_eq in Ey. subst y.
  injection Hk as ->.
  assert (Hm : m = "{"%char :: w ++ ["}"%char]).
  { apply (app_inv_tail rest). rewrite Em. simpl. rewrite <- app_assoc. reflexivity. }
  exists w. split; [exact Hs |].
  split; [exact Hm |]. split.
  - intros Hin. apply List.in_split in Hin as (p1 & p2 & Hp).
    specialize (Hleft p1 ("{"%char :: p2) Hp ltac:(discriminate)).
    assert (Hc : match_here false (body Insights.braces)
                   (("{"%char :: (p2 ++ "{"%char :: w) ++ ["}"%char]) ++ rest) <> None).
    { apply match_here_complete.
      cbn [body Insights.braces rs seq lit list_ascii_of_string fold_right].
      change ("{"%char :: (p2 ++ "{"%char :: w) ++ ["}"%char])
        with (["{"%char] ++ ((p2 ++ "{"%char :: w) ++ ["}"%char])).
      constructor.
      - change ["{"%char] with (["{"%char] ++ []). constructor; [|constructor].
        constructor. reflexivity.
      - constructor; [apply any_matches_all |].
        change ["}"%char] with ((["}"%char] ++ []) ++ []).
        constructor; [|constructor]. constructor; [|constructor].
        constructor. reflexivity. }
    apply Hc. rewrite <- Hleft. f_equal. simpl.
    rewrite <- !app_assoc. simpl. reflexivity.
  - intros Hin. apply List.in_split in Hin as (a & b & ->).
    specialize (Hlast ("}"%char :: a) ("}"%char :: b) eq_refl ltac:(discriminate)).
    discriminate Hlast.
Qed.

End Braces.

(** X15: insights that come from the text generator are what
    [JSON.parse] makes of the part of its reply from the first opening
    brace to the last closing brace; the API key is set in that case. *)
Theorem model_insights_span_the_braces (JSON_parse : string -> option Json.json)
    (api_key : bool) (reply : option string) (data : Insights.InsightData) (v : Json.json) :
  Insights.generateAIInsights JSON_parse api_key reply data = Insights.FromModel v ->
  api_key = true
  /\ exists pre mid rest,
       reply = Some (pre +:+ "{" +:+ mid +:+ "}" +:+ rest)
       /\ JS.includes "{" pre = false /\ JS.includes "}" rest = false
       /\ JSON_parse ("{" +:+ mid +:+ "}") = Some v.
Proof.
  unfold Insights.generateAIInsights. destruct api_key; [|discriminate].
  cbn [negb]. destruct reply as [text|]; [|discriminate].
  unfold Capture.first_match. cbn [Regex.flag_i Insights.braces Regex.rs].
  destruct (Regex.search false _ (list_ascii_of_string text)) as [[[pre m] rest]|] eqn:E;
    [|discriminate].
  destruct (JSON_parse (string_of_list_ascii m)) as [v'|] eqn:Ev; [|discriminate].
  intros [= <-]. split; [reflexivity |].
  apply braces_span in E as (mid & Hs & Hm & Hpre & Hrest).
  exists (string_of_list_ascii pre), (string_of_list_ascii mid), (string_of_list_ascii rest).
  split; [|split; [apply includes_unit_false; exact Hpre |
           split; [apply includes_unit_false; exact Hrest |]]].
  - f_equal. rewrite <- (string_of_list_ascii_of_string text), Hs.
    rewrite text_of_app. simpl. rewrite text_of_app. reflexivity.
  - rewrite <- Ev, Hm. simpl. rewrite text_of_app. reflexivity.
Qed.

Lemma model_insights_span_the_braces_witness :
  exists v,
    Insights.generateAIInsights Json.parse true (Some (Cases.reply " Bye."))
      Cases.unreachable_data = Insights.FromModel v
    /\ exists pre mid rest,
         Some (Cases.reply " Bye.") = Some (pre +:+ "{" +:+ mid +:+ "}" +:+ rest)
         /\ JS.includes "{" pre = false /\ JS.includes "}" rest = false
         /\ Json.parse ("{" +:+ mid +:+ "}") = Some v.
Proof.
  eexists. split; [vm_compute; reflexivity |].
  eapply (model_insights_span_the_braces Json.parse true (Some (Cases.reply " Bye."))
            Cases.unreachable_data).
  vm_compute. reflexivity.
Defined.

(** ** Issues and points *)

(** The recommendations of a run are those of its steps. *)
Lemma recs_fold (steps : list Step) (t : Tally) :
  recommendations (fold_left commit steps t) = recommendations t ++ concat (map new_recs steps).
Proof.
  revert t. induction steps as [|s steps IH]; intros t; simpl.
  - by rewrite app_nil_r.
  - rewrite IH. simpl. by rewrite <- app_assoc.
Qed.

Lemma recs_run (initial : list (string * mark)) (steps : list Step) :
  recommendations (run_steps initial steps) = concat (map new_recs steps).
Proof. unfold run_steps. by rewrite recs_fold. Qed.

(** Case analysis on the tests of a step, those on numbers last. *)
Ltac split_tests :=
  cbv zeta;
  repeat match goal with
         | |- context [match ?x with _ => _ end] =>
             lazymatch x with
             | Z.leb _ _ => fail
             | Z.ltb _ _ => fail
             | Z.eqb _ _ => fail
             | entry _ => fail
             | _ => destruct x eqn:?
             end
         end.

Ltac eval_tests :=
  repeat match goal with
         | |- context [Z.leb ?a ?b] =>
             progress (let v := eval vm_compute in (Z.leb a b) in change (Z.leb a b) with v)
         | |- context [Z.ltb ?a ?b] =>
             progress (let v := eval vm_compute in (Z.ltb a b) in change (Z.ltb a b) with v)
         | |- context [Z.eqb ?a ?b] =>
             progress (let v := eval vm_compute in (Z.eqb a b) in change (Z.eqb a b) with v)
         end.

Ltac by_cost :=
  split_tests; eval_tests;
  cbn [award new_issues new_recs checked points score length]; lia.

Section Costs.
Variables (d : WebsiteData) (url industry city companyName : string).
Variable pageSpeedData : option PageSpeed.

Lemma chatbot_step_cost f : cost 20 (chatbot_step f) <= 30.
Proof. unfold cost, chatbot_step. by_cost. Qed.
Lemma voice_step_cost f : cost 20 (voice_step f) <= 25.
Proof. unfold cost, voice_step. by_cost. Qed.
Lemma calculator_step_cost f : cost 20 (calculator_step f) <= 25.
Proof. unfold cost, calculator_step. by_cost. Qed.
Lemma ai_schema_step_cost : cost 20 (ai_schema_step d) <= 20.
Proof. unfold cost, ai_schema_step. by_cost. Qed.

Lemma schemaCheck_cost : cost 8 (schemaCheck d industry city companyName) <= 20.
Proof. unfold cost, schemaCheck. by_cost. Qed.
Lemma faqCheck_cost : cost 8 (faqCheck d industry city) <= 15.
Proof. unfold cost, faqCheck. by_cost. Qed.
Lemma localCheck_cost : cost 8 (localCheck d city) <= 15.
Proof. unfold cost, localCheck. by_cost. Qed.
Lemma answersCheck_cost : cost 8 (answersCheck d industry city companyName) <= 20.
Proof. unfold cost, answersCheck. by_cost. Qed.
Lemma expertiseCheck_cost : cost 8 (expertiseCheck d city) <= 15.
Proof. unfold cost, expertiseCheck. by_cost. Qed.
Lemma structureCheck_cost : cost 8 (structureCheck d) <= 15.
Proof. unfold cost, structureCheck. by_cost. Qed.
End Costs.

Section MoreCosts.
Variables (d : WebsiteData) (url industry city companyName : string).
Variable pageSpeedData : option PageSpeed.

Lemma title_step_cost : cost 10 (title_step d) <= 15.
Proof. unfold cost, title_step. by_cost. Qed.
Lemma description_step_cost : cost 10 (description_step d) <= 15.
Proof. unfold cost, description_step. by_cost. Qed.
Lemma h1_step_cost : cost 10 (h1_step d) <= 15.
Proof. unfold cost, h1_step. by_cost. Qed.
Lemma seo_schema_step_cost : cost 10 (seo_schema_step d) <= 15.
Proof. unfold cost, seo_schema_step. by_cost. Qed.
Lemma https_step_cost : cost 10 (https_step d) <= 10.
Proof. unfold cost, https_step. by_cost. Qed.
Lemma canonical_step_cost : cost 10 (canonical_step d) <= 10.
Proof. unfold cost, canonical_step. by_cost. Qed.
Lemma mobile_step_cost : cost 10 (mobile_step pageSpeedData) <= 10.
Proof. unfold cost, mobile_step. by_cost. Qed.
Lemma open_graph_step_cost : cost 10 (open_graph_step d) <= 10.
Proof. unfold cost, open_graph_step. by_cost. Qed.

Lemma sec_https_step_cost : cost 15 (sec_https_step url) <= 40.
Proof. unfold cost, sec_https_step. by_cost. Qed.

Lemma alt_text_step_cost : cost 5 (alt_text_step d) <= 15.
Proof. unfold cost, alt_text_step. by_cost. Qed.
Lemma heading_step_cost : cost 5 (heading_step d) <= 10.
Proof. unfold cost, heading_step. by_cost. Qed.
Lemma form_label_step_cost : cost 5 (form_label_step d) <= 10.
Proof. unfold cost, form_label_step. by_cost. Qed.
Lemma skip_link_step_cost : cost 5 (skip_link_step d) <= 5.
Proof. unfold cost, skip_link_step. by_cost. Qed.
Lemma landmark_step_cost : cost 5 (landmark_step d) <= 5.
Proof. unfold cost, landmark_step. by_cost. Qed.
Lemma contrast_step_cost : cost 5 (contrast_step d) <= 5.
Proof. unfold cost, contrast_step. by_cost. Qed.
Lemma focus_step_cost : cost 5 (focus_step d) <= 5.
Proof. unfold cost, focus_step. by_cost. Qed.
Lemma lang_step_cost : cost 5 (lang_step d) <= 5.
Proof. unfold cost, lang_step. by_cost. Qed.
End MoreCosts.

Lemma run_cost (c : Z) (initial : list (string * mark)) (steps : list Step) :
  total (run_steps initial steps) + c * Z.of_nat (length (issues (run_steps initial steps)))
  = fold_right (fun s acc => cost c s + acc) 0 steps.
Proof.
  rewrite total_run, issues_run. unfold cost.
  induction steps as [|s steps IH]; cbn [fold_right map concat].
  - simpl. lia.
  - rewrite length_app. lia.
Qed.

Lemma header_steps_cost (d : WebsiteData) :
  fold_right (fun s acc => cost 15 s + acc) 0 (header_steps d) <= 60.
Proof.
  unfold header_steps, cost. destruct (headers d); cbn [fold_right]; by_cost.
Qed.

(** X16: as long as the accessibility sub-score of the performance
    lab, when it is a number, lies in [0,1], an issue stands for lost
    points in every scorer of the route: the score is at most 100 less
    20 for each issue of the AI readiness scorer, less 8 for each issue
    of the AEO/GEO scorer, less 10 for each SEO issue, less 15 for each
    security issue and less 5 for each accessibility issue.  The AEO/GEO
    scorer gives one recommendation for each of its issues.  The
    sub-score is read by the accessibility scorer alone. *)
Theorem issues_cost_points (d : WebsiteData) (url industry city companyName : string)
    (pageSpeedData : option PageSpeed) :
  unit_interval (accessibility_sub_score pageSpeedData) ->
  match analyzeAIReadiness d with
  | Some r => ai_score r + 20 * Z.of_nat (length (ai_issues r)) <= 100
  | None => True
  end
  /\ (let r := analyzeAEOGEO d industry city companyName in
      aeo_score r + 8 * Z.of_nat (length (aeo_issues r)) <= 100
      /\ length (aeo_issues r) = length (aeo_recommendations r))
  /\ (let r := analyzeSEO d pageSpeedData in
      seo_score r + 10 * Z.of_nat (length (seo_issues r)) <= 100)
  /\ (let r := analyzeSecurityHeaders url d in
      sec_score r + 15 * Z.of_nat (length (sec_issues r)) <= 100)
  /\ (let r := analyzeAccessibility d pageSpeedData in
      a11y_score r + 5 * Z.of_nat (length (a11y_issues r)) <= 100).
Proof.
  intros Hq. split; [|split; [|split; [|split]]].
  - unfold analyzeAIReadiness. destruct (has_error d); [simpl; lia |].
    destruct (hasChatbot d) as [c|], (hasVoiceAgent d) as [v|], (hasCalculator d) as [k|];
      try exact I.
    cbv zeta. cbn [ai_score ai_issues].
    set (f := {| chatbot := c; voiceAgent := v; calculator := k |}).
    pose proof (run_cost 20 [] [chatbot_step f; voice_step f; calculator_step f;
                                 ai_schema_step d]) as Hc.
    cbn [fold_right] in Hc.
    pose proof (chatbot_step_cost f). pose proof (voice_step_cost f).
    pose proof (calculator_step_cost f). pose proof (ai_schema_step_cost d).
    unfold clamp. lia.
  - cbv zeta. unfold analyzeAEOGEO. destruct (has_error d);
      cbn [aeo_score aeo_issues aeo_recommendations]; [simpl; lia |].
    split.
    + pose proof (run_cost 8 aeo_initial (aeo_steps d industry city companyName)) as Hc.
      unfold aeo_steps in Hc at 3. cbn [fold_right] in Hc.
      pose proof (schemaCheck_cost d industry city companyName).
      pose proof (faqCheck_cost d industry city). pose proof (localCheck_cost d city).
      pose proof (answersCheck_cost d industry city companyName).
      pose proof (expertiseCheck_cost d city). pose proof (structureCheck_cost d).
      unfold clamp. lia.
    + rewrite issues_run, recs_run. unfold aeo_steps. cbn [map concat].
      rewrite !length_app.
      assert (H1 : length (new_issues (schemaCheck d industry city companyName))
                   = length (new_recs (schemaCheck d industry city companyName)))
        by (unfold schemaCheck; split_tests; reflexivity).
      assert (H2 : length (new_issues (faqCheck d industry city))
                   = length (new_recs (faqCheck d industry city)))
        by (unfold faqCheck; split_tests; reflexivity).
      assert (H3 : length (new_issues (localCheck d city))
                   = length (new_recs (localCheck d city)))
        by (unfold localCheck; split_tests; eval_tests; reflexivity).
      assert (H4 : length (new_issues (answersCheck d industry city companyName))
                   = length (new_recs (answersCheck d industry city companyName)))
        by (unfold answersCheck; split_tests; eval_tests; reflexivity).
      assert (H5 : length (new_issues (expertiseCheck d city))
                   = length (new_recs (expertiseCheck d city)))
        by (unfold expertiseCheck; split_tests; eval_tests; reflexivity).
      assert (H6 : length (new_issues (structureCheck d))
                   = length (new_recs (structureCheck d)))
        by (unfold structureCheck; split_tests; eval_tests; reflexivity).
      lia.
  - cbv zeta. unfold analyzeSEO. destruct (has_error d); cbn [seo_score seo_issues];
      [simpl; lia |].
    pose proof (run_cost 10 [] (seo_steps d pageSpeedData)) as Hc.
    unfold seo_steps in Hc at 3. cbn [fold_right] in Hc.
    pose proof (title_step_cost d). pose proof (description_step_cost d).
    pose proof (h1_step_cost d). pose proof (seo_schema_step_cost d).
    pose proof (https_step_cost d). pose proof (canonical_step_cost d).
    pose proof (mobile_step_cost pageSpeedData). pose proof (open_graph_step_cost d).
    unfold clamp. lia.
  - cbv zeta. unfold analyzeSecurityHeaders. cbv zeta. cbn [sec_score sec_issues].
    pose proof (run_cost 15 [] (sec_https_step url :: header_steps d)) as Hc.
    cbn [fold_right] in Hc.
    pose proof (sec_https_step_cost url). pose proof (header_steps_cost d).
    unfold clamp. lia.
  - cbv zeta. pose proof (lighthouse_step_range pageSpeedData Hq) as Hl.
    destruct (has_error d) eqn:He.
    + unfold analyzeAccessibility. rewrite He. cbv zeta. cbn [a11y_score a11y_issues].
      rewrite total_run. cbn [fold_right length]. lia.
    + destruct (accessibility_sections d pageSpeedData He) as [-> ->].
      rewrite lighthouse_step_no_issue. cbn [app]. rewrite !length_app.
      pose proof (alt_text_step_cost d). pose proof (heading_step_cost d).
      pose proof (form_label_step_cost d). pose proof (skip_link_step_cost d).
      pose proof (landmark_step_cost d). pose proof (contrast_step_cost d).
      pose proof (focus_step_cost d). pose proof (lang_step_cost d).
      unfold cost in *. unfold clamp. lia.
Qed.

Lemma issues_cost_points_witness :
  unit_interval (accessibility_sub_score (Sample.report (3 # 5) (9 # 10)))
  /\ (let r := analyzeSEO Sample.organization_data (Sample.report (3 # 5) (9 # 10)) in
      seo_score r + 10 * Z.of_nat (length (seo_issues r)) <= 100)
  /\ (let r := analyzeAccessibility Sample.organization_data (Sample.report (3 # 5) (9 # 10)) in
      a11y_score r + 5 * Z.of_nat (length (a11y_issues r)) <= 100).
Proof.
  assert (Hq : unit_interval (accessibility_sub_score (Sample.report (3 # 5) (9 # 10))))
    by (vm_compute; split; discriminate).
  split; [exact Hq |].
  destruct (issues_cost_points Sample.organization_data "https://acme.example" "Plumbing"
              "Austin" "Acme Plumbing" (Sample.report (3 # 5) (9 # 10)) Hq)
    as (_ & _ & Hseo & _ & Ha11y).
  split; [exact Hseo | exact Ha11y].
Defined.

(** ** A report without issues *)

(** The matches of a pattern in a text are none exactly when the test
    of the pattern on the text fails. *)
Lemma match_all_none (p : Regex.regex) (s : string) :
  Regex.match_all p s = [] <-> Regex.test p s = false.
Proof.
  unfold Regex.match_all, Regex.scan_all, Regex.test. cbn [Regex.scan].
  destruct (Regex.search _ _ _) as [[[pre m] rest]|]; simpl; split; try discriminate; done.
Qed.

Section Floors.
Variables (d : WebsiteData) (url industry city companyName : string).
Variable pageSpeedData : option PageSpeed.

Lemma chatbot_step_floor f : 30 <= cost 30 (chatbot_step f).
Proof. unfold cost, chatbot_step. by_cost. Qed.
Lemma voice_step_floor f : 25 <= cost 25 (voice_step f).
Proof. unfold cost, voice_step. by_cost. Qed.
Lemma calculator_step_floor f : 25 <= cost 25 (calculator_step f).
Proof. unfold cost, calculator_step. by_cost. Qed.
Lemma ai_schema_step_floor : 10 <= cost 10 (ai_schema_step d).
Proof. unfold cost, ai_schema_step. by_cost. Qed.

Lemma schemaCheck_floor : 10 <= cost 10 (schemaCheck d industry city companyName).
Proof. unfold cost, schemaCheck. by_cost. Qed.
Lemma faqCheck_floor : 10 <= cost 10 (faqCheck d industry city).
Proof. unfold cost, faqCheck. by_cost. Qed.
Lemma localCheck_floor : 10 <= cost 10 (localCheck d city).
Proof. unfold cost, localCheck. by_cost. Qed.
Lemma answersCheck_floor : 8 <= cost 8 (answersCheck d industry city companyName).
Proof. unfold cost, answersCheck. by_cost. Qed.
Lemma expertiseCheck_floor : 10 <= cost 10 (expertiseCheck d city).
Proof. unfold cost, expertiseCheck. by_cost. Qed.
Lemma structureCheck_floor : 8 <= cost 8 (structureCheck d).
Proof. unfold cost, structureCheck. by_cost. Qed.

Lemma title_step_floor : 10 <= cost 10 (title_step d).
Proof. unfold cost, title_step. by_cost. Qed.
Lemma description_step_floor : 10 <= cost 10 (description_step d).
Proof. unfold cost, description_step. by_cost. Qed.
Lemma h1_step_floor : 15 <= cost 15 (h1_step d).
Proof. unfold cost, h1_step. by_cost. Qed.
Lemma seo_schema_step_floor : 15 <= cost 15 (seo_schema_step d).
Proof. unfold cost, seo_schema_step. by_cost. Qed.
Lemma https_step_floor : 10 <= cost 10 (https_step d).
Proof. unfold cost, https_step. by_cost. Qed.
Lemma canonical_step_floor : 10 <= cost 10 (canonical_step d).
Proof. unfold cost, canonical_step. by_cost. Qed.
Lemma mobile_step_floor : 10 <= cost 10 (mobile_step pageSpeedData).
Proof. unfold cost, mobile_step. by_cost. Qed.
Lemma open_graph_step_floor : 10 <= cost 10 (open_graph_step d).
Proof. unfold cost, open_graph_step. by_cost. Qed.

Lemma sec_https_step_floor : 40 <= cost 40 (sec_https_step url).
Proof. unfold cost, sec_https_step. by_cost. Qed.
Lemma header_steps_floor :
  15 <= fold_right (fun s acc => cost 15 s + acc) 0 (header_steps d).
Proof. unfold header_steps, cost. destruct (headers d); cbn [fold_right]; by_cost. Qed.

Lemma alt_text_step_floor : 15 <= cost 15 (alt_text_step d).
Proof. unfold cost, alt_text_step. by_cost. Qed.
Lemma heading_step_floor : 10 <= cost 10 (heading_step d).
Proof.
  unfold cost, heading_step. cbv zeta.
  destruct (Regex.test Pat.h1_open (page d)) eqn:Et; cbn [andb].
  - destruct (bool_decide _) eqn:E1; [by_cost |].
    destruct (bool_decide (1 < _)%nat) eqn:E2; [by_cost |].
    exfalso. apply bool_decide_eq_false in E1, E2.
    assert (Hn : Regex.match_all Pat.h1_open (page d) = []).
    { destruct (Regex.match_all Pat.h1_open (page d)) as [|a [|b l]]; [reflexivity | |].
      - contradiction E1. reflexivity.
      - contradiction E2. simpl. lia. }
    apply match_all_none in Hn. congruence.
  - by_cost.
Qed.
Lemma form_label_step_floor : 10 <= cost 10 (form_label_step d).
Proof. unfold cost, form_label_step. by_cost. Qed.
Lemma skip_link_step_floor : 5 <= cost 5 (skip_link_step d).
Proof. unfold cost, skip_link_step. by_cost. Qed.
Lemma landmark_step_floor : 5 <= cost 5 (landmark_step d).
Proof. unfold cost, landmark_step. by_cost. Qed.
Lemma contrast_step_floor : 5 <= cost 5 (contrast_step d).
Proof. unfold cost, contrast_step. by_cost. Qed.
Lemma focus_step_floor : 5 <= cost 5 (focus_step d).
Proof. unfold cost, focus_step. by_cost. Qed.
Lemma lang_step_floor : 5 <= cost 5 (lang_step d).
Proof. unfold cost, lang_step. by_cost. Qed.
End Floors.

Lemma issues_length (initial : list (string * mark)) (steps : list Step) :
  Z.of_nat (length (issues (run_steps initial steps)))
  = fold_right (fun s acc => Z.of_nat (length (new_issues s)) + acc) 0 steps.
Proof.
  rewrite issues_run. induction steps as [|s steps IH]; cbn [fold_right map concat].
  - reflexivity.
  - rewrite length_app. lia.
Qed.

Lemma empty_or_not {A : Type} (l : list A) : l = [] \/ (0 < Z.of_nat (length l)).
Proof. destruct l; [left; reflexivity | right; simpl; lia]. Qed.

(** X17: for data without error marker, and as long as the
    accessibility sub-score of the performance lab, when it is a number,
    lies in [0,1], a result without issues has a floor under its score:
    90 for AI readiness and for SEO, 56 for AEO/GEO, 55 for security
    and 60 for accessibility.  The floor of the AEO/GEO scorer is below
    the 60 points from which it would recommend the site.  The
    sub-score is read by the accessibility scorer alone. *)
Theorem clean_report_floor (d : WebsiteData) (url industry city companyName : string)
    (pageSpeedData : option PageSpeed) :
  unit_interval (accessibility_sub_score pageSpeedData) ->
  has_error d = false ->
  match analyzeAIReadiness d with
  | Some r => ai_issues r <> [] \/ 90 <= ai_score r
  | None => True
  end
  /\ (let r := analyzeAEOGEO d industry city companyName in
      aeo_issues r <> [] \/ 56 <= aeo_score r)
  /\ (let r := analyzeSEO d pageSpeedData in seo_issues r <> [] \/ 90 <= seo_score r)
  /\ (let r := analyzeSecurityHeaders url d in sec_issues r <> [] \/ 55 <= sec_score r)
  /\ (let r := analyzeAccessibility d pageSpeedData in
      a11y_issues r <> [] \/ 60 <= a11y_score r).
Proof.
  intros Hq He. split; [|split; [|split; [|split]]].
  - unfold analyzeAIReadiness. rewrite He.
    destruct (hasChatbot d) as [c|], (hasVoiceAgent d) as [v|], (hasCalculator d) as [k|];
      try exact I.
    cbv zeta. cbn [ai_score ai_issues].
    set (f := {| chatbot := c; voiceAgent := v; calculator := k |}).
    set (steps := [chatbot_step f; voice_step f; calculator_step f; ai_schema_step d]).
    destruct (empty_or_not (issues (run_steps [] steps))) as [Hn|Hn].
    + right. pose proof (issues_length [] steps) as Hl. rewrite Hn in Hl.
      rewrite total_run. unfold steps in *. cbn [fold_right length] in *.
      pose proof (chatbot_step_floor f). pose proof (voice_step_floor f).
      pose proof (calculator_step_floor f). pose proof (ai_schema_step_floor d).
      pose proof (chatbot_step_range f). pose proof (voice_step_range f).
      pose proof (calculator_step_range f). pose proof (ai_schema_step_range d).
      unfold cost in *. unfold clamp. lia.
    + left. intros Hi. rewrite Hi in Hn. simpl in Hn. lia.
  - cbv zeta. unfold analyzeAEOGEO. rewrite He. cbv zeta. cbn [aeo_score aeo_issues].
    destruct (empty_or_not (issues (run_steps aeo_initial
                                      (aeo_steps d industry city companyName)))) as [Hn|Hn].
    + right. pose proof (issues_length aeo_initial (aeo_steps d industry city companyName)) as Hl.
      rewrite Hn in Hl. pose proof (aeo_total_range d industry city companyName) as Ht.
      rewrite total_run in *. unfold aeo_steps in *. cbn [fold_right length] in *.
      pose proof (schemaCheck_floor d industry city companyName).
      pose proof (faqCheck_floor d industry city). pose proof (localCheck_floor d city).
      pose proof (answersCheck_floor d industry city companyName).
      pose proof (expertiseCheck_floor d city). pose proof (structureCheck_floor d).
      unfold cost in *. unfold clamp. lia.
    + left. intros Hi. rewrite Hi in Hn. simpl in Hn. lia.
  - cbv zeta. unfold analyzeSEO. rewrite He. cbv zeta. cbn [seo_score seo_issues].
    destruct (empty_or_not (issues (run_steps [] (seo_steps d pageSpeedData)))) as [Hn|Hn].
    + right. pose proof (issues_length [] (seo_steps d pageSpeedData)) as Hl.
      rewrite Hn in Hl.
      rewrite total_run. unfold seo_steps in *. cbn [fold_right length] in *.
      pose proof (title_step_floor d). pose proof (description_step_floor d).
      pose proof (h1_step_floor d). pose proof (seo_schema_step_floor d).
      pose proof (https_step_floor d). pose proof (canonical_step_floor d).
      pose proof (mobile_step_floor pageSpeedData). pose proof (open_graph_step_floor d).
      pose proof (title_step_range d). pose proof (description_step_range d).
      pose proof (h1_step_range d). pose proof (seo_schema_step_range d).
      pose proof (https_step_range d). pose proof (canonical_step_range d).
      pose proof (mobile_step_range pageSpeedData). pose proof (open_graph_step_range d).
      unfold cost in *. unfold clamp. lia.
    + left. intros Hi. rewrite Hi in Hn. simpl in Hn. lia.
  - cbv zeta. unfold analyzeSecurityHeaders. cbv zeta. cbn [sec_score sec_issues].
    set (steps := sec_https_step url :: header_steps d).
    destruct (empty_or_not (issues (run_steps [] steps))) as [Hn|Hn].
    + right. pose proof (run_cost 15 [] steps) as Hc. rewrite Hn in Hc.
      pose proof (issues_length [] steps) as Hl. rewrite Hn in Hl.
      unfold steps in *. cbn [fold_right length] in *.
      pose proof (sec_https_step_floor url). pose proof (header_steps_floor d).
      pose proof (sec_https_step_range url). pose proof (header_steps_range d).
      assert (Hh : 0 <= fold_right (fun s acc => Z.of_nat (length (new_issues s)) + acc) 0
                          (header_steps d)).
      { generalize (header_steps d). intros l. induction l; cbn [fold_right]; lia. }
      unfold cost in *. unfold clamp. lia.
    + left. intros Hi. rewrite Hi in Hn. simpl in Hn. lia.
  - cbv zeta. destruct (accessibility_sections d pageSpeedData He) as [-> ->].
    rewrite lighthouse_step_no_issue. cbn [app].
    pose proof (lighthouse_step_range pageSpeedData Hq).
    pose proof (alt_text_step_floor d). pose proof (heading_step_floor d).
    pose proof (form_label_step_floor d). pose proof (skip_link_step_floor d).
    pose proof (landmark_step_floor d). pose proof (contrast_step_floor d).
    pose proof (focus_step_floor d). pose proof (lang_step_floor d).
    destruct (empty_or_not (new_issues (alt_text_step d) ++ new_issues (heading_step d)
      ++ new_issues (form_label_step d) ++ new_issues (skip_link_step d)
      ++ new_issues (landmark_step d) ++ new_issues (contrast_step d)
      ++ new_issues (focus_step d) ++ new_issues (lang_step d))) as [Hn|Hn].
    + right. apply (f_equal (@length string)) in Hn. rewrite !length_app in Hn.
      simpl in Hn. unfold cost in *. unfold clamp. lia.
    + left. intros Hi. rewrite Hi in Hn. simpl in Hn. lia.
Qed.

Lemma clean_report_floor_witness :
  unit_interval (accessibility_sub_score (Sample.report (3 # 5) (9 # 10)))
  /\ has_error Sample.organization_data = false
  /\ (let r := analyzeSEO Sample.organization_data (Sample.report (3 # 5) (9 # 10)) in
      seo_issues r <> [] \/ 90 <= seo_score r).
Proof.
  assert (Hq : unit_interval (accessibility_sub_score (Sample.report (3 # 5) (9 # 10))))
    by (vm_compute; split; discriminate).
  split; [exact Hq |]. split; [reflexivity |].
  destruct (clean_report_floor Sample.organization_data "https://acme.example" "Plumbing"
              "Austin" "Acme Plumbing" (Sample.report (3 # 5) (9 # 10)) Hq eq_refl)
    as (_ & _ & Hseo & _).
  exact Hseo.
Defined.

(** ** The detailed scorers of the later revision *)

Lemma filter_count {A : Type} (f : A -> bool) (l : list A) :
  Z.of_nat (length (List.filter f l)) = fold_right (fun c acc => Z.b2z (f c) + acc) 0 l.
Proof.
  induction l as [|c l IH]; [reflexivity|]. cbn [List.filter fold_right].
  destruct (f c); cbn [length Z.b2z]; lia.
Qed.

Lemma counted_checks (steps : list Step) :
  Forall (fun s => is_Some (entry s)) steps ->
  Z.of_nat (length (List.filter Revised.is_good (omap entry steps)))
  + Z.of_nat (length (List.filter Revised.is_missing_or_partial (omap entry steps)))
  = fold_right (fun s acc => counted s + acc) 0 steps.
Proof.
  rewrite !filter_count. induction 1 as [|s steps [c Hc] _ IH]; [reflexivity|].
  cbn [omap list_omap fold_right]. unfold counted at 1. rewrite Hc. cbn [fold_right].
  change (list_omap Step DetailedCheck entry steps) with (omap entry steps). lia.
Qed.

Lemma entries_length (steps : list Step) :
  Forall (fun s => is_Some (entry s)) steps -> length (omap entry steps) = length steps.
Proof.
  induction 1 as [|s steps [c Hc] _ IH]; [reflexivity|].
  cbn [omap list_omap]. rewrite Hc. cbn [length]. f_equal. exact IH.
Qed.

Ltac by_count :=
  split_tests; eval_tests;
  cbn [entry checked status Revised.is_good Revised.is_missing_or_partial Z.b2z];
  first [reflexivity | eexists; reflexivity].

Section Counted.
Variables (d : WebsiteData) (pageSpeedData : option PageSpeed).

Lemma titleCheck_counted : counted (Revised.titleCheck d) = 1.
Proof. unfold counted, Revised.titleCheck. by_count. Qed.
Lemma descCheck_counted : counted (Revised.descCheck d) = 1.
Proof. unfold counted, Revised.descCheck. by_count. Qed.
Lemma h1Check_counted : counted (Revised.h1Check d) = 1.
Proof. unfold counted, Revised.h1Check. by_count. Qed.
Lemma schemaCheck_counted : counted (Revised.schemaCheck d) = 1.
Proof. unfold counted, Revised.schemaCheck. by_count. Qed.
Lemma canonicalCheck_counted : counted (Revised.canonicalCheck d) = 1.
Proof. unfold counted, Revised.canonicalCheck. by_count. Qed.
Lemma ogCheck_counted : counted (Revised.ogCheck d) = 1.
Proof. unfold counted, Revised.ogCheck. by_count. Qed.
Lemma robotsCheck_counted :
  counted (Revised.robotsCheck d) = if Revised.noindex d then 0 else 1.
Proof. unfold counted, Revised.robotsCheck. destruct (Revised.noindex d); reflexivity. Qed.
Lemma mobileCheck_counted : counted (Revised.mobileCheck d pageSpeedData) = 1.
Proof. unfold counted, Revised.mobileCheck. by_count. Qed.
Lemma httpsCheck_counted : counted (Revised.httpsCheck d) = 1.
Proof. unfold counted, Revised.httpsCheck. by_count. Qed.
Lemma cwvCheck_counted : counted (Revised.cwvCheck pageSpeedData) = 1.
Proof. unfold counted, Revised.cwvCheck. by_count. Qed.

Lemma revised_seo_entries :
  Forall (fun s => is_Some (entry s)) (Revised.seo_steps d pageSpeedData).
Proof.
  unfold Revised.seo_steps.
  apply Forall_cons_2; [unfold Revised.titleCheck; by_count |].
  apply Forall_cons_2; [unfold Revised.descCheck; by_count |].
  apply Forall_cons_2; [unfold Revised.h1Check; by_count |].
  apply Forall_cons_2; [unfold Revised.schemaCheck; by_count |].
  apply Forall_cons_2; [unfold Revised.canonicalCheck; by_count |].
  apply Forall_cons_2; [unfold Revised.ogCheck; by_count |].
  apply Forall_cons_2; [unfold Revised.robotsCheck; by_count |].
  apply Forall_cons_2; [unfold Revised.mobileCheck; by_count |].
  apply Forall_cons_2; [unfold Revised.httpsCheck; by_count |].
  apply Forall_cons_2; [unfold Revised.cwvCheck; by_count |].
  apply Forall_nil_2.
Qed.
End Counted.

(** X18: the detailed SEO scorer of the later revision runs ten checks
    on a page that was fetched, and counts each of them as passed or as
    failed, but for the robots check of a page set to noindex, which is
    a warning and is counted as neither. *)
Theorem seo_checks_are_counted (d : WebsiteData) (pageSpeedData : option PageSpeed) :
  has_error d = false ->
  let r := Revised.analyzeSEO d pageSpeedData in
  length (Revised.seo_detailedChecks r) = 10%nat
  /\ exists passed failed,
       Revised.passedChecks r = Some passed /\ Revised.failedChecks r = Some failed
       /\ passed + failed = (if Revised.noindex d then 9 else 10).
Proof.
  intros He. cbv zeta. unfold Revised.analyzeSEO. rewrite He. cbv zeta.
  cbn [Revised.seo_detailedChecks Revised.passedChecks Revised.failedChecks].
  rewrite detailed_run. split.
  - rewrite entries_length by apply revised_seo_entries. reflexivity.
  - eexists _, _. split; [reflexivity |]. split; [reflexivity |].
    rewrite counted_checks by apply revised_seo_entries.
    unfold Revised.seo_steps. cbn [fold_right].
    rewrite titleCheck_counted, descCheck_counted, h1Check_counted, schemaCheck_counted,
      canonicalCheck_counted, ogCheck_counted, robotsCheck_counted, mobileCheck_counted,
      httpsCheck_counted, cwvCheck_counted.
    destruct (Revised.noindex d); reflexivity.
Qed.

Lemma seo_checks_are_counted_witness :
  has_error Sample.organization_data = false
  /\ exists passed failed,
       Revised.passedChecks (Revised.analyzeSEO Sample.organization_data None) = Some passed
       /\ Revised.failedChecks (Revised.analyzeSEO Sample.organization_data None) = Some failed
       /\ passed + failed = (if Revised.noindex Sample.organization_data then 9 else 10).
Proof.
  split; [reflexivity |].
  apply (seo_checks_are_counted Sample.organization_data None eq_refl).
Defined.

Section DetailedSecurity.
Variables (url : string) (d : WebsiteData).

Lemma detailed_security_total :
  total (run_steps [] (Revised.sec_steps url d))
  = award (Revised.sec_httpsCheck url) + award (Revised.hstsCheck d)
    + award (Revised.cspCheck d) + award (Revised.frameCheck d)
    + award (Revised.mimeCheck d) + award (Revised.referrerCheck d)
    + award (Revised.permissionsCheck d) + award (Revised.mixedContentCheck url d)
    + award (Revised.serverInfoCheck d).
Proof. rewrite total_run. unfold Revised.sec_steps. cbn [fold_right]. lia. Qed.

Lemma hstsCheck_range : 0 <= award (Revised.hstsCheck d) <= 15.
Proof. unfold Revised.hstsCheck. by_cases. Qed.
Lemma cspCheck_range : 0 <= award (Revised.cspCheck d) <= 15.
Proof. unfold Revised.cspCheck. by_cases. Qed.
Lemma frameCheck_range : 0 <= award (Revised.frameCheck d) <= 10.
Proof. unfold Revised.frameCheck. by_cases. Qed.
Lemma mimeCheck_range : 0 <= award (Revised.mimeCheck d) <= 10.
Proof. unfold Revised.mimeCheck. by_cases. Qed.
Lemma referrerCheck_range : 0 <= award (Revised.referrerCheck d) <= 5.
Proof. unfold Revised.referrerCheck. by_cases. Qed.
Lemma permissionsCheck_range : 0 <= award (Revised.permissionsCheck d) <= 5.
Proof. unfold Revised.permissionsCheck. by_cases. Qed.
Lemma serverInfoCheck_range : 2 <= award (Revised.serverInfoCheck d) <= 5.
Proof. unfold Revised.serverInfoCheck. by_cases. Qed.
End DetailedSecurity.

(** X19: in the detailed security scorer of the later revision, a URL
    that does not start with [https://] caps the score at 65: the grade
    is C, D or F, the summary is not the good one, and the issue about
    HTTPS is listed, whatever headers the site sends. *)
Theorem no_https_caps_detailed_security (url : string) (d : WebsiteData) :
  JS.startsWith "https://" url = false ->
  let r := Revised.analyzeSecurityHeaders url d in
  2 <= Revised.sec_score r <= 65
  /\ In (Revised.grade r) ["C"; "D"; "F"]
  /\ Revised.summary r <> "Good security posture with minor improvements possible."
  /\ In "Not using HTTPS - customer data is at risk" (Revised.sec_issues r).
Proof.
  intros Hs. cbv zeta. unfold Revised.analyzeSecurityHeaders. cbv zeta.
  cbn [Revised.sec_score Revised.grade Revised.summary Revised.sec_issues].
  assert (Ht : 2 <= total (run_steps [] (Revised.sec_steps url d)) <= 65).
  { rewrite detailed_security_total.
    pose proof (hstsCheck_range d). pose proof (cspCheck_range d).
    pose proof (frameCheck_range d). pose proof (mimeCheck_range d).
    pose proof (referrerCheck_range d). pose proof (permissionsCheck_range d).
    pose proof (serverInfoCheck_range d).
    unfold Revised.sec_httpsCheck, Revised.mixedContentCheck, Revised.https. rewrite Hs.
    cbn [award checked score]. lia. }
  set (t := total (run_steps [] (Revised.sec_steps url d))) in *.
  split; [unfold clamp; lia |]. split; [|split].
  - unfold Revised.securityGrade.
    destruct (Z.leb_spec 85 t); [lia |]. destruct (Z.leb_spec 70 t); [lia |].
    destruct (Z.leb_spec 55 t); [left; reflexivity |].
    destruct (Z.leb_spec 40 t); [right; left; reflexivity | right; right; left; reflexivity].
  - destruct (Z.leb_spec 70 t); [lia |]. destruct (50 <=? t); discriminate.
  - rewrite issues_run. unfold Revised.sec_steps. cbn [map concat].
    apply in_or_app. left. unfold Revised.sec_httpsCheck, Revised.https. rewrite Hs.
    left. reflexivity.
Qed.

Lemma no_https_caps_detailed_security_witness :
  JS.startsWith "https://" "http://acme.example" = false
  /\ 2 <= Revised.sec_score
            (Revised.analyzeSecurityHeaders "http://acme.example" Sample.organization_data)
       <= 65.
Proof.
  split; [reflexivity |].
  apply (no_https_caps_detailed_security "http://acme.example" Sample.organization_data eq_refl).
Defined.

(** X20: for a site that could not be fetched the detailed security
    scorer of the later revision gives no partial credit: the score is
    40 with grade D for an [https://] URL, and 5 with grade F for any
    other. *)
Theorem unreachable_site_detailed_security (JSON_parse : string -> option Json.json)
    (url message : string) :
  let r := Revised.analyzeSecurityHeaders url
             (Extract2.scrapeWebsiteData JSON_parse url (Extract2.Rejected message)) in
  Revised.sec_score r = (if JS.startsWith "https://" url then 40 else 5)
  /\ Revised.grade r = (if JS.startsWith "https://" url then "D" else "F").
Proof.
  cbv zeta. unfold Revised.analyzeSecurityHeaders. cbv zeta.
  cbn [Revised.sec_score Revised.grade]. rewrite detailed_security_total.
  cbn [Extract2.scrapeWebsiteData].
  unfold Revised.sec_httpsCheck, Revised.mixedContentCheck, Revised.https.
  destruct (JS.startsWith "https://" url); vm_compute; split; reflexivity.
Qed.

(** ** Detection and the content of the page *)

(** A pattern found in a text is found in every text that holds it. *)
Lemma test_monotone (p : Regex.regex) (a s b : string) :
  Regex.test p s = true -> Regex.test p (a +:+ s +:+ b) = true.
Proof.
  rewrite !test_spec. intros (pre & w & post & Hs & Hm).
  exists (list_ascii_of_string a ++ pre), w, (post ++ list_ascii_of_string b).
  split; [|exact Hm]. rewrite !units_of_append, Hs, <- !app_assoc. reflexivity.
Qed.

Lemma filter_sublist {A : Type} (f g : A -> bool) (l : list A) :
  (forall x, f x = true -> g x = true) -> sublist (List.filter f l) (List.filter g l).
Proof.
  intros H. induction l as [|x l IH]; [constructor|]. cbn [List.filter].
  destruct (f x) eqn:E.
  - rewrite (H x E). by constructor.
  - destruct (g x); [by constructor | exact IH].
Qed.

Lemma map_sublist {A B : Type} (f : A -> B) (l k : list A) :
  sublist l k -> sublist (map f l) (map f k).
Proof. induction 1; cbn [map]; by constructor. Qed.

Lemma matched_monotone (reg : Extract.registry) (a s b : string) :
  sublist (Extract.matched reg s) (Extract.matched reg (a +:+ s +:+ b)).
Proof.
  unfold Extract.matched. apply map_sublist. apply filter_sublist.
  intros x. apply test_monotone.
Qed.

Lemma sublist_nonempty {A : Type} (l k : list A) : sublist l k -> l <> [] -> k <> [].
Proof. intros H Hl ->. apply sublist_nil_r in H. contradiction. Qed.

(** X11: markup added before or after a page never removes a
    detection: the chatbot and voice agent providers found in the page
    are still found, in the same order, and a calculator that was
    detected is still detected. *)
Theorem detection_is_monotone (html before after : string) :
  let page := before +:+ html +:+ after in
  sublist (providers (Extract.checkForChatbot html)) (providers (Extract.checkForChatbot page))
  /\ sublist (providers (Extract.checkForVoiceAgent html))
             (providers (Extract.checkForVoiceAgent page))
  /\ implb (calc_detected (Extract.checkForCalculator html))
           (calc_detected (Extract.checkForCalculator page)) = true.
Proof.
  cbv zeta. split; [apply matched_monotone |]. split; [apply matched_monotone |].
  unfold Extract.checkForCalculator. cbv zeta. cbn [calc_detected].
  pose proof (matched_monotone Extract.calc_registry before html after) as Hm.
  pose proof (test_monotone Extract.calc_form before html after) as H1.
  pose proof (test_monotone Extract.calc_widget before html after) as H2.
  pose proof (test_monotone Extract.calc_script before html after) as H3.
  set (page := before +:+ html +:+ after) in *.
  destruct (bool_decide (_ <> [])) eqn:E; [|reflexivity]. cbn [implb].
  apply bool_decide_eq_true in E. apply bool_decide_eq_true.
  destruct (Regex.test Extract.calc_form html || Regex.test Extract.calc_widget html
            || Regex.test Extract.calc_script html) eqn:Et.
  - assert (Ht : Regex.test Extract.calc_form page || Regex.test Extract.calc_widget page
                 || Regex.test Extract.calc_script page = true).
    { apply orb_true_iff in Et as [Et|Et]; [apply orb_true_iff in Et as [Et|Et] |].
      - rewrite (H1 Et). reflexivity.
      - rewrite (H2 Et). apply orb_true_iff. left. apply orb_true_r.
      - rewrite (H3 Et). apply orb_true_r. }
    rewrite Ht. destruct (bool_decide (Extract.matched Extract.calc_registry page = [])) eqn:Ep.
    + apply bool_decide_eq_true in Ep. rewrite Ep. discriminate.
    + apply bool_decide_eq_false in Ep. exact Ep.
  - assert (Hn : Extract.matched Extract.calc_registry page <> [])
      by (eapply sublist_nonempty; [exact Hm | exact E]).
    destruct (Regex.test Extract.calc_form page || Regex.test Extract.calc_widget page
              || Regex.test Extract.calc_script page); [|exact Hn].
    destruct (bool_decide (Extract.matched Extract.calc_registry page = [])) eqn:Ep;
      [|exact Hn].
    apply bool_decide_eq_true in Ep. contradiction.
Qed.

(** ** Keyword patterns on the lower-cased page *)

Section Keywords.
Import Regex Language.

Lemma lit_match_refl (ci : bool) (c : ascii) : lit_match ci c c = true.
Proof. unfold lit_match. destruct ci; apply Ascii.eqb_refl. Qed.

Lemma lit_matches_itself (ci : bool) (k : string) :
  Matches ci (lit k) (list_ascii_of_string k).
Proof.
  unfold lit. induction (list_ascii_of_string k) as [|c l IH]; cbn [fold_right].
  - constructor.
  - change (c :: l) with ([c] ++ l). constructor; [|exact IH].
    constructor. apply lit_match_refl.
Qed.

Lemma matches_alts (ci : bool) (l : list re) (w : list ascii) :
  l <> [] -> (Matches ci (alts l) w <-> exists r, In r l /\ Matches ci r w).
Proof.
  destruct l as [|a l]; [contradiction|]. intros _. unfold alts.
  revert a. induction l as [|b l IH]; intros a; cbn [fold_left].
  - split.
    + intros H. exists a. split; [left; reflexivity | exact H].
    + intros (r & [<-|[]] & H). exact H.
  - rewrite IH. split.
    + intros (r & [<-|Hr] & H).
      * inversion H; subst.
        -- exists a. split; [left; reflexivity | assumption].
        -- exists b. split; [right; left; reflexivity | assumption].
      * exists r. split; [right; right; exact Hr | exact H].
    + intros (r & [<-|[<-|Hr]] & H).
      * exists (Alt a b). split; [left; reflexivity | apply MAltL; exact H].
      * exists (Alt a b). split; [left; reflexivity | apply MAltR; exact H].
      * exists r. split; [right; exact Hr | exact H].
Qed.

Lemma on_all_pairs_spec (P : ascii -> ascii -> bool) :
  Shape.on_all_pairs P = true -> forall c y, P c y = true.
Proof.
  unfold Shape.on_all_pairs. intros H c y. rewrite forallb_forall in H.
  specialize (H c (all_units_complete c)). rewrite forallb_forall in H.
  exact (H y (all_units_complete y)).
Qed.

(** A lower-case character matches a character of a lower-cased text
    under the [i] flag only when the two are equal. *)
Lemma folding_is_exact :
  Shape.on_all_pairs (fun c y =>
    implb (negb (Shape.is_upper c) && lit_match true c (JS.lower_unit y))
          (Ascii.eqb c (JS.lower_unit y))) = true.
Proof. vm_compute. reflexivity. Qed.

Lemma folding_exact (c y : ascii) :
  Shape.is_upper c = false -> lit_match true c (JS.lower_unit y) = true ->
  c = JS.lower_unit y.
Proof.
  intros Hc Hm. pose proof (on_all_pairs_spec _ folding_is_exact c y) as H.
  cbv beta in H. rewrite Hc, Hm in H. cbn [negb andb implb] in H.
  apply Ascii.eqb_eq. exact H.
Qed.

Lemma units_of_lower (s : string) :
  list_ascii_of_string (JS.toLowerCase s) = map JS.lower_unit (list_ascii_of_string s).
Proof. induction s as [|c s IH]; simpl; [reflexivity | by rewrite IH]. Qed.

(** In a lower-cased text a lower-case literal matches itself only. *)
Lemma lit_in_lower (k : list ascii) : forall (w : list ascii),
  forallb (fun c => negb (Shape.is_upper c)) k = true ->
  Forall (fun x => exists y, x = JS.lower_unit y) w ->
  Matches true (fold_right (fun c r => Cat (Lit c) r) Eps k) w -> w = k.
Proof.
  induction k as [|c k IH]; intros w Hk Hw Hm; cbn [fold_right] in Hm.
  - inversion Hm. reflexivity.
  - cbn [forallb] in Hk. apply andb_true_iff in Hk as [Hc Hk].
    apply matches_cat in Hm as (w1 & w2 & -> & H1 & H2).
    inversion H1 as [|c' x Hx| | | | | | |]; subst.
    apply Forall_app in Hw as [Hx' Hw]. inversion Hx' as [|? ? [y ->] _]; subst.
    apply negb_true_iff in Hc. rewrite (folding_exact c y Hc Hx).
    cbn [app]. f_equal. apply IH; assumption.
Qed.

Lemma part_of_lower (s : string) (pre w post : list ascii) :
  list_ascii_of_string (JS.toLowerCase s) = pre ++ w ++ post ->
  Forall (fun x => exists y, x = JS.lower_unit y) w.
Proof.
  rewrite units_of_lower. intros H.
  assert (Hall : Forall (fun x => exists y, x = JS.lower_unit y)
                   (map JS.lower_unit (list_ascii_of_string s))).
  { apply List.Forall_forall. intros x Hx. apply List.in_map_iff in Hx as (y & <- & _).
    exists y. reflexivity. }
  rewrite H in Hall. apply Forall_app in Hall as [_ Hall].
  apply Forall_app in Hall as [Hall _]. exact Hall.
Qed.

(** On a lower-cased text, a pattern that is an alternation of
    lower-case literals is the test for one of them being a part of
    the text. *)
Lemma keyword_test (ks : list string) (s : string) :
  ks <> [] ->
  forallb (fun k => forallb (fun c => negb (Shape.is_upper c)) (list_ascii_of_string k)) ks
  = true ->
  test (ri (alts (map lit ks))) (JS.toLowerCase s)
  = Text.includes_any ks (JS.toLowerCase s).
Proof.
  intros Hne Hks. apply eq_true_iff_eq. rewrite test_spec. unfold Text.includes_any.
  rewrite existsb_exists. cbn [flag_i body ri].
  assert (Hm : map lit ks <> []) by (destruct ks; [contradiction | discriminate]).
  split.
  - intros (pre & w & post & Hs & Hw).
    apply (matches_alts true _ w Hm) in Hw as (r & Hr & Hw).
    apply List.in_map_iff in Hr as (k & <- & Hk). exists k. split; [exact Hk |].
    rewrite forallb_forall in Hks. specialize (Hks k Hk).
    apply lit_in_lower in Hw; [| exact Hks | eapply part_of_lower; exact Hs].
    subst w. eapply includes_intro. exact Hs.
  - intros (k & Hk & Hi). apply includes_elim in Hi as (pre & post & Hs).
    exists (list_ascii_of_string pre), (list_ascii_of_string k), (list_ascii_of_string post).
    split; [rewrite Hs, !units_of_append; reflexivity |].
    apply (matches_alts true _ _ Hm). exists (lit k).
    split; [apply List.in_map; exact Hk | apply lit_matches_itself].
Qed.

End Keywords.

(** X10: four of the AEO indicators are plain keyword tests on the
    lower-cased page: each is set exactly when one of its keywords is a
    part of the page, in any letter case and in any context (inside a
    longer word too).  The word [expert] sets two of them. *)
Theorem keyword_indicators_are_substring_tests (html : string) :
  let a := Extract2.checkAEOIndicators html in
  let lower := JS.toLowerCase html in
  hasLocalKeywords a
  = Text.includes_any ["serving"; "located in"; "based in"; "near"; "local"] lower
  /\ hasExpertiseIndicators a
     = Text.includes_any ["years of experience"; "certified"; "licensed"; "award"; "expert";
                          "specialist"] lower
  /\ hasComparisonContent a
     = Text.includes_any ["vs"; "versus"; "compared to"; "difference between"; "why choose"]
         lower
  /\ hasAuthorAttribution a
     = Text.includes_any ["written by"; "author"; "expert"; "founder"; "ceo"; "owner"] lower.
Proof.
  cbv zeta. unfold Extract2.checkAEOIndicators. cbv zeta.
  cbn [hasLocalKeywords hasExpertiseIndicators hasComparisonContent hasAuthorAttribution].
  split; [|split; [|split]].
  - apply (keyword_test ["serving"; "located in"; "based in"; "near"; "local"]);
      [discriminate | reflexivity].
  - apply (keyword_test ["years of experience"; "certified"; "licensed"; "award"; "expert";
                         "specialist"]); [discriminate | reflexivity].
  - apply (keyword_test ["vs"; "versus"; "compared to"; "difference between"; "why choose"]);
      [discriminate | reflexivity].
  - apply (keyword_test ["written by"; "author"; "expert"; "founder"; "ceo"; "owner"]);
      [discriminate | reflexivity].
Qed.

(** ** The report and the scorers *)

(** X21: the style class that the report gives the AEO/GEO score
    agrees with the prediction of the scorer: good for a high
    likelihood, average for a medium one, poor for a low one. *)
Theorem report_class_follows_prediction (d : WebsiteData)
    (industry city companyName : string) (c : LLMContext) :
  llmContext (analyzeAEOGEO d industry city companyName) = Some c ->
  let sc := aeo_score (analyzeAEOGEO d industry city companyName) in
  In (Report.getScoreClass sc, prediction c)
     [("good", "HIGH likelihood of being recommended - strong AI signals");
     ("average", "MEDIUM likelihood - some improvements needed");
     ("poor", "LOW likelihood - significant improvements needed for AI visibility")].
Proof.
  unfold analyzeAEOGEO. destruct (has_error d); cbv zeta; cbn [llmContext aeo_score];
    [discriminate |].
  pose proof (aeo_total_range d industry city companyName) as Ht.
  set (t := total (run_steps aeo_initial (aeo_steps d industry city companyName))) in *.
  intros [= <-]. unfold llm_context. cbn [prediction].
  replace (clamp t) with t by (unfold clamp; lia).
  unfold Report.getScoreClass.
  destruct (70 <=? t); [left; reflexivity |].
  destruct (50 <=? t); [right; left; reflexivity |].
  right; right; left; reflexivity.
Qed.

Lemma report_class_follows_prediction_witness :
  exists c,
    llmContext (analyzeAEOGEO Sample.organization_data "Plumbing" "Austin" "Acme Plumbing")
    = Some c
    /\ In (Report.getScoreClass
              (aeo_score (analyzeAEOGEO Sample.organization_data "Plumbing" "Austin"
                            "Acme Plumbing")),
            prediction c)
          [("good", "HIGH likelihood of being recommended - strong AI signals");
          ("average", "MEDIUM likelihood - some improvements needed");
          ("poor", "LOW likelihood - significant improvements needed for AI visibility")].
Proof.
  eexists. split; [vm_compute; reflexivity |].
  eapply (report_class_follows_prediction Sample.organization_data "Plumbing" "Austin"
            "Acme Plumbing").
  vm_compute. reflexivity.
Defined.

(** [Math.round] of a number below a half-integer bound. *)
Lemma round_below (q : Q) (k : Z) : JS.round q < k -> (q < inject_Z k - (1 # 2))%Q.
Proof.
  unfold JS.round. intros H.
  destruct (Qlt_le_dec q (inject_Z k - (1 # 2))) as [Hlt|Hle]; [exact Hlt |].
  exfalso. assert (Hk : (inject_Z k <= q + (1 # 2))%Q).
  { apply Qle_trans with ((inject_Z k - (1 # 2)) + (1 # 2))%Q.
    - apply Qle_lteq. right. ring.
    - apply Qplus_le_compat; [exact Hle | apply Qle_refl]. }
  apply Qfloor_resp_le in Hk. rewrite Qfloor_Z in Hk. lia.
Qed.

(** X22: the fallback insights and the SEO scorer agree on a slow
    mobile page: whenever the insights list the mobile speed issue for
    the mobile score of the handler, the SEO scorer lists poor mobile
    performance for the same report. *)
Theorem slow_mobile_is_an_seo_issue (d : WebsiteData) (pageSpeedMobile : option PageSpeed)
    (data : Insights.InsightData) :
  has_error d = false ->
  Insights.mobileScore data = Handler.speed_score pageSpeedMobile ->
  Insights.slow_mobile data = true ->
  In "Poor mobile performance" (seo_issues (analyzeSEO d pageSpeedMobile)).
Proof.
  intros He Hm Hs. unfold Insights.slow_mobile in Hs. rewrite Hm in Hs.
  apply Z.ltb_lt in Hs. unfold Handler.speed_score in Hs. apply round_below in Hs.
  unfold analyzeSEO. rewrite He. cbv zeta. cbn [seo_issues].
  rewrite issues_run. unfold seo_steps. cbn [map concat].
  do 6 (apply in_or_app; right). apply in_or_app. left.
  unfold mobile_step, mobileScore.
  destruct (Qle_bool (1 # 2) (JS.num_or_zero (performance_sub_score pageSpeedMobile))) eqn:E.
  - exfalso. apply Qle_bool_iff in E.
    set (p := JS.num_or_zero (performance_sub_score pageSpeedMobile)) in *.
    assert (H50 : ((1 # 2) * 100 <= p * 100)%Q)
      by (apply Qmult_le_compat_r; [exact E | discriminate]).
    apply (Qle_lt_trans _ _ _ H50) in Hs. vm_compute in Hs. discriminate Hs.
  - left. reflexivity.
Qed.

Lemma slow_mobile_is_an_seo_issue_witness :
  has_error Sample.organization_data = false
  /\ Insights.mobileScore Cases.unreachable_data = Handler.speed_score None
  /\ Insights.slow_mobile Cases.unreachable_data = true
  /\ In "Poor mobile performance" (seo_issues (analyzeSEO Sample.organization_data None)).
Proof.
  split; [reflexivity |]. split; [vm_compute; reflexivity |]. split; [reflexivity |].
  apply (slow_mobile_is_an_seo_issue Sample.organization_data None Cases.unreachable_data);
    [reflexivity | vm_compute; reflexivity | reflexivity].
Defined.

(** ** The lazy star, and the structured-data blocks *)

Section Lazy.
Import Regex Language.
Variable ci : bool.

(** The lazy star over every character stops at the first rest that
    the continuation accepts. *)
Lemma lazy_any_is_shortest (k : cont) : forall n s out,
  (length s <= n)%nat ->
  iterate ci false any k n s = Some out ->
  exists w s', s = w ++ s' /\ k s' = Some out
               /\ forall w1 w2, w = w1 ++ w2 -> w2 <> [] -> k (w2 ++ s') = None.
Proof.
  induction n as [|n IH]; intros s out Hn H.
  - destruct s; [|simpl in Hn; lia]. simpl in H.
    exists [], []. split; [reflexivity|]. split; [exact H|].
    intros w1 w2 Hw Hne. destruct w1, w2; try discriminate. contradiction.
  - cbn [iterate] in H. destruct (k s) as [o|] eqn:Ek.
    + injection H as ->. exists [], s. split; [reflexivity|]. split; [exact Ek|].
      intros w1 w2 Hw Hne. destruct w1, w2; try discriminate. contradiction.
    + destruct s as [|x s]; [discriminate H|].
      cbn [run any on_char] in H. rewrite any_accepts in H.
      replace (length s <? length (x :: s))%nat with true in H
        by (symmetry; apply Nat.ltb_lt; simpl; lia).
      apply IH in H as (w & s' & -> & Hk & Hfirst); [|simpl in Hn; lia].
      exists (x :: w), s'. split; [reflexivity|]. split; [exact Hk|].
      intros w1 w2 Hw Hne. destruct w1 as [|y w1].
      * simpl in Hw. subst w2. exact Ek.
      * injection Hw as <- ->. apply Hfirst with w1; [reflexivity | exact Hne].
Qed.

(** Running a literal is testing for it at the head of the text. *)
Lemma run_lit (t : list ascii) : forall (s : list ascii) (k : cont),
  run true (fold_right (fun c r => Cat (Lit c) r) Eps t) s k
  = if prefix_ci t s then k (drop (length t) s) else None.
Proof.
  induction t as [|c t IH]; intros s k; cbn [fold_right run prefix_ci length drop].
  - rewrite drop_0. reflexivity.
  - destruct s as [|x s]; [reflexivity|]. cbn [on_char drop].
    destruct (lit_match true c x); [apply IH | reflexivity].
Qed.

(** Each match of a scan is the match that the matcher finds at its
    place. *)
Lemma scan_here (r : re) : forall fuel s,
  Forall (fun pm => exists rest, match_here ci r (snd pm ++ rest) = Some (snd pm, rest))
         (scan fuel ci r s).
Proof.
  induction fuel as [|fuel IH]; intros s; simpl; [constructor|].
  destruct (search ci r s) as [[[pre m] rest]|] eqn:E; [|constructor].
  apply search_here in E.
  constructor; [exists rest; exact E|].
  destruct m as [|y m].
  - destruct rest as [|x rest]; [constructor|].
    specialize (IH rest). destruct (scan fuel ci r rest) as [|[pre' m'] tl]; [constructor|].
    inversion IH; subst. constructor; assumption.
  - apply IH.
Qed.

End Lazy.

Section Blocks.
Import Regex Language.

(** A successful run of a sequence, cut after its first patterns. *)
Lemma run_seq_sound (ci : bool) (l1 l2 : list re) : forall (s : list ascii) (k : cont) out,
  run ci (seq (l1 ++ l2)) s k = Some out ->
  exists w s1, s = w ++ s1 /\ Matches ci (seq l1) w /\ run ci (seq l2) s1 k = Some out.
Proof.
  induction l1 as [|a l1 IH]; intros s k out H.
  - exists [], s. split; [reflexivity|]. split; [constructor | exact H].
  - cbn [app seq fold_right run] in H.
    apply run_sound in H as (w1 & s' & -> & H1 & H).
    apply IH in H as (w & s1 & -> & Hw & H).
    exists (w1 ++ w), s1. rewrite <- app_assoc. split; [reflexivity|].
    split; [|exact H]. cbn [seq fold_right]. constructor; assumption.
Qed.

Lemma prefix_ci_length (t s : list ascii) :
  prefix_ci t s = true -> s = take (length t) s ++ drop (length t) s
                          /\ length (take (length t) s) = length t
                          /\ prefix_ci t (take (length t) s) = true.
Proof.
  revert s. induction t as [|c t IH]; intros s H.
  - cbn [length take drop]. rewrite take_0, drop_0. auto.
  - destruct s as [|x s]; [discriminate H|]. cbn [prefix_ci] in H.
    apply andb_true_iff in H as [Hx H]. destruct (IH s H) as (Hs & Hl & Hp).
    cbn [length take drop app prefix_ci]. rewrite Hx, Hp, Hl, <- Hs. auto.
Qed.

Lemma prefix_ci_app (t s r : list ascii) :
  prefix_ci t s = true -> prefix_ci t (s ++ r) = true.
Proof.
  revert s. induction t as [|c t IH]; intros s H; [reflexivity|].
  destruct s as [|x s]; [discriminate H|]. cbn [prefix_ci app] in *.
  apply andb_true_iff in H as [-> H]. apply IH. exact H.
Qed.

Lemma match_all_elem (p : regex) (s b : string) :
  In b (match_all p s) ->
  exists m rest,
    b = string_of_list_ascii m
    /\ match_here (flag_i p) (body p) (m ++ rest) = Some (m, rest).
Proof.
  unfold match_all, scan_all. intros H. apply List.in_map_iff in H as ([pre m] & <- & Hin).
  pose proof (scan_here (flag_i p) (body p) (S (String.length s)) (list_ascii_of_string s))
    as Hs.
  rewrite List.Forall_forall in Hs. destruct (Hs _ Hin) as [rest Hr].
  exists m, rest. auto.
Qed.

End Blocks.

(** X23: each structured-data block that [extractSchemaMarkup] hands
    to the parser is one script element: an opening tag that declares
    the type [application/ld+json], a content, and the first closing
    script tag after the opening tag, in any letter case.  No closing
    tag starts inside the content, so that a block never runs over two
    elements. *)
Theorem structured_data_block_is_one_element (html b : string) :
  In b (Extract.jsonLdMatches html) ->
  exists opening content closing,
    list_ascii_of_string b = opening ++ content ++ closing
    /\ Language.Matches true Shape.block_opening opening
    /\ length closing = 9%nat
    /\ Language.prefix_ci Shape.block_closing closing = true
    /\ forall c1 c2, content = c1 ++ c2 -> c2 <> [] ->
                     Language.prefix_ci Shape.block_closing (c2 ++ closing) = false.
Proof.
  unfold Extract.jsonLdMatches. intros H.
  apply match_all_elem in H as (m & rest & -> & H).
  rewrite list_ascii_of_string_of_list_ascii.
  unfold Regex.match_here in H.
  destruct (Regex.run _ _ (m ++ rest) Some) as [out|] eqn:E; [|discriminate H].
  assert (out = rest) by congruence. subst out. clear H.
  cbn [Regex.flag_i Regex.body Extract.json_ld_block Regex.ri] in E.
  change (Regex.seq [Regex.lit "<script"; Regex.star (Regex.none_of ">"); Regex.lit "type=";
                     Regex.quote; Regex.lit "application/ld+json"; Regex.quote;
                     Regex.star (Regex.none_of ">"); Regex.lit ">";
                     Regex.lazy_star Regex.any; Regex.lit "</script>"])
    with (Regex.seq ([Regex.lit "<script"; Regex.star (Regex.none_of ">"); Regex.lit "type=";
                      Regex.quote; Regex.lit "application/ld+json"; Regex.quote;
                      Regex.star (Regex.none_of ">"); Regex.lit ">"]
                     ++ [Regex.lazy_star Regex.any; Regex.lit "</script>"])) in E.
  apply run_seq_sound in E as (w & s1 & Hs & Hw & E).
  cbn [Regex.seq fold_right Regex.run Regex.lazy_star] in E.
  change (Language.iterate true false Regex.any
            (fun s2 => Regex.run true (Regex.lit "</script>") s2 (fun s3 => Some s3))
            (length s1) s1 = Some rest) in E.
  apply lazy_any_is_shortest in E as (c & s' & -> & Hk & Hfirst); [|lia].
  unfold Regex.lit in Hk, Hfirst. rewrite run_lit in Hk.
  destruct (Language.prefix_ci (list_ascii_of_string "</script>") s') eqn:Hp;
    [|discriminate Hk].
  injection Hk as Hrest. apply prefix_ci_length in Hp as (Hsplit & Hlen & Hp).
  change (length (list_ascii_of_string "</script>")) with 9%nat in *.
  rewrite Hrest in Hsplit.
  set (closing := take 9 s') in *.
  exists w, c, closing.
  split; [|split; [exact Hw | split; [exact Hlen | split; [exact Hp |]]]].
  - apply (app_inv_tail rest). rewrite Hs, Hsplit, <- !app_assoc. reflexivity.
  - intros c1 c2 Hc Hne. specialize (Hfirst c1 c2 Hc Hne). rewrite run_lit in Hfirst.
    destruct (Language.prefix_ci Shape.block_closing (c2 ++ closing)) eqn:Hq; [|reflexivity].
    apply (prefix_ci_app _ _ rest) in Hq. rewrite <- app_assoc, <- Hsplit in Hq.
    unfold Shape.block_closing in Hq. rewrite Hq in Hfirst. discriminate Hfirst.
Qed.

Lemma structured_data_block_is_one_element_witness :
  In (Sample.block "FAQPage") (Extract.jsonLdMatches Sample.mixed_page)
  /\ exists opening content closing,
       list_ascii_of_string (Sample.block "FAQPage") = opening ++ content ++ closing
       /\ Language.Matches true Shape.block_opening opening
       /\ length closing = 9%nat
       /\ Language.prefix_ci Shape.block_closing closing = true
       /\ forall c1 c2, content = c1 ++ c2 -> c2 <> [] ->
                        Language.prefix_ci Shape.block_closing (c2 ++ closing) = false.
Proof.
  assert (H : In (Sample.block "FAQPage") (Extract.jsonLdMatches Sample.mixed_page))
    by (vm_compute; right; left; reflexivity).
  split; [exact H |].
  apply (structured_data_block_is_one_element Sample.mixed_page (Sample.block "FAQPage") H).
Defined.

(** ** Signals and the content of the page *)

Lemma lower_append (a b : string) :
  JS.toLowerCase (a +:+ b) = JS.toLowerCase a +:+ JS.toLowerCase b.
Proof. induction a as [|c a IH]; simpl; [reflexivity | by rewrite IH]. Qed.

Lemma includes_monotone (k a s b : string) :
  JS.includes k s = true -> JS.includes k (a +:+ s +:+ b) = true.
Proof.
  intros H. apply includes_elim in H as (pre & post & ->).
  apply (includes_intro _ _ (list_ascii_of_string (a +:+ pre)) (list_ascii_of_string (post +:+ b))).
  rewrite !units_of_append, <- !app_assoc. reflexivity.
Qed.

Lemma kept_test (p : Regex.regex) : kept (Regex.test p).
Proof. intros a s b. apply test_monotone. Qed.

Lemma kept_includes (k : string) : kept (JS.includes k).
Proof. intros a s b. apply includes_monotone. Qed.

Lemma kept_lower (f : string -> bool) : kept f -> kept (fun html => f (JS.toLowerCase html)).
Proof. intros H a s b Hs. rewrite !lower_append. apply H. exact Hs. Qed.

Lemma kept_or (f g : string -> bool) : kept f -> kept g -> kept (fun html => f html || g html).
Proof.
  intros Hf Hg a s b H. apply orb_true_iff in H as [H|H].
  - rewrite (Hf a s b H). reflexivity.
  - rewrite (Hg a s b H). apply orb_true_r.
Qed.

Lemma kept_any (ks : list string) : kept (Text.includes_any ks).
Proof.
  intros a s b H. unfold Text.includes_any in *. apply existsb_exists in H as (k & Hk & H).
  apply existsb_exists. exists k. split; [exact Hk | apply includes_monotone; exact H].
Qed.

(** X24: text added before or after a page never takes a signal away:
    the FAQ and review signals, the address and hours signals, the
    four contact signals and the ten AEO indicators that were set stay
    set. *)
Theorem signals_are_kept :
  kept Extract2.checkForFAQ
  /\ kept (fun html => reviews_detected (Extract2.checkForReviews html))
  /\ kept (fun html => hasStarRating (Extract2.checkForReviews html))
  /\ kept (fun html => hasAddress (Extract2.extractLocalBusinessInfo html))
  /\ kept (fun html => hasHours (Extract2.extractLocalBusinessInfo html))
  /\ Forall (fun f => kept (fun html => f (Extract2.extractContactInfo html)))
            [hasPhoneInHeader; hasClickToCall; hasContactForm; hasEmail]
  /\ Forall (fun f => kept (fun html => f (Extract2.checkAEOIndicators html)))
            [hasDefinitiveStatements; hasQAFormat; hasStructuredLists; hasServiceDescriptions;
             hasLocalKeywords; hasExpertiseIndicators; hasProcessDescription;
             hasComparisonContent; hasStatistics; hasAuthorAttribution].
Proof.
  split; [apply (kept_lower (Text.includes_any Extract2.faq_indicators)), kept_any |].
  split; [apply (kept_lower (Text.includes_any Extract2.review_indicators)), kept_any |].
  split; [apply (kept_or (JS.includes "★") (fun html => JS.includes "star-rating"
                                                          (JS.toLowerCase html)));
          [apply kept_includes | apply (kept_lower (JS.includes "star-rating")), kept_includes] |].
  split; [apply (kept_or (fun html => JS.includes "address" (JS.toLowerCase html))
                         (Regex.test Extract2.street_pattern));
          [apply (kept_lower (JS.includes "address")), kept_includes | apply kept_test] |].
  split.
  { apply (kept_or (fun html => JS.includes "hours" (JS.toLowerCase html)
                                || JS.includes "open" (JS.toLowerCase html))
                   (fun html => JS.includes "schedule" (JS.toLowerCase html))).
    - apply (kept_or (fun html => JS.includes "hours" (JS.toLowerCase html))
                     (fun html => JS.includes "open" (JS.toLowerCase html)));
        [apply (kept_lower (JS.includes "hours")) | apply (kept_lower (JS.includes "open"))];
        apply kept_includes.
    - apply (kept_lower (JS.includes "schedule")), kept_includes. }
  split.
  - apply Forall_cons_2; [apply kept_test |]. apply Forall_cons_2; [apply kept_test |].
    apply Forall_cons_2; [apply kept_test |]. apply Forall_cons_2; [apply kept_test |].
    apply Forall_nil_2.
  - apply Forall_cons_2; [apply kept_test |]. apply Forall_cons_2; [apply kept_test |].
    apply Forall_cons_2; [apply kept_test |].
    apply Forall_cons_2; [apply (kept_lower (Regex.test Extract2.services_pattern)), kept_test |].
    apply Forall_cons_2; [apply (kept_lower (Regex.test Extract2.local_pattern)), kept_test |].
    apply Forall_cons_2;
      [apply (kept_lower (Regex.test Extract2.expertise_pattern)), kept_test |].
    apply Forall_cons_2; [apply (kept_lower (Regex.test Extract2.process_pattern)), kept_test |].
    apply Forall_cons_2;
      [apply (kept_lower (Regex.test Extract2.comparison_pattern)), kept_test |].
    apply Forall_cons_2; [apply kept_test |].
    apply Forall_cons_2; [apply (kept_lower (Regex.test Extract2.author_pattern)), kept_test |].
    apply Forall_nil_2.
Qed.

(** ** Runs of the extractor and of the scorers on sample pages *)

(** A script reference to the loader of a chat-widget vendor sets
    [detected] and puts the label of the vendor in [providers]. *)
Example drift_loader_is_detected :
  Extract.checkForChatbot
    "<body><script async src='https://js.driftt.com/include/1/abc.js'></script></body>"
  = {| detected := true; providers := ["Drift"]; confidence := high |}.
Proof. vm_compute. reflexivity. Qed.

(** A keyword without a fingerprint is not a detection. *)
Example chat_mention_is_not_detected :
  Extract.checkForChatbot "<p>Chat with our friendly team, or try our chatbot soon.</p>"
  = {| detected := false; providers := []; confidence := none |}.
Proof. vm_compute. reflexivity. Qed.

(** A structural pattern alone makes the calculator detector report its
    generic label. *)
Example calculator_widget_class :
  Extract.checkForCalculator "<div class='box roi-calculator wide'></div>"
  = {| calc_detected := true; types := ["Calculator/Quote Tool"];
       calc_confidence := medium |}.
Proof. vm_compute. reflexivity. Qed.

(** One [LocalBusiness] block and one [FAQPage] block: both flags,
    [count] 2, and 10 + 5 + 5 points in the AI-readiness scorer. *)
Example local_business_and_faq :
  let page := Sample.block "LocalBusiness" +:+ Sample.block "FAQPage" in
  let sm := Extract.extractSchemaMarkup Json.parse page in
  (count sm, hasLocalBusiness sm, hasFAQSchema sm, hasReviewSchema sm, hasServiceSchema sm)
  = (2, true, true, false, false) /\
  award (ai_schema_step (Sample.scraped page false (Sample.indicators true true))) = 20.
Proof. vm_compute. split; reflexivity. Qed.

(** A block whose text is [null] parses, and reading its [@type]
    throws: the block is skipped like a block that does not parse.  A
    block that is an array has no [@type]: its type is [Unknown]. *)
Example null_and_array_blocks :
  map schemaType
      (schemas (Extract.extractSchemaMarkup Json.parse
                  ("<script type='application/ld+json'>null</script>"
                   +:+ "<script type='application/ld+json'>[1, 2]</script>")))
  = [Json.JStr "Unknown"].
Proof. vm_compute. reflexivity. Qed.

(** The accessibility scorer on a small page: 35 points from a
    sub-score of 0.87, 8 for one image in two with alt text, and every
    other section in full. *)
Example accessibility_run :
  let page :=
    "<html lang='en'><h1>T</h1><img src='a' alt='x'><img src='b'><main></main>"
    +:+ "<a href='#main'>skip</a><style>a:focus{}</style></html>" in
  let r := analyzeAccessibility (Sample.scraped page false (Sample.indicators true true))
                                (Sample.report (6 # 10) (87 # 100)) in
  (a11y_score r, a11y_issues r, lighthouseScore r)
  = (88, ["50% of images missing alt text - screen readers cannot describe them"],
     Some 87).
Proof. vm_compute. reflexivity. Qed.

(** The detailed security scorer on an [https] page with one image
    loaded over [http], an HSTS header and a [Server] header. *)
Example detailed_security_run :
  let d :=
    {| error := None; html := Some "<img src='http://cdn.example/a.png'>";
       headers := Some {[ "strict-transport-security" := "max-age=63072000; includeSubDomains";
                          "server" := "nginx" ]};
       hasHttps := Some true; hasChatbot := None; hasVoiceAgent := None;
       hasCalculator := None; schemaMarkup := None; metaTags := None; headings := None;
       hasFAQ := None; localBusinessInfo := None; hasReviews := None; contactInfo := None;
       aeoIndicators := None |} in
  let r := Revised.analyzeSecurityHeaders "https://acme.example" d in
  (Revised.sec_score r, Revised.grade r,
   map (fun c => (score c, maxScore c)) (Revised.sec_detailedChecks r))
  = (42, "D", [(25, 25); (15, 15); (0, 15); (0, 10); (0, 10); (0, 5); (0, 5); (0, 10); (2, 5)]).
Proof. vm_compute. reflexivity. Qed.

(** The matcher on the three behaviours the extractors rely on: the
    scan of a pattern with the [g] flag moves on after an empty match; a
    lazy star stops at the first closing tag, so two blocks stay two
    matches; the [i] flag folds the case of letters, in sets too. *)
Example scan_with_empty_matches :
  Regex.match_all (Regex.ri (Regex.star (Regex.lit "a"))) "baac"
  = [EmptyString; "aa"; EmptyString; EmptyString].
Proof. vm_compute. reflexivity. Qed.

Example lazy_star_keeps_blocks_apart :
  Extract.jsonLdMatches Sample.mixed_page
  = [Sample.broken_block; Sample.block "FAQPage"].
Proof. vm_compute. reflexivity. Qed.

Example case_is_folded :
  Regex.test Route.Pat.light_hex "<p style='COLOR : #FfE'>" = true /\
  Regex.test Route.Pat.light_hex "<p style='color: #fa'>" = false.
Proof. vm_compute. split; reflexivity. Qed.

(** A content with a double quote inside single quotes is cut at the
    double quote, and the title is trimmed. *)
Example description_is_cut_at_a_quote :
  let page :=
    "<head><TITLE>  Joe's Plumbing | Austin  </title><meta name='description' content='We are plumbers. " +:+ JS.dq +:+ "Best" +:+ JS.dq +:+ " in town'></head>" in
  title (Extract2.extractMetaTags page) = Some "Joe's Plumbing | Austin"
  /\ description (Extract2.extractMetaTags page) = Some "We are plumbers.".
Proof. vm_compute. split; reflexivity. Qed.

(** A heading with markup inside is not listed, nor is a blank one. *)
Example nested_heading_is_not_listed :
  Extract2.extractHeadings "<h1><span>Acme</span></h1><h1> Plumbing </h1><h2>   </h2>"
  = {| h1 := ["Plumbing"]; h2 := []; h3 := [] |}.
Proof. vm_compute. reflexivity. Qed.

(** The telephone number keeps the white space that the pattern takes
    for a separator before the area code. *)
Example phone_keeps_its_leading_space :
  phone (Extract2.extractLocalBusinessInfo Cases.header_page) = Some " (512) 555-1234"
  /\ hasPhoneInHeader (Extract2.extractContactInfo Cases.header_page) = true.
Proof. vm_compute. split; reflexivity. Qed.

(** An audit without a display value, with an empty one, and a missing
    audit all read [N/A]. *)
Example missing_display_values :
  Metrics.extractPerformanceMetrics (Some Cases.audits)
  = {| Metrics.firstContentfulPaint := "1.2 s"; Metrics.largestContentfulPaint := "N/A";
       Metrics.totalBlockingTime := "40 ms"; Metrics.cumulativeLayoutShift := "N/A";
       Metrics.speedIndex := "N/A"; Metrics.timeToInteractive := "N/A" |}.
Proof. vm_compute. reflexivity. Qed.

(** A closing brace after the object makes the slice of the reply
    longer than the object; it does not parse, and the insights are the
    fallback. *)
Example reply_with_a_later_brace_falls_back :
  Insights.generateAIInsights Json.parse true (Some (Cases.reply " (see {details})"))
    Cases.unreachable_data
  = Insights.Fallback (Insights.getDefaultInsights Cases.unreachable_data).
Proof. vm_compute. reflexivity. Qed.

(** A performance sub-score of 0.497 shows as a mobile score of 50 in
    the summary, and as poor mobile performance in the SEO issues. *)
Example rounding_gap :
  Handler.speed_score (Sample.report (497 # 1000) 1) = 50
  /\ seo_issues (analyzeSEO Sample.organization_data (Sample.report (497 # 1000) 1))
     = ["Poor mobile performance"].
Proof. vm_compute. split; reflexivity. Qed.

(** A page request that failed with a message is scored: every score is
    0 but the security score, which is 70 for the normalized URL. *)
Example unreachable_site_summary :
  Handler.POST Json.parse (fun _ => None) (Cases.request "acme.example") None None
    (Extract2.Rejected "fetch failed")
  = Handler.Scored "https://acme.example" (failed "fetch failed")
      {| Handler.mobile := 0; Handler.desktop := 0; Handler.aiReadiness := 0;
         Handler.seo := 0; Handler.aeoGeo := 0; Handler.security := 70;
         Handler.accessibility := 0 |}.
Proof. vm_compute. reflexivity. Qed.

(** Bodies that are not the four strings.  A number for [url] passes
    the test for missing fields and has no [startsWith]; the body
    [null] cannot be taken apart; an array has none of the four
    fields; a zero counts as a missing field. *)
Example handler_on_other_bodies (ToString : Json.json -> option string) :
  Handler.POST Json.parse ToString (Cases.request_with "url" (Json.JNum 123)) None None
    Cases.response = Handler.Caught
  /\ Handler.POST Json.parse ToString (Handler.Parsed Json.JNull) None None Cases.response
     = Handler.Caught
  /\ Handler.POST Json.parse ToString Handler.Unparsable None None Cases.response
     = Handler.Caught
  /\ Handler.POST Json.parse ToString (Handler.Parsed (Json.JArr [Json.JStr "acme.example"]))
       None None Cases.response = Handler.MissingFields
  /\ Handler.POST Json.parse ToString (Cases.request_with "city" (Json.JNum 0)) None None
       Cases.response = Handler.MissingFields.
Proof.
  split; [reflexivity |]. split; [reflexivity |]. split; [reflexivity |].
  split; reflexivity.
Qed.

(** A number for [industry] stops the AEO/GEO scorer on a page that was
    fetched; when the page request failed the scorer returns before it
    reads the industry, and the handler reaches its scores. *)
Example handler_on_a_number_for_the_industry (ToString : Json.json -> option string) :
  ToString (Json.JNum 5) = Some "5" ->
  Handler.POST Json.parse ToString (Cases.request_with "industry" (Json.JNum 5)) None None
    Cases.response = Handler.Caught
  /\ Handler.POST Json.parse ToString (Cases.request_with "industry" (Json.JNum 5)) None None
       (Extract2.Rejected "fetch failed")
     = Handler.Scored "https://acme.example" (failed "fetch failed")
         {| Handler.mobile := 0; Handler.desktop := 0; Handler.aiReadiness := 0;
            Handler.seo := 0; Handler.aeoGeo := 0; Handler.security := 70;
            Handler.accessibility := 0 |}.
Proof.
  intros H. split; [reflexivity |]. vm_compute. rewrite H. reflexivity.
Qed.

(** One image of two without alternative text: 8 points for the alt
    text section and the percentage in the first issue. *)
Example half_of_the_images_described :
  a11y_score (analyzeAccessibility (Cases.fetched (Cases.gallery 1 1)) None) = 23
  /\ head (a11y_issues (analyzeAccessibility (Cases.fetched (Cases.gallery 1 1)) None))
     = Some "50% of images missing alt text - screen readers cannot describe them".
Proof. vm_compute. split; reflexivity. Qed.

(** A keyword inside a longer word counts: [linear] holds [near]. *)
Example keyword_inside_a_word :
  hasLocalKeywords (Extract2.checkAEOIndicators "<p>Our canvas prints and linear designs.</p>")
  = true.
Proof. vm_compute. reflexivity. Qed.
